(** * Verse extraction scripts: a shallow embedding

    The two scripts [scripts/extract_bible_data.py] (World English Bible) and
    [scripts/extract_darby.py] (Darby) slice verse text out of HTML chapter
    files with Python regular expressions.  This file embeds the fragment of
    Python they use -- [str] values, [re.match] / [re.findall] / [re.sub],
    [str.replace], [str.strip], [int] on digit runs -- and the two scripts on
    top of it, and then states and proves properties of the scripts.

    What the embedding fixes:
    - a [str] is a list of code points; [\d] and [\s] are the Unicode
      classes of CPython 3.11 (Unicode 14.0.0);
    - a pattern is a term of [Re.regex] written after the pattern string of
      the script, run by a backtracking matcher;
    - the source directory is a [world]: a listing and, for each file name,
      the text read or the exception raised; [print] appends a line to the
      output; the writing of the JSON file at the end of [main] is taken to
      succeed, and so is [os.listdir];
    - integers are unbounded, and the limit newer CPython versions put on
      the length of a digit string given to [int] is left out. *)

From Stdlib Require Import String Ascii.
From Stdlib Require Import List NArith ZArith Bool Lia Sorted.
Import ListNotations.

(** ** Python strings *)

Module Py.

(** A Python [str] is a sequence of Unicode code points. *)
Definition pystr := list N.

(** An ASCII literal of the scripts, as code points. *)
Definition lit (s : string) : pystr :=
  map N_of_ascii (list_ascii_of_string s).
Arguments lit s%_string.

(** The double quote character, which occurs inside several patterns. *)
Definition DQ : N := 34.

Fixpoint str_eqb (a b : pystr) : bool :=
  match a, b with
  | [], [] => true
  | x :: a', y :: b' => N.eqb x y && str_eqb a' b'
  | _, _ => false
  end.

(** [x in xs] for a list (or the keys of a dict) of strings. *)
Definition str_in (x : pystr) (xs : list pystr) : bool :=
  existsb (str_eqb x) xs.

(** A dict with string keys, in insertion order; [d[k]] and [k in d]. *)
Definition dict := list (pystr * pystr).

Fixpoint dict_get (d : dict) (k : pystr) : option pystr :=
  match d with
  | [] => None
  | (k', v) :: d' => if str_eqb k k' then Some v else dict_get d' k
  end.

(** [list.index(x)], [None] standing for the [ValueError]. *)
Fixpoint list_index (x : pystr) (xs : list pystr) : option nat :=
  match xs with
  | [] => None
  | y :: xs' => if str_eqb x y then Some 0 else option_map S (list_index x xs')
  end.

(** [s.startswith(p)], returning what follows the prefix. *)
Fixpoint strip_prefix (p s : pystr) : option pystr :=
  match p, s with
  | [], _ => Some s
  | a :: p', b :: s' => if N.eqb a b then strip_prefix p' s' else None
  | _ :: _, [] => None
  end.

Definition startswith (p s : pystr) : bool :=
  match strip_prefix p s with Some _ => true | None => false end.

(** [p in s] for strings: [p] occurs somewhere in [s]. *)
Fixpoint occurs (p s : pystr) : bool :=
  match s with
  | [] => startswith p []
  | _ :: s' => startswith p s || occurs p s'
  end.

(** *** Character classes

    [\s] on [str] patterns and [str.strip()] use the same Unicode white space
    test; [\d] is the Unicode category Nd, which comes in runs of ten code
    points (fifty for the mathematical digits) valued 0 to 9 in order.  The
    tables are those of Unicode 14.0.0 (CPython 3.11). *)

Definition whitespace : list N :=
  [9; 10; 11; 12; 13; 28; 29; 30; 31; 32; 133; 160; 5760;
   8192; 8193; 8194; 8195; 8196; 8197; 8198; 8199; 8200; 8201; 8202;
   8232; 8233; 8239; 8287; 12288]%N.

Definition isspace (c : N) : bool := existsb (N.eqb c) whitespace.

Definition Nd_runs : list (N * N) :=
  [(48, 10); (1632, 10); (1776, 10); (1984, 10); (2406, 10); (2534, 10);
   (2662, 10); (2790, 10); (2918, 10); (3046, 10); (3174, 10); (3302, 10);
   (3430, 10); (3558, 10); (3664, 10); (3792, 10); (3872, 10); (4160, 10);
   (4240, 10); (6112, 10); (6160, 10); (6470, 10); (6608, 10); (6784, 10);
   (6800, 10); (6992, 10); (7088, 10); (7232, 10); (7248, 10); (42528, 10);
   (43216, 10); (43264, 10); (43472, 10); (43504, 10); (43600, 10);
   (44016, 10); (65296, 10); (66720, 10); (68912, 10); (69734, 10);
   (69872, 10); (69942, 10); (70096, 10); (70384, 10); (70736, 10);
   (70864, 10); (71248, 10); (71360, 10); (71472, 10); (71904, 10);
   (72016, 10); (72784, 10); (73040, 10); (73120, 10); (92768, 10);
   (92864, 10); (93008, 10); (120782, 50); (123200, 10); (123632, 10);
   (125264, 10); (130032, 10)]%N.

Fixpoint decimal_in (runs : list (N * N)) (c : N) : option N :=
  match runs with
  | [] => None
  | (start, len) :: runs' =>
      if (N.leb start c && N.ltb c (start + len))%bool
      then Some ((c - start) mod 10)%N
      else decimal_in runs' c
  end.

(** The digit value of a decimal digit character. *)
Definition decimal (c : N) : option N := decimal_in Nd_runs c.

(** [\d] *)
Definition isdecimal (c : N) : bool :=
  match decimal c with Some _ => true | None => false end.

(** [.] under [re.DOTALL] *)
Definition anychar (_ : N) : bool := true.

(** [[^>]] *)
Definition not_gt (c : N) : bool := negb (N.eqb c 62).

(** [[A-Z0-9]] *)
Definition upper_or_digit (c : N) : bool :=
  (N.leb 65 c && N.leb c 90) || (N.leb 48 c && N.leb c 57).

(** [int(s)] for [s] a run of decimal digits, which is all the scripts apply
    it to (the captures of [\d+]): the base-ten value, each digit taken
    with its Unicode digit value.  Python integers are unbounded; the
    runs of digits [int()] refuses, those of more than 4300 digits, are
    left to [Strict.int]. *)
Definition digit (c : N) : Z :=
  match decimal c with Some v => Z.of_N v | None => 0%Z end.

Definition int (s : pystr) : Z :=
  fold_left (fun acc c => (10 * acc + digit c)%Z) s 0%Z.

(** [str(n)] for an integer, as the f-strings format it. *)
Fixpoint uint_chars (d : Decimal.uint) : pystr :=
  match d with
  | Decimal.Nil => []
  | Decimal.D0 d' => 48%N :: uint_chars d'
  | Decimal.D1 d' => 49%N :: uint_chars d'
  | Decimal.D2 d' => 50%N :: uint_chars d'
  | Decimal.D3 d' => 51%N :: uint_chars d'
  | Decimal.D4 d' => 52%N :: uint_chars d'
  | Decimal.D5 d' => 53%N :: uint_chars d'
  | Decimal.D6 d' => 54%N :: uint_chars d'
  | Decimal.D7 d' => 55%N :: uint_chars d'
  | Decimal.D8 d' => 56%N :: uint_chars d'
  | Decimal.D9 d' => 57%N :: uint_chars d'
  end.

Definition str_of_int (z : Z) : pystr :=
  match z with
  | Z0 => [48%N]
  | Zpos p => uint_chars (Pos.to_uint p)
  | Zneg p => 45%N :: uint_chars (Pos.to_uint p)
  end.

(** [s.strip()]: leading and trailing white space removed. *)
Fixpoint dropwhile (cls : N -> bool) (s : pystr) : pystr :=
  match s with
  | c :: s' => if cls c then dropwhile cls s' else s
  | [] => []
  end.

Definition lstrip (s : pystr) : pystr := dropwhile isspace s.

Definition rstrip (s : pystr) : pystr := rev (lstrip (rev s)).

Definition strip (s : pystr) : pystr := rstrip (lstrip s).

(** [sorted(xs)] for a list of strings: code point order. *)
Fixpoint str_leb (a b : pystr) : bool :=
  match a, b with
  | [], _ => true
  | _ :: _, [] => false
  | x :: a', y :: b' => N.ltb x y || (N.eqb x y && str_leb a' b')
  end.

Fixpoint insert_sorted (x : pystr) (xs : list pystr) : list pystr :=
  match xs with
  | [] => [x]
  | y :: xs' => if str_leb x y then x :: xs else y :: insert_sorted x xs'
  end.

Definition sorted (xs : list pystr) : list pystr :=
  fold_right insert_sorted [] xs.

End Py.

(** ** The regular expressions of the scripts

    A backtracking matcher for the constructs the scripts' patterns use.
    Repetition is only ever applied to a single character class, so the
    matcher is structural in the pattern and, within a repetition, in the
    subject string. *)

Module Re.
Import Py.

Inductive regex : Type :=
| Lit (p : pystr)                 (* literal characters *)
| One (cls : N -> bool)           (* one character of a class *)
| Star (cls : N -> bool)          (* cls*   greedy *)
| StarLazy (cls : N -> bool)      (* cls*?  lazy *)
| Cat (r1 r2 : regex)
| Alt (r1 r2 : regex)             (* r1|r2 *)
| Group (r : regex)               (* (r)   capturing *)
| Ahead (r : regex)               (* (?=r) *)
| Eos.                            (* $     without re.MULTILINE *)

(** [cls+] and [cls+?] *)
Definition Plus (cls : N -> bool) : regex := Cat (One cls) (Star cls).
Definition PlusLazy (cls : N -> bool) : regex := Cat (One cls) (StarLazy cls).

(** A match in progress: the groups closed so far and the rest of the
    subject. *)
Definition groups := list pystr.
Definition result := option (groups * pystr).
Definition cont := pystr -> groups -> result.

(** Greedy repetition tries the longest run first and gives characters back
    one at a time; lazy repetition tries the continuation first. *)
Fixpoint star (cls : N -> bool) (s : pystr) (g : groups) (k : cont) : result :=
  match s with
  | c :: s' =>
      if cls c then
        match star cls s' g k with
        | Some r => Some r
        | None => k s g
        end
      else k s g
  | [] => k s g
  end.

Fixpoint star_lazy (cls : N -> bool) (s : pystr) (g : groups) (k : cont)
  : result :=
  match k s g with
  | Some r => Some r
  | None =>
      match s with
      | c :: s' => if cls c then star_lazy cls s' g k else None
      | [] => None
      end
  end.

Fixpoint exec (r : regex) (s : pystr) (g : groups) (k : cont) : result :=
  match r with
  | Lit p =>
      match strip_prefix p s with
      | Some s' => k s' g
      | None => None
      end
  | One cls =>
      match s with
      | c :: s' => if cls c then k s' g else None
      | [] => None
      end
  | Star cls => star cls s g k
  | StarLazy cls => star_lazy cls s g k
  | Cat r1 r2 => exec r1 s g (fun s' g' => exec r2 s' g' k)
  | Alt r1 r2 =>
      match exec r1 s g k with
      | Some x => Some x
      | None => exec r2 s g k
      end
  | Group r1 =>
      exec r1 s g
        (fun s' g' => k s' (g' ++ [firstn (length s - length s') s]))
  | Ahead r1 =>
      match exec r1 s g (fun s' g' => Some (g', s')) with
      | Some _ => k s g
      | None => None
      end
  | Eos =>
      match s with
      | [] => k s g
      | [10%N] => k s g
      | _ => None
      end
  end.

(** [re.match(r, s)]: a match anchored at the start of [s]; the groups and
    what follows the match. *)
Definition re_match (r : regex) (s : pystr) : result :=
  exec r s [] (fun s' g => Some (g, s')).

(** [m.group(i)], numbered from 1. *)
Definition group (g : groups) (i : nat) : pystr := nth (i - 1) g [].

(** The scanning loop of [re.sub] and [re.findall]: try a match at every
    position from the left; after a match, go on where it ends.  [skip]
    counts the characters of the last match still to be passed over.  None
    of the scripts' patterns can match the empty string. *)
Fixpoint sub_from (r : regex) (repl : pystr) (skip : nat) (s : pystr) : pystr :=
  match s with
  | [] => []
  | c :: s' =>
      match skip with
      | S n => sub_from r repl n s'
      | O =>
          match re_match r s with
          | Some (_, rest) =>
              match length s - length rest with
              | S n => repl ++ sub_from r repl n s'
              | O => c :: sub_from r repl 0 s'
              end
          | None => c :: sub_from r repl 0 s'
          end
      end
  end.

(** [re.sub(r, repl, s)] *)
Definition re_sub (r : regex) (repl s : pystr) : pystr := sub_from r repl 0 s.

(** [s.replace(old, new)] for a non-empty [old]. *)
Definition replace (old new s : pystr) : pystr := re_sub (Lit old) new s.

(** [re.finditer]: each match with the offset it starts at. *)
Fixpoint finditer_from (r : regex) (skip pos : nat) (s : pystr)
  : list (nat * groups) :=
  match s with
  | [] => []
  | _ :: s' =>
      match skip with
      | S n => finditer_from r n (S pos) s'
      | O =>
          match re_match r s with
          | Some (g, rest) =>
              match length s - length rest with
              | S n => (pos, g) :: finditer_from r n (S pos) s'
              | O => finditer_from r 0 (S pos) s'
              end
          | None => finditer_from r 0 (S pos) s'
          end
      end
  end.

Definition re_finditer (r : regex) (s : pystr) : list (nat * groups) :=
  finditer_from r 0 0 s.

(** [re.findall(r, s)] for a pattern with three groups: the triples of
    group texts, in the order the matches are found. *)
Definition re_findall3 (r : regex) (s : pystr)
  : list (pystr * pystr * pystr) :=
  map (fun m => (group (snd m) 1, group (snd m) 2, group (snd m) 3))
      (re_finditer r s).

End Re.

(** ** What the two scripts share

    Both scripts clean a verse body with the same tag pattern, the same
    entity replacements and the same white space pattern, and both take
    their input from a directory of chapter files. *)

Module Markup.
Import Py Re.

(** [<[^>]+>] *)
Definition tag_pattern : regex :=
  Cat (Lit (lit "<")) (Cat (Plus not_gt) (Lit (lit ">"))).

(** [\s+] *)
Definition space_pattern : regex := Plus isspace.

(** The [# Decode HTML entities] block: seven [str.replace] calls in this
    order. *)
Definition decode_entities (text : pystr) : pystr :=
  let text := replace (lit "&#160;") (lit " ") text in
  let text := replace (lit "&nbsp;") (lit " ") text in
  let text := replace (lit "&lt;") (lit "<") text in
  let text := replace (lit "&gt;") (lit ">") text in
  let text := replace (lit "&amp;") (lit "&") text in
  let text := replace (lit "&quot;") [DQ] text in
  let text := replace (lit "&apos;") (lit "'") text in
  text.

(** [<span class="verse"] and [</div>], the two alternatives of the
    lookahead that ends a verse body. *)
Definition verse_open : pystr :=
  lit "<span class=" ++ DQ :: lit "verse" ++ [DQ].

Definition div_close : pystr := lit "</div>".

(** [id="V(\d+)">(\d+)&#160;</span>(.*?)(?=<span class="verse"|</div>)] *)
Definition marker_pattern : regex :=
  Cat (Lit (lit "id=" ++ DQ :: lit "V"))
 (Cat (Group (Plus isdecimal))
 (Cat (Lit (DQ :: lit ">"))
 (Cat (Group (Plus isdecimal))
 (Cat (Lit (lit "&#160;</span>"))
 (Cat (Group (StarLazy anychar))
      (Ahead (Alt (Lit verse_open) (Lit div_close)))))))).

(** The book tables are the same in both scripts. *)
Definition BOOK_NAMES : dict :=
  [
   (lit "GEN", lit "Genesis"); (lit "EXO", lit "Exodus");
   (lit "LEV", lit "Leviticus"); (lit "NUM", lit "Numbers");
   (lit "DEU", lit "Deuteronomy"); (lit "JOS", lit "Joshua");
   (lit "JDG", lit "Judges"); (lit "RUT", lit "Ruth");
   (lit "1SA", lit "1 Samuel"); (lit "2SA", lit "2 Samuel");
   (lit "1KI", lit "1 Kings"); (lit "2KI", lit "2 Kings");
   (lit "1CH", lit "1 Chronicles"); (lit "2CH", lit "2 Chronicles");
   (lit "EZR", lit "Ezra"); (lit "NEH", lit "Nehemiah");
   (lit "EST", lit "Esther"); (lit "JOB", lit "Job");
   (lit "PSA", lit "Psalms"); (lit "PRO", lit "Proverbs");
   (lit "ECC", lit "Ecclesiastes"); (lit "SNG", lit "Song of Solomon");
   (lit "ISA", lit "Isaiah"); (lit "JER", lit "Jeremiah");
   (lit "LAM", lit "Lamentations"); (lit "EZK", lit "Ezekiel");
   (lit "DAN", lit "Daniel"); (lit "HOS", lit "Hosea");
   (lit "JOL", lit "Joel"); (lit "AMO", lit "Amos");
   (lit "OBA", lit "Obadiah"); (lit "JON", lit "Jonah");
   (lit "MIC", lit "Micah"); (lit "NAM", lit "Nahum");
   (lit "HAB", lit "Habakkuk"); (lit "ZEP", lit "Zephaniah");
   (lit "HAG", lit "Haggai"); (lit "ZEC", lit "Zechariah");
   (lit "MAL", lit "Malachi"); (lit "MAT", lit "Matthew");
   (lit "MRK", lit "Mark"); (lit "LUK", lit "Luke");
   (lit "JHN", lit "John"); (lit "ACT", lit "Acts");
   (lit "ROM", lit "Romans"); (lit "1CO", lit "1 Corinthians");
   (lit "2CO", lit "2 Corinthians"); (lit "GAL", lit "Galatians");
   (lit "EPH", lit "Ephesians"); (lit "PHP", lit "Philippians");
   (lit "COL", lit "Colossians"); (lit "1TH", lit "1 Thessalonians");
   (lit "2TH", lit "2 Thessalonians"); (lit "1TI", lit "1 Timothy");
   (lit "2TI", lit "2 Timothy"); (lit "TIT", lit "Titus");
   (lit "PHM", lit "Philemon"); (lit "HEB", lit "Hebrews");
   (lit "JAS", lit "James"); (lit "1PE", lit "1 Peter");
   (lit "2PE", lit "2 Peter"); (lit "1JN", lit "1 John");
   (lit "2JN", lit "2 John"); (lit "3JN", lit "3 John");
   (lit "JUD", lit "Jude"); (lit "REV", lit "Revelation")
  ].

Definition BOOK_ORDER : list pystr :=
  [
   lit "Genesis"; lit "Exodus"; lit "Leviticus"; lit "Numbers";
   lit "Deuteronomy"; lit "Joshua"; lit "Judges"; lit "Ruth";
   lit "1 Samuel"; lit "2 Samuel"; lit "1 Kings"; lit "2 Kings";
   lit "1 Chronicles"; lit "2 Chronicles"; lit "Ezra"; lit "Nehemiah";
   lit "Esther"; lit "Job"; lit "Psalms"; lit "Proverbs";
   lit "Ecclesiastes"; lit "Song of Solomon"; lit "Isaiah"; lit "Jeremiah";
   lit "Lamentations"; lit "Ezekiel"; lit "Daniel"; lit "Hosea";
   lit "Joel"; lit "Amos"; lit "Obadiah"; lit "Jonah";
   lit "Micah"; lit "Nahum"; lit "Habakkuk"; lit "Zephaniah";
   lit "Haggai"; lit "Zechariah"; lit "Malachi"; lit "Matthew";
   lit "Mark"; lit "Luke"; lit "John"; lit "Acts";
   lit "Romans"; lit "1 Corinthians"; lit "2 Corinthians"; lit "Galatians";
   lit "Ephesians"; lit "Philippians"; lit "Colossians"; lit "1 Thessalonians";
   lit "2 Thessalonians"; lit "1 Timothy"; lit "2 Timothy"; lit "Titus";
   lit "Philemon"; lit "Hebrews"; lit "James"; lit "1 Peter";
   lit "2 Peter"; lit "1 John"; lit "2 John"; lit "3 John";
   lit "Jude"; lit "Revelation"
  ].


(** The source directory: the names [os.listdir] returns and, for each name,
    what [open(...).read()] gives: the text of the file, or the message of
    the exception it raises. *)
Inductive read_result : Type :=
| Content (html_content : pystr)
| IOError (e : pystr).

Record world := {
  listdir : list pystr;
  read_text : pystr -> read_result
}.

(** The dicts [main] appends to [all_verses]. *)
Record VerseObj := {
  Book : pystr;
  Chapter : Z;
  Verse : Z;
  Text : pystr;
  Translation : pystr;
  Reference : pystr;
  FullText : pystr;
  Testament : pystr;
  BookNumber : Z
}.

(** The state of [main]: the accumulated records and the lines printed. *)
Record state := {
  all_verses : list VerseObj;
  stdout : list pystr
}.

Definition print (line : pystr) (st : state) : state :=
  {| all_verses := all_verses st; stdout := stdout st ++ [line] |}.

(** A statement either completes or raises an exception nothing catches. *)
Inductive completion : Type :=
| Normal (st : state)
| Raised (st : state).

(** What a run of [main] leaves behind: the list handed to [json.dump], or
    an exception that left [main] before the output was written. *)
Inductive outcome : Type :=
| Written (records : list VerseObj) (out : list pystr)
| Aborted (out : list pystr).

End Markup.

(** ** scripts/extract_bible_data.py *)

Module extract_bible_data.
Import Py Re Markup.

(** The dicts [extract_verses_from_html] returns. *)
Record verse := { verse_num : Z; text : pystr }.

(** [<span class="popup">.*?</span>] *)
Definition popup_open : pystr :=
  lit "<span class=" ++ DQ :: lit "popup" ++ DQ :: lit ">".

Definition span_close : pystr := lit "</span>".

Definition popup_pattern : regex :=
  Cat (Lit popup_open) (Cat (StarLazy anychar) (Lit span_close)).

Definition pattern : regex := marker_pattern.

(** [[†‡§¶]]: U+2020, U+2021, U+00A7, U+00B6 *)
Definition footnote_marker : regex :=
  One (fun c => existsb (N.eqb c) [8224; 8225; 167; 182]%N).

(** The [# Clean up the text] block of the loop. *)
Definition clean_text (text : pystr) : pystr :=
  let text := re_sub tag_pattern (lit " ") text in
  let text := decode_entities text in
  let text := re_sub footnote_marker [] text in
  let text := strip (re_sub space_pattern (lit " ") text) in
  text.

(** [for verse_num_str, display_num, text in matches: ...] *)
Fixpoint for_matches (matches : list (pystr * pystr * pystr))
  (verses : list verse) : list verse :=
  match matches with
  | [] => verses
  | (verse_num_str, display_num, text) :: matches' =>
      let verse_num := int verse_num_str in
      let text := clean_text text in
      match text with
      | [] => for_matches matches' verses
      | _ :: _ =>
          for_matches matches'
            (verses ++ [{| verse_num := verse_num; text := text |}])
      end
  end.

Definition extract_verses_from_html (html_content : pystr) : list verse :=
  let html_content := re_sub popup_pattern [] html_content in
  let matches := re_findall3 pattern html_content in
  for_matches matches [].

Definition BOOK_NAMES : dict := Markup.BOOK_NAMES.

Definition OLD_TESTAMENT_BOOKS : list pystr :=
  [
   lit "Genesis"; lit "Exodus"; lit "Leviticus"; lit "Numbers";
   lit "Deuteronomy"; lit "Joshua"; lit "Judges"; lit "Ruth";
   lit "1 Samuel"; lit "2 Samuel"; lit "1 Kings"; lit "2 Kings";
   lit "1 Chronicles"; lit "2 Chronicles"; lit "Ezra"; lit "Nehemiah";
   lit "Esther"; lit "Job"; lit "Psalms"; lit "Proverbs";
   lit "Ecclesiastes"; lit "Song of Solomon"; lit "Isaiah"; lit "Jeremiah";
   lit "Lamentations"; lit "Ezekiel"; lit "Daniel"; lit "Hosea";
   lit "Joel"; lit "Amos"; lit "Obadiah"; lit "Jonah";
   lit "Micah"; lit "Nahum"; lit "Habakkuk"; lit "Zephaniah";
   lit "Haggai"; lit "Zechariah"; lit "Malachi"
  ].

(** [None] when [open] or [read] raises. *)
Definition extract_verses_from_file (w : world) (filepath : pystr)
  : option (list verse) :=
  match read_text w filepath with
  | Content html_content => Some (extract_verses_from_html html_content)
  | IOError _ => None
  end.

(** [([A-Z0-9]+?)(\d+)$] *)
Definition name_pattern : regex :=
  Cat (Group (PlusLazy upper_or_digit)) (Cat (Group (Plus isdecimal)) Eos).

(** [None] is the pair [None, None]. *)
Definition parse_filename (filename : pystr) : option (pystr * Z) :=
  let name_no_ext := replace (lit ".htm") [] filename in
  match re_match name_pattern name_no_ext with
  | Some (g, _) =>
      let book_code := group g 1 in
      let chapter := int (group g 2) in
      Some (book_code, chapter)
  | None => None
  end.

(** [[A-Z0-9]+\d+\.htm] *)
Definition chapter_file : regex :=
  Cat (Plus upper_or_digit) (Cat (Plus isdecimal) (Lit (lit ".htm"))).

Definition is_chapter_file (f : pystr) : bool :=
  match re_match chapter_file f with Some _ => true | None => false end.

Definition verse_obj (book_name : pystr) (chapter : Z) (testament : pystr)
  (verse_data : verse) : VerseObj :=
  let verse_num := verse_num verse_data in
  let text := text verse_data in
  let reference :=
    book_name ++ lit " " ++ str_of_int chapter ++ lit ":"
              ++ str_of_int verse_num in
  {| Book := book_name;
     Chapter := chapter;
     Verse := verse_num;
     Text := text;
     Translation := lit "WEB";
     Reference := reference;
     FullText := reference ++ lit ": " ++ text;
     Testament := testament;
     BookNumber := 0 |}.

Definition len_line (before : string) (n : nat) (after : string) : pystr :=
  lit before ++ str_of_int (Z.of_nat n) ++ lit after.

(** The body of [for filename in html_files]. *)
Definition process_file (w : world) (st : state) (filename : pystr)
  : completion :=
  match parse_filename filename with
  | None => Normal st
  | Some (book_code, chapter) =>
      match dict_get BOOK_NAMES book_code with
      | None => Normal st
      | Some book_name =>
          let testament :=
            if str_in book_name OLD_TESTAMENT_BOOKS
            then lit "Old" else lit "New" in
          match extract_verses_from_file w filename with
          | None => Raised st
          | Some [] =>
              Normal (print (lit "WARNING: No verses found in " ++ filename) st)
          | Some verses =>
              let st :=
                {| all_verses :=
                     all_verses st
                       ++ map (verse_obj book_name chapter testament) verses;
                   stdout := stdout st |} in
              if Nat.eqb (Nat.modulo (length (all_verses st)) 500) 0
              then Normal (print (len_line "Processed "
                                    (length (all_verses st))
                                    " verses so far...") st)
              else Normal st
          end
      end
  end.

Fixpoint for_files (w : world) (html_files : list pystr) (st : state)
  : completion :=
  match html_files with
  | [] => Normal st
  | filename :: html_files' =>
      match process_file w st filename with
      | Normal st' => for_files w html_files' st'
      | Raised st' => Raised st'
      end
  end.

(** The [# Test first file] block. *)
Definition test_first_file (w : world) (html_files : list pystr) (st : state)
  : completion :=
  match html_files with
  | [] => Normal st
  | test_file :: _ =>
      let st := print (lit "Testing first file: " ++ test_file) st in
      match extract_verses_from_file w test_file with
      | None => Raised st
      | Some test_verses =>
          Normal (print (len_line "Test extraction resulted in "
                           (length test_verses) " verses") st)
      end
  end.

Definition output_file : pystr :=
  lit "C:\Users\DJMcC\OneDrive\Desktop\bible-playground\bible-playground\src\AI-Bible-App.Maui\Data\Bible\web.json".

(** [main] in a run in which [os.listdir] returns, every [int()] returns
    and the output file is written; the runs in which one of these raises
    are those of [Strict.extract_bible_data.main]. *)
Definition main (w : world) : outcome :=
  let html_files := sorted (filter is_chapter_file (listdir w)) in
  let st := {| all_verses := []; stdout := [] |} in
  let st := print (len_line "Found " (length html_files) " chapter files") st in
  match test_first_file w html_files st with
  | Raised st => Aborted (stdout st)
  | Normal st =>
      match for_files w html_files st with
      | Raised st => Aborted (stdout st)
      | Normal st =>
          let st := print (10%N :: len_line "Total verses extracted: "
                                     (length (all_verses st)) "") st in
          let st := print (lit "Output written to: " ++ output_file) st in
          Written (all_verses st) (stdout st)
      end
  end.

End extract_bible_data.

(** ** scripts/extract_darby.py *)

Module extract_darby.
Import Py Re Markup.

(** The dicts [extract_verses_from_html] returns. *)
Record verse := { verse_number : Z; text : pystr }.

Definition DARBY_DIR : pystr :=
  lit "C:\Users\DJMcC\OneDrive\Desktop\bible-playground\darby".

Definition OUTPUT_JSON : pystr :=
  lit "C:\Users\DJMcC\OneDrive\Desktop\bible-playground\src\AI-Bible-App.Maui\Data\Bible\darby.json".

Definition BOOK_NAMES : dict := Markup.BOOK_NAMES.

Definition BOOK_ORDER : list pystr := Markup.BOOK_ORDER.

(** [([A-Z0-9]{3})(\d+)\.htm] *)
Definition name_pattern : regex :=
  Cat (Group (Cat (One upper_or_digit)
             (Cat (One upper_or_digit) (One upper_or_digit))))
 (Cat (Group (Plus isdecimal))
      (Lit (lit ".htm"))).

(** [None] is the pair [None, None]. *)
Definition parse_filename (filename : pystr) : option (pystr * Z) :=
  match re_match name_pattern filename with
  | Some (g, _) =>
      let book_code := group g 1 in
      let chapter := int (group g 2) in
      Some (book_code, chapter)
  | None => None
  end.

(** [<span class="verse" id="V(\d+)">(\d+)&#160;</span>(.*?)(?=<span class="verse"|</div>)] *)
Definition pattern : regex :=
  Cat (Lit (verse_open ++ lit " ")) marker_pattern.

(** The [# Clean up the verse text] block of the loop. *)
Definition clean_text (verse_text : pystr) : pystr :=
  let text := re_sub tag_pattern (lit " ") verse_text in
  let text := decode_entities text in
  let text := replace (lit "]") [] (replace (lit "[") [] text) in
  let text := strip (re_sub space_pattern (lit " ") text) in
  text.

(** [for match in matches: ...] *)
Fixpoint for_matches (matches : list (pystr * pystr * pystr))
  (verses : list verse) : list verse :=
  match matches with
  | [] => verses
  | (verse_id, verse_num, verse_text) :: matches' =>
      let text := clean_text verse_text in
      match text with
      | [] => for_matches matches' verses
      | _ :: _ =>
          for_matches matches'
            (verses ++ [{| verse_number := int verse_num; text := text |}])
      end
  end.

Definition extract_verses_from_html (html_content : pystr) : list verse :=
  let matches := re_findall3 pattern html_content in
  for_matches matches [].

Definition get_testament (book_name : pystr) : pystr :=
  let ot_books := firstn 39 BOOK_ORDER in
  if str_in book_name ot_books then lit "Old" else lit "New".

Definition is_chapter_file (f : pystr) : bool :=
  match re_match name_pattern f with Some _ => true | None => false end.

Definition verse_obj (book_name : pystr) (chapter : Z) (testament : pystr)
  (book_number : Z) (verse : verse) : VerseObj :=
  let reference :=
    book_name ++ lit " " ++ str_of_int chapter ++ lit ":"
              ++ str_of_int (verse_number verse) in
  {| Book := book_name;
     Chapter := chapter;
     Verse := verse_number verse;
     Text := text verse;
     Translation := lit "Darby";
     Reference := reference;
     FullText := reference ++ lit ": " ++ text verse;
     Testament := testament;
     BookNumber := book_number |}.

Definition len_line (before : string) (n : nat) (after : string) : pystr :=
  lit before ++ str_of_int (Z.of_nat n) ++ lit after.

(** The body of [for html_file in html_files].  Where every [int()]
    returns, nothing in it raises outside the [try], so it completes, and
    what the [except] catches is a read that fails; the other runs are
    those of [Strict.extract_darby.process_file]. *)
Definition process_file (w : world) (st : state) (html_file : pystr)
  : state :=
  match parse_filename html_file with
  | None => st
  | Some (book_code, chapter) =>
      match dict_get BOOK_NAMES book_code with
      | None => st
      | Some book_name =>
          let testament := get_testament book_name in
          let book_number :=
            match list_index book_name BOOK_ORDER with
            | Some i => Z.of_nat i
            | None => 0%Z
            end in
          match read_text w html_file with
          | IOError e =>
              print (lit "Error processing " ++ html_file ++ lit ": " ++ e) st
          | Content html_content =>
              let verses := extract_verses_from_html html_content in
              let st :=
                {| all_verses :=
                     fold_left
                       (fun all_verses verse =>
                          all_verses
                            ++ [verse_obj book_name chapter testament
                                  book_number verse])
                       verses (all_verses st);
                   stdout := stdout st |} in
              if Nat.eqb (Nat.modulo (length (all_verses st)) 5000) 0
                 && Nat.ltb 0 (length (all_verses st))
              then print (len_line "Processed " (length (all_verses st))
                            " verses so far...") st
              else st
          end
      end
  end.

Definition for_files (w : world) (html_files : list pystr) (st : state)
  : state :=
  fold_left (process_file w) html_files st.

(** The [# Test first file] block, which reads outside any [try]. *)
Definition test_first_file (w : world) (html_files : list pystr) (st : state)
  : completion :=
  match html_files with
  | [] => Normal st
  | test_file :: _ =>
      let st := print (lit "Testing first file: " ++ test_file) st in
      match read_text w test_file with
      | IOError _ => Raised st
      | Content test_content =>
          let test_verses := extract_verses_from_html test_content in
          let st := print (len_line "Test extraction resulted in "
                             (length test_verses) " verses") st in
          match test_verses with
          | [] => Normal st
          | v :: _ =>
              Normal (print (lit "Sample verse: " ++ firstn 50 (text v)
                               ++ lit "...") st)
          end
      end
  end.

(** [main] in a run in which [os.listdir] returns, every [int()] returns
    and the output file is written; the runs in which one of these raises
    are those of [Strict.extract_darby.main]. *)
Definition main (w : world) : outcome :=
  let st := {| all_verses := []; stdout := [] |} in
  let st := print (lit "Processing Darby Translation from: " ++ DARBY_DIR) st in
  let html_files := sorted (filter is_chapter_file (listdir w)) in
  let st := print (len_line "Found " (length html_files)
                     " chapter files in Darby Translation") st in
  match test_first_file w html_files st with
  | Raised st => Aborted (stdout st)
  | Normal st =>
      let st := for_files w html_files st in
      let st := print (len_line "Total verses extracted: "
                         (length (all_verses st)) "") st in
      let st := print (lit "Output written to: " ++ OUTPUT_JSON) st in
      let st := print (lit "Darby Translation has been successfully extracted!") st in
      Written (all_verses st) (stdout st)
  end.

End extract_darby.

(** ** The two scripts side by side

    The scripts are near duplicates.  The definitions below select, for a
    script, each of its parts, so that a property can be stated once for
    both. *)

Module Scripts.
Import Py Re Markup.

Inductive script : Type := WEB | DARBY.

Definition parse_filename_of (v : script) : pystr -> option (pystr * Z) :=
  match v with
  | WEB => extract_bible_data.parse_filename
  | DARBY => extract_darby.parse_filename
  end.

Definition pattern_of (v : script) : regex :=
  match v with
  | WEB => extract_bible_data.pattern
  | DARBY => extract_darby.pattern
  end.

(** The text the verse pattern is run on. *)
Definition prepared (v : script) (html_content : pystr) : pystr :=
  match v with
  | WEB => re_sub extract_bible_data.popup_pattern [] html_content
  | DARBY => html_content
  end.

Definition clean_text_of (v : script) : pystr -> pystr :=
  match v with
  | WEB => extract_bible_data.clean_text
  | DARBY => extract_darby.clean_text
  end.

(** A returned record as the pair of its verse number and its text. *)
Definition extract_of (v : script) (html_content : pystr)
  : list (Z * pystr) :=
  match v with
  | WEB =>
      map (fun r => (extract_bible_data.verse_num r, extract_bible_data.text r))
          (extract_bible_data.extract_verses_from_html html_content)
  | DARBY =>
      map (fun r => (extract_darby.verse_number r, extract_darby.text r))
          (extract_darby.extract_verses_from_html html_content)
  end.

(** The three groups of a match: the digits of the [id] attribute, the
    digits displayed, the body. *)
Definition id_digits (m : pystr * pystr * pystr) : pystr := fst (fst m).
Definition display_digits (m : pystr * pystr * pystr) : pystr := snd (fst m).
Definition body (m : pystr * pystr * pystr) : pystr := snd m.

(** The digits a script reads the verse number from. *)
Definition number_digits (v : script) (m : pystr * pystr * pystr) : pystr :=
  match v with
  | WEB => id_digits m
  | DARBY => display_digits m
  end.

(** The record a script makes of a match, and whether it keeps it. *)
Definition record_of (v : script) (m : pystr * pystr * pystr) : Z * pystr :=
  (int (number_digits v m), clean_text_of v (body m)).

Definition keeps (v : script) (m : pystr * pystr * pystr) : bool :=
  match clean_text_of v (body m) with
  | [] => false
  | _ :: _ => true
  end.


Definition process_file_of (v : script) (w : world) (st : state)
  (f : pystr) : completion :=
  match v with
  | WEB => extract_bible_data.process_file w st f
  | DARBY => Normal (extract_darby.process_file w st f)
  end.

Definition for_files_of (v : script) (w : world) (files : list pystr)
  (st : state) : completion :=
  match v with
  | WEB => extract_bible_data.for_files w files st
  | DARBY => Normal (extract_darby.for_files w files st)
  end.

Definition main_of (v : script) : world -> outcome :=
  match v with
  | WEB => extract_bible_data.main
  | DARBY => extract_darby.main
  end.

(** A pattern that opens with a character: every match of it is at least
    one character long. *)
Fixpoint opens_with_char (r : regex) : bool :=
  match r with
  | Lit (_ :: _) => true
  | One _ => true
  | Cat r1 _ => opens_with_char r1
  | Group r1 => opens_with_char r1
  | _ => false
  end.

(** The patterns the scripts hand to [re.sub], [str.replace] and
    [re.findall]. *)
Definition scanned_patterns : list regex :=
  [extract_bible_data.popup_pattern; extract_bible_data.pattern;
   extract_darby.pattern; tag_pattern; space_pattern;
   extract_bible_data.footnote_marker;
   Lit (lit "&#160;"); Lit (lit "&nbsp;"); Lit (lit "&lt;"); Lit (lit "&gt;");
   Lit (lit "&amp;"); Lit (lit "&quot;"); Lit (lit "&apos;");
   Lit (lit "["); Lit (lit "]"); Lit (lit ".htm")].

(** The state a statement ends in, completed or not. *)
Definition state_of (c : completion) : state :=
  match c with Normal st => st | Raised st => st end.

(** Neither the chapter nor the verse of a record is negative. *)
Definition nonneg (r : VerseObj) : Prop :=
  (0 <= Chapter r)%Z /\ (0 <= Verse r)%Z.


(** A verse marker with the given digits, as the chapter files write it:
    [<span class="verse" id="V..">..&#160;</span>]. *)
Definition marker (id_digits display_digits : pystr) : pystr :=
  verse_open ++ lit " id=" ++ DQ :: lit "V" ++ id_digits
    ++ DQ :: lit ">" ++ display_digits ++ lit "&#160;</span>".

(** Where the chapter digits [ds] stand in a file name that parses to the
    book code [code]: at the end of the name without its [.htm] (a final
    newline aside) in the first script, between the code and [.htm] in the
    second. *)
Definition chapter_digits (v : script) (f code ds : pystr) : Prop :=
  match v with
  | WEB =>
      exists nl, replace (lit ".htm") [] f = code ++ ds ++ nl /\
                 (nl = [] \/ nl = [10%N])
  | DARBY => exists tail, f = code ++ ds ++ lit ".htm" ++ tail
  end.

(** The literal parts of the marker pattern, and what the second script
    wants before them. *)
Definition span_lead_of_marker : pystr := verse_open ++ lit " ".
Definition marker_head : pystr := lit "id=" ++ DQ :: lit "V".
Definition marker_mid : pystr := DQ :: lit ">".
Definition marker_tail : pystr := lit "&#160;</span>".

(** No match of the tag pattern starts anywhere in [t]. *)
Fixpoint no_tag_left (t : pystr) : Prop :=
  match t with
  | [] => True
  | c :: t' => re_match tag_pattern (c :: t') = None /\ no_tag_left t'
  end.

(** Every white space character is a single U+0020 between two characters
    that are not white space. *)
Fixpoint single_spaced (t : pystr) : Prop :=
  match t with
  | [] => True
  | c :: t' =>
      (isspace c = true ->
       c = 32%N /\ match t' with [] => True | d :: _ => isspace d = false end)
      /\ single_spaced t'
  end.

End Scripts.

(** ** Sample inputs *)

Module Samples.
Import Py Re Markup Scripts.

(** The fragment of the two-verse scenario, after a lead: what stands for
    the three dots it opens with. *)
Definition scenario (lead : pystr) : pystr :=
  lead ++ lit "id=" ++ DQ :: lit "V1" ++ DQ
    :: lit ">1&#160;</span>In the <i>beginning</i>."
    ++ marker (lit "2") (lit "2") ++ lit "And the earth...".

Definition dots : pystr := lit "...".
Definition span_lead : pystr := span_lead_of_marker.

Definition two_verses : list (Z * pystr) :=
  [(1%Z, lit "In the beginning ."); (2%Z, lit "And the earth...")].

(** A verse with a footnote popup in it, and one whose popup holds a nested
    span. *)
Definition with_popup : pystr :=
  marker (lit "1") (lit "1") ++ lit "Word"
    ++ extract_bible_data.popup_open ++ lit "note"
    ++ extract_bible_data.span_close ++ lit " end" ++ div_close.


(** Verse bodies with encoded and with stray angle brackets. *)
Definition with_entities : pystr :=
  marker (lit "1") (lit "1") ++ lit "a &lt;b&gt; c" ++ div_close.

Definition with_stray_brackets : pystr :=
  marker (lit "1") (lit "1") ++ lit "x > y and y < z" ++ div_close.

(** Markers out of numeric order, one number twice. *)
Definition out_of_order : pystr :=
  marker (lit "2") (lit "2") ++ lit "second"
    ++ marker (lit "1") (lit "1") ++ lit "first"
    ++ marker (lit "2") (lit "2") ++ lit "again" ++ div_close.

(** A marker whose body is markup and white space only, then a verse. *)
Definition empty_then_full : pystr :=
  marker (lit "1") (lit "1") ++ lit " <b> </b>&#160; "
    ++ marker (lit "2") (lit "2") ++ lit "And the earth." ++ div_close.

(** A marker whose [id] digits and displayed digits differ. *)
Definition mismatched : pystr :=
  marker (lit "1") (lit "2") ++ lit "x" ++ div_close.

(** A marker numbered zero, and a directory with a chapter zero. *)
Definition verse_zero : pystr :=
  marker (lit "0") (lit "0") ++ lit "In the beginning." ++ div_close.

Definition zero_world : world :=
  {| listdir := [lit "GEN00.htm"];
     read_text := fun _ => Content verse_zero |}.

(** A directory of two chapter files, the second of which cannot be read,
    and one whose only file cannot be read. *)
Definition exodus_1 : pystr :=
  lit "<div class='main'>" ++ marker (lit "1") (lit "1")
    ++ lit "Now these are the names." ++ div_close.

Definition genesis_unreadable : world :=
  {| listdir := [lit "GEN01.htm"; lit "EXO01.htm"];
     read_text := fun f =>
       if str_eqb f (lit "EXO01.htm") then Content exodus_1
       else IOError (lit "[Errno 13] Permission denied") |}.

Definition nothing_readable : world :=
  {| listdir := [lit "GEN01.htm"];
     read_text := fun _ => IOError (lit "[Errno 13] Permission denied") |}.

(** [&], U+2020, [lt;] : no entity, until the footnote mark is removed. *)
Definition hidden_entity : pystr := [38; 8224; 108; 116; 59]%N.

End Samples.

From Stdlib Require Import Permutation.

(** ** The batch drivers, as functions of the directory *)

Module Batch.
Import Py Re Markup Scripts.

Definition is_chapter_file_of (v : script) : pystr -> bool :=
  match v with
  | WEB => extract_bible_data.is_chapter_file
  | DARBY => extract_darby.is_chapter_file
  end.

(** The list [html_files] of [main]. *)
Definition html_files_of (v : script) (w : world) : list pystr :=
  sorted (filter (is_chapter_file_of v) (listdir w)).

(** The constant fields and the fields looked up from the book name. *)
Definition translation_of (v : script) : pystr :=
  match v with WEB => lit "WEB" | DARBY => lit "Darby" end.

Definition testament_of (v : script) (book_name : pystr) : pystr :=
  match v with
  | WEB =>
      if str_in book_name extract_bible_data.OLD_TESTAMENT_BOOKS
      then lit "Old" else lit "New"
  | DARBY => extract_darby.get_testament book_name
  end.

Definition book_number_of (v : script) (book_name : pystr) : Z :=
  match v with
  | WEB => 0%Z
  | DARBY =>
      match list_index book_name extract_darby.BOOK_ORDER with
      | Some i => Z.of_nat i
      | None => 0%Z
      end
  end.

(** The record of a verse of a chapter of a book. *)
Definition record_from (v : script) (book_name : pystr) (chapter : Z)
  (verse : Z * pystr) : VerseObj :=
  let reference :=
    book_name ++ lit " " ++ str_of_int chapter ++ lit ":"
              ++ str_of_int (fst verse) in
  {| Book := book_name;
     Chapter := chapter;
     Verse := fst verse;
     Text := snd verse;
     Translation := translation_of v;
     Reference := reference;
     FullText := reference ++ lit ": " ++ snd verse;
     Testament := testament_of v book_name;
     BookNumber := book_number_of v book_name |}.

(** The records one file of the directory contributes: none unless its
    name parses to a known book code and it can be read. *)
Definition file_records (v : script) (w : world) (f : pystr)
  : list VerseObj :=
  match parse_filename_of v f with
  | None => []
  | Some (book_code, chapter) =>
      match dict_get BOOK_NAMES book_code with
      | None => []
      | Some book_name =>
          match read_text w f with
          | IOError _ => []
          | Content html_content =>
              map (record_from v book_name chapter)
                  (extract_of v html_content)
          end
      end
  end.

(** A chapter file of a known book that cannot be read. *)
Definition unreadable_known (v : script) (w : world) (f : pystr) : Prop :=
  exists book_code chapter book_name e,
    parse_filename_of v f = Some (book_code, chapter) /\
    dict_get BOOK_NAMES book_code = Some book_name /\
    read_text w f = IOError e.

(** A file whose name parses to the code of a known book. *)
Definition of_known_book (v : script) (f : pystr) : Prop :=
  exists book_code chapter book_name,
    parse_filename_of v f = Some (book_code, chapter) /\
    dict_get BOOK_NAMES book_code = Some book_name.

(** The lines of a run, and the lines [main] opens and closes with. *)
Definition printed (o : outcome) : list pystr :=
  match o with
  | Written _ out => out
  | Aborted out => out
  end.

Definition opening_lines (v : script) (n_files : nat) : list pystr :=
  match v with
  | WEB =>
      [lit "Found " ++ str_of_int (Z.of_nat n_files) ++ lit " chapter files"]
  | DARBY =>
      [lit "Processing Darby Translation from: " ++ extract_darby.DARBY_DIR;
       lit "Found " ++ str_of_int (Z.of_nat n_files)
         ++ lit " chapter files in Darby Translation"]
  end.

Definition closing_lines (v : script) (n_records : nat) : list pystr :=
  match v with
  | WEB =>
      [10%N :: lit "Total verses extracted: "
          ++ str_of_int (Z.of_nat n_records);
       lit "Output written to: " ++ extract_bible_data.output_file]
  | DARBY =>
      [lit "Total verses extracted: " ++ str_of_int (Z.of_nat n_records);
       lit "Output written to: " ++ extract_darby.OUTPUT_JSON;
       lit "Darby Translation has been successfully extracted!"]
  end.

(** Printing only adds lines. *)
Definition grows (st st' : state) : Prop :=
  exists lines, stdout st' = stdout st ++ lines.

(** The order of [sorted]. *)
Definition str_le (a b : pystr) : Prop := str_leb a b = true.

(** No white space at either end. *)
Definition trimmed (t : pystr) : Prop :=
  match t with [] => True | c :: _ => isspace c = false end /\
  match rev t with [] => True | c :: _ => isspace c = false end.

(** The characters each script deletes from a verse body: the footnote
    marks in the first, the square brackets in the second. *)
Definition deleted_by (v : script) (c : N) : bool :=
  match v with
  | WEB => existsb (N.eqb c) [8224; 8225; 167; 182]%N
  | DARBY => N.eqb c 91 || N.eqb c 93
  end.

(** Sample directories: every file readable, with a file of an unknown
    book and a file that is no chapter file among them. *)
Definition all_readable : world :=
  {| listdir := [lit "GEN01.htm"; lit "notes.txt"; lit "XYZ01.htm";
                 lit "EXO01.htm"];
     read_text := fun f =>
       if str_eqb f (lit "EXO01.htm") then Content Samples.exodus_1
       else Content Samples.verse_zero |}.

(** A directory whose first chapter file, in sorted order, has a book code
    that is not in [BOOK_NAMES] and cannot be read. *)
Definition unknown_first : world :=
  {| listdir := [lit "GEN01.htm"; lit "AAA01.htm"];
     read_text := fun f =>
       if str_eqb f (lit "AAA01.htm")
       then IOError (lit "[Errno 13] Permission denied")
       else Content Samples.verse_zero |}.

(** The same directory, where the files the drivers have no use for cannot
    be read. *)
Definition others_unreadable : world :=
  {| listdir := listdir all_readable;
     read_text := fun f =>
       if str_eqb f (lit "XYZ01.htm") || str_eqb f (lit "notes.txt")
       then IOError (lit "denied")
       else read_text all_readable f |}.

End Batch.


(** ** The shape of a matched marker *)

Module Shape.
Import Py Re Markup Scripts.

(** What the verse pattern of a script wants before the [id] attribute:
    nothing in the first script, the opening of the span and a space in the
    second. *)
Definition lead_of (v : script) : pystr :=
  match v with
  | WEB => []
  | DARBY => span_lead_of_marker
  end.

(** One of the two terminators of a verse body starts the text. *)
Definition terminator_at (s : pystr) : bool :=
  startswith verse_open s || startswith div_close s.

(** No terminator starts inside [t], when [rest] follows it. *)
Definition no_terminator_inside (t rest : pystr) : Prop :=
  forall t1 c t2, t = t1 ++ c :: t2 -> terminator_at (c :: t2 ++ rest) = false.



End Shape.

(** ** [simple_test.py]

    The script has a copy of [extract_verses_from_html] of its own, which
    prints the number of matches and makes the records of the first chapter
    of Genesis itself. *)

Module simple_test.
Import Py Re Markup.

(** [id="V(\d+)">(\d+)&#160;</span>(.*?)(?=<span class="verse"|</div>)] *)
Definition pattern : regex := marker_pattern.

(** [[†‡§¶]] *)
Definition footnote_marker : regex :=
  One (fun c => existsb (N.eqb c) [8224; 8225; 167; 182]%N).

(** The [# Clean up the text] block of the loop. *)
Definition clean_text (text : pystr) : pystr :=
  let text := re_sub tag_pattern (lit " ") text in
  let text := replace (lit "&#160;") (lit " ") text in
  let text := replace (lit "&nbsp;") (lit " ") text in
  let text := re_sub footnote_marker [] text in
  let text := strip (re_sub space_pattern (lit " ") text) in
  text.

(** [for verse_num_str, display_num, text in matches: ...] *)
Fixpoint for_matches (matches : list (pystr * pystr * pystr))
  (verses : list VerseObj) : list VerseObj :=
  match matches with
  | [] => verses
  | (verse_num_str, display_num, text) :: matches' =>
      let verse_num := int verse_num_str in
      let text := clean_text text in
      match text with
      | [] => for_matches matches' verses
      | _ :: _ =>
          for_matches matches'
            (verses ++
             [{| Book := lit "Genesis";
                 Chapter := 1;
                 Verse := verse_num;
                 Text := text;
                 Translation := lit "WEB";
                 Reference := lit "Genesis 1:" ++ str_of_int verse_num;
                 FullText :=
                   lit "Genesis 1:" ++ str_of_int verse_num ++ lit ": "
                       ++ text;
                 Testament := lit "Old";
                 BookNumber := 0 |}])
      end
  end.

Definition extract_verses_from_html (html_content : pystr) (st : state)
  : list VerseObj * state :=
  let matches := re_findall3 pattern html_content in
  let st :=
    print (lit "Found " ++ str_of_int (Z.of_nat (length matches))
             ++ lit " regex matches") st in
  (for_matches matches [], st).

(** The entities the script leaves as they are. *)
Definition entities_left : list pystr :=
  [lit "&lt;"; lit "&gt;"; lit "&amp;"; lit "&quot;"; lit "&apos;"].

End simple_test.

(** * The scripts with the exceptions of the interpreter and of the system

    The definitions above follow a run of a script in which [os.listdir]
    returns, every [int()] returns and the output file can be written.
    Those of this part follow the same lines of the scripts with these
    exceptions in place:
    - [int()] raises [ValueError] on a run of more than 4300 digits, the
      default of [sys.int_info.default_max_str_digits] in CPython 3.11;
    - [os.listdir] raises when the directory cannot be listed;
    - [mkdir], [os.makedirs], [open] for writing and [json.dump] raise when
      the output cannot be made or written.
    A read that fails is in the model already.  [print] is taken to return,
    and so are [re] and [str]: with these, every call of the scripts that
    can raise is accounted for. *)

Module Strict.
Import Py Re Markup Scripts Batch.

(** What a call gives: a value, or an exception with [str(e)]. *)
Inductive raising (A : Type) : Type :=
| Returned (a : A)
| Exception (message : pystr).

Arguments Returned {A} a.
Arguments Exception {A} message.

Definition raises {A : Type} (r : raising A) : Prop :=
  exists message, r = Exception message.

(** [sys.int_info.default_max_str_digits] *)
Definition max_str_digits : nat := 4300.

Definition limit_message (digits : nat) : pystr :=
  lit "Exceeds the limit (4300 digits) for integer string conversion: value has "
    ++ str_of_int (Z.of_nat digits)
    ++ lit " digits; use sys.set_int_max_str_digits() to increase the limit".

(** [int(s)] for [s] a run of decimal digits: the count that is held
    against the limit is that of the characters, leading zeros included. *)
Definition int (s : pystr) : raising Z :=
  if Nat.ltb max_str_digits (length s)
  then Exception (limit_message (length s))
  else Returned (Py.int s).

(** What a run meets outside the script: the chapter directory as
    [os.listdir] and [open] find it, [None] when [os.listdir] raises, and
    whether the output directory and file can be made and written. *)
Record system := {
  directory : option world;
  writable : bool
}.

(** ** [extract_bible_data.py] *)

Module extract_bible_data.

(** [for verse_num_str, display_num, text in matches: ...] *)
Fixpoint for_matches (matches : list (pystr * pystr * pystr))
  (verses : list extract_bible_data.verse)
  : raising (list extract_bible_data.verse) :=
  match matches with
  | [] => Returned verses
  | (verse_num_str, display_num, text) :: matches' =>
      match int verse_num_str with
      | Exception e => Exception e
      | Returned verse_num =>
          let text := extract_bible_data.clean_text text in
          match text with
          | [] => for_matches matches' verses
          | _ :: _ =>
              for_matches matches'
                (verses ++ [{| extract_bible_data.verse_num := verse_num;
                               extract_bible_data.text := text |}])
          end
      end
  end.

Definition extract_verses_from_html (html_content : pystr)
  : raising (list extract_bible_data.verse) :=
  let html_content :=
    re_sub extract_bible_data.popup_pattern [] html_content in
  let matches := re_findall3 extract_bible_data.pattern html_content in
  for_matches matches [].

Definition extract_verses_from_file (w : world) (filepath : pystr)
  : raising (list extract_bible_data.verse) :=
  match read_text w filepath with
  | Content html_content => extract_verses_from_html html_content
  | IOError e => Exception e
  end.

(** [Returned None] is the pair [None, None]. *)
Definition parse_filename (filename : pystr)
  : raising (option (pystr * Z)) :=
  let name_no_ext := replace (lit ".htm") [] filename in
  match re_match extract_bible_data.name_pattern name_no_ext with
  | Some (g, _) =>
      let book_code := group g 1 in
      match int (group g 2) with
      | Exception e => Exception e
      | Returned chapter => Returned (Some (book_code, chapter))
      end
  | None => Returned None
  end.

(** The body of [for filename in html_files]: nothing in it catches. *)
Definition process_file (w : world) (st : state) (filename : pystr)
  : completion :=
  match parse_filename filename with
  | Exception _ => Raised st
  | Returned None => Normal st
  | Returned (Some (book_code, chapter)) =>
      match dict_get extract_bible_data.BOOK_NAMES book_code with
      | None => Normal st
      | Some book_name =>
          let testament :=
            if str_in book_name extract_bible_data.OLD_TESTAMENT_BOOKS
            then lit "Old" else lit "New" in
          match extract_verses_from_file w filename with
          | Exception _ => Raised st
          | Returned [] =>
              Normal (print (lit "WARNING: No verses found in " ++ filename) st)
          | Returned verses =>
              let st :=
                {| all_verses :=
                     all_verses st
                       ++ map (extract_bible_data.verse_obj book_name chapter
                                 testament) verses;
                   stdout := stdout st |} in
              if Nat.eqb (Nat.modulo (length (all_verses st)) 500) 0
              then Normal (print (extract_bible_data.len_line "Processed "
                                    (length (all_verses st))
                                    " verses so far...") st)
              else Normal st
          end
      end
  end.

Fixpoint for_files (w : world) (html_files : list pystr) (st : state)
  : completion :=
  match html_files with
  | [] => Normal st
  | filename :: html_files' =>
      match process_file w st filename with
      | Normal st' => for_files w html_files' st'
      | Raised st' => Raised st'
      end
  end.

(** The [# Test first file] block. *)
Definition test_first_file (w : world) (html_files : list pystr) (st : state)
  : completion :=
  match html_files with
  | [] => Normal st
  | test_file :: _ =>
      let st := print (lit "Testing first file: " ++ test_file) st in
      match extract_verses_from_file w test_file with
      | Exception _ => Raised st
      | Returned test_verses =>
          Normal (print (extract_bible_data.len_line
                           "Test extraction resulted in "
                           (length test_verses) " verses") st)
      end
  end.

Definition main (s : system) : outcome :=
  let st := {| all_verses := []; stdout := [] |} in
  match directory s with
  | None => Aborted (stdout st)
  | Some w =>
      let html_files :=
        sorted (filter extract_bible_data.is_chapter_file (listdir w)) in
      let st := print (extract_bible_data.len_line "Found "
                         (length html_files) " chapter files") st in
      match test_first_file w html_files st with
      | Raised st => Aborted (stdout st)
      | Normal st =>
          match for_files w html_files st with
          | Raised st => Aborted (stdout st)
          | Normal st =>
              if writable s
              then
                let st :=
                  print (10%N :: extract_bible_data.len_line
                                   "Total verses extracted: "
                                   (length (all_verses st)) "") st in
                let st := print (lit "Output written to: "
                                   ++ extract_bible_data.output_file) st in
                Written (all_verses st) (stdout st)
              else Aborted (stdout st)
          end
      end
  end.

End extract_bible_data.

(** ** [extract_darby.py] *)

Module extract_darby.

(** [for match in matches: ...]: [int(verse_num)] is evaluated where the
    record is made, for a text that is not empty. *)
Fixpoint for_matches (matches : list (pystr * pystr * pystr))
  (verses : list extract_darby.verse) : raising (list extract_darby.verse) :=
  match matches with
  | [] => Returned verses
  | (verse_id, verse_num, verse_text) :: matches' =>
      let text := extract_darby.clean_text verse_text in
      match text with
      | [] => for_matches matches' verses
      | _ :: _ =>
          match int verse_num with
          | Exception e => Exception e
          | Returned n =>
              for_matches matches'
                (verses ++ [{| extract_darby.verse_number := n;
                               extract_darby.text := text |}])
          end
      end
  end.

Definition extract_verses_from_html (html_content : pystr)
  : raising (list extract_darby.verse) :=
  let matches := re_findall3 extract_darby.pattern html_content in
  for_matches matches [].

(** [Returned None] is the pair [None, None]. *)
Definition parse_filename (filename : pystr)
  : raising (option (pystr * Z)) :=
  match re_match extract_darby.name_pattern filename with
  | Some (g, _) =>
      let book_code := group g 1 in
      match int (group g 2) with
      | Exception e => Exception e
      | Returned chapter => Returned (Some (book_code, chapter))
      end
  | None => Returned None
  end.

(** The body of [for html_file in html_files].  [parse_filename] is called
    before the [try]; [except Exception] catches what the reading and the
    extraction raise, prints it and goes on to the next file. *)
Definition process_file (w : world) (st : state) (html_file : pystr)
  : completion :=
  match parse_filename html_file with
  | Exception _ => Raised st
  | Returned None => Normal st
  | Returned (Some (book_code, chapter)) =>
      match dict_get extract_darby.BOOK_NAMES book_code with
      | None => Normal st
      | Some book_name =>
          let testament := extract_darby.get_testament book_name in
          let book_number :=
            match list_index book_name extract_darby.BOOK_ORDER with
            | Some i => Z.of_nat i
            | None => 0%Z
            end in
          let caught e :=
            Normal (print (lit "Error processing " ++ html_file ++ lit ": "
                             ++ e) st) in
          match read_text w html_file with
          | IOError e => caught e
          | Content html_content =>
              match extract_verses_from_html html_content with
              | Exception e => caught e
              | Returned verses =>
                  let st :=
                    {| all_verses :=
                         fold_left
                           (fun all_verses verse =>
                              all_verses
                                ++ [extract_darby.verse_obj book_name chapter
                                      testament book_number verse])
                           verses (all_verses st);
                       stdout := stdout st |} in
                  if Nat.eqb (Nat.modulo (length (all_verses st)) 5000) 0
                     && Nat.ltb 0 (length (all_verses st))
                  then Normal (print (extract_darby.len_line "Processed "
                                        (length (all_verses st))
                                        " verses so far...") st)
                  else Normal st
              end
          end
      end
  end.

Fixpoint for_files (w : world) (html_files : list pystr) (st : state)
  : completion :=
  match html_files with
  | [] => Normal st
  | html_file :: html_files' =>
      match process_file w st html_file with
      | Normal st' => for_files w html_files' st'
      | Raised st' => Raised st'
      end
  end.

(** The [# Test first file] block, outside any [try]. *)
Definition test_first_file (w : world) (html_files : list pystr) (st : state)
  : completion :=
  match html_files with
  | [] => Normal st
  | test_file :: _ =>
      let st := print (lit "Testing first file: " ++ test_file) st in
      match read_text w test_file with
      | IOError _ => Raised st
      | Content test_content =>
          match extract_verses_from_html test_content with
          | Exception _ => Raised st
          | Returned test_verses =>
              let st := print (extract_darby.len_line
                                 "Test extraction resulted in "
                                 (length test_verses) " verses") st in
              match test_verses with
              | [] => Normal st
              | v :: _ =>
                  Normal (print (lit "Sample verse: "
                                   ++ firstn 50 (extract_darby.text v)
                                   ++ lit "...") st)
              end
          end
      end
  end.

Definition main (s : system) : outcome :=
  let st := {| all_verses := []; stdout := [] |} in
  let st := print (lit "Processing Darby Translation from: "
                     ++ extract_darby.DARBY_DIR) st in
  match directory s with
  | None => Aborted (stdout st)
  | Some w =>
      let html_files :=
        sorted (filter extract_darby.is_chapter_file (listdir w)) in
      let st := print (extract_darby.len_line "Found " (length html_files)
                         " chapter files in Darby Translation") st in
      match test_first_file w html_files st with
      | Raised st => Aborted (stdout st)
      | Normal st =>
          match for_files w html_files st with
          | Raised st => Aborted (stdout st)
          | Normal st =>
              let st := print (extract_darby.len_line
                                 "Total verses extracted: "
                                 (length (all_verses st)) "") st in
              if writable s
              then
                let st := print (lit "Output written to: "
                                   ++ extract_darby.OUTPUT_JSON) st in
                let st := print (lit "Darby Translation has been successfully extracted!") st in
                Written (all_verses st) (stdout st)
              else Aborted (stdout st)
          end
      end
  end.

End extract_darby.

(** ** The two scripts side by side *)

Definition parse_filename_of (v : script) (f : pystr)
  : raising (option (pystr * Z)) :=
  match v with
  | WEB => extract_bible_data.parse_filename f
  | DARBY => extract_darby.parse_filename f
  end.

(** What the extraction returns, as pairs of verse number and text. *)
Definition extract_of (v : script) (html_content : pystr)
  : raising (list (Z * pystr)) :=
  match v with
  | WEB =>
      match extract_bible_data.extract_verses_from_html html_content with
      | Returned verses =>
          Returned (map (fun r => (extract_bible_data.verse_num r,
                                   extract_bible_data.text r)) verses)
      | Exception e => Exception e
      end
  | DARBY =>
      match extract_darby.extract_verses_from_html html_content with
      | Returned verses =>
          Returned (map (fun r => (extract_darby.verse_number r,
                                   extract_darby.text r)) verses)
      | Exception e => Exception e
      end
  end.

(** Opening a file, reading it and extracting its verses. *)
Definition extract_file_of (v : script) (w : world) (f : pystr)
  : raising (list (Z * pystr)) :=
  match read_text w f with
  | Content html_content => extract_of v html_content
  | IOError e => Exception e
  end.

Definition main_of (v : script) : system -> outcome :=
  match v with
  | WEB => extract_bible_data.main
  | DARBY => extract_darby.main
  end.

(** Whether a script hands the digits of a match to [int()]: always in the
    first script, for a text that is not empty in the second. *)
Definition converted (v : script) (m : pystr * pystr * pystr) : bool :=
  match v with
  | WEB => true
  | DARBY => keeps DARBY m
  end.

(** The chapter digits of a file name, where the name pattern matches. *)
Definition chapter_digits_of (v : script) (f : pystr) : option pystr :=
  match v with
  | WEB =>
      match re_match extract_bible_data.name_pattern
              (replace (lit ".htm") [] f) with
      | Some (g, _) => Some (group g 2)
      | None => None
      end
  | DARBY =>
      match re_match extract_darby.name_pattern f with
      | Some (g, _) => Some (group g 2)
      | None => None
      end
  end.

(** The records one file contributes to what is written: as above, and
    none where the second script catches what the extraction raises. *)
Definition file_records (v : script) (w : world) (f : pystr)
  : list VerseObj :=
  match parse_filename_of v f with
  | Returned (Some (book_code, chapter)) =>
      match dict_get BOOK_NAMES book_code with
      | None => []
      | Some book_name =>
          match extract_file_of v w f with
          | Returned verses => map (record_from v book_name chapter) verses
          | Exception _ => []
          end
      end
  | _ => []
  end.

(** Where the loop over the files is left by an exception: at a file name
    whose chapter digits [int()] refuses and, in the first script, at a
    chapter file of a known book that cannot be read or whose extraction
    raises; the second script catches the latter two. *)
Definition loop_raises (v : script) (w : world) (f : pystr) : Prop :=
  raises (parse_filename_of v f) \/
  match v with
  | WEB => of_known_book WEB f /\ raises (extract_file_of WEB w f)
  | DARBY => False
  end.

(** Where the first-file test is left by an exception. *)
Definition first_file_raises (v : script) (w : world) : Prop :=
  html_files_of v w <> [] /\
  raises (extract_file_of v w (hd [] (html_files_of v w))).

(** Where neither the name of a file nor its text makes [int()] raise. *)
Definition sound (v : script) (w : world) (f : pystr) : Prop :=
  ~ raises (parse_filename_of v f) /\
  forall html, read_text w f = Content html ->
               ~ raises (extract_of v html).

(** The lines printed before the directory is listed. *)
Definition lines_before_listing (v : script) : list pystr :=
  match v with
  | WEB => []
  | DARBY =>
      [lit "Processing Darby Translation from: " ++ extract_darby.DARBY_DIR]
  end.

End Strict.

(** ** Sample runs *)

Module StrictSamples.
Import Py Re Markup Scripts Batch.

(** A run in which the directory cannot be listed, and runs in the sample
    directory, with an output that can be written and with one that
    cannot. *)
Definition no_directory : Strict.system :=
  {| Strict.directory := None; Strict.writable := true |}.

Definition all_readable : Strict.system :=
  {| Strict.directory := Some Batch.all_readable; Strict.writable := true |}.

Definition read_only : Strict.system :=
  {| Strict.directory := Some Batch.all_readable; Strict.writable := false |}.

(** A verse whose marker displays a number of 4301 digits, and a directory
    with that chapter after a sound one. *)
Definition long_number : pystr :=
  marker (lit "1") (repeat 49%N 4301) ++ lit "In the beginning"
    ++ div_close.

Definition long_number_second : Strict.system :=
  {| Strict.directory :=
       Some {| listdir := [lit "GEN01.htm"; lit "EXO01.htm"];
               read_text := fun f =>
                 if str_eqb f (lit "EXO01.htm")
                 then Content Samples.exodus_1
                 else Content long_number |};
     Strict.writable := true |}.

End StrictSamples.
(** * Properties of the embedding *)

(** ** Strings *)

Module PyFacts.
Import Py.

Lemma str_eqb_eq (a b : pystr) : str_eqb a b = true <-> a = b.
Proof.
  revert b; induction a as [|x a IH]; intros [|y b]; simpl;
    try (split; (reflexivity || discriminate)).
  rewrite andb_true_iff, N.eqb_eq, IH.
  split; [intros [-> ->]; reflexivity | intros H; inversion H; auto].
Qed.

Lemma strip_prefix_Some (p s r : pystr) :
  strip_prefix p s = Some r -> s = p ++ r.
Proof.
  revert s; induction p as [|a p IH]; intros s H; simpl in *.
  - now inversion H.
  - destruct s as [|b s]; [discriminate|].
    destruct (N.eqb_spec a b) as [->|]; [|discriminate].
    now rewrite (IH _ H).
Qed.

Lemma strip_prefix_app (p s : pystr) : strip_prefix p (p ++ s) = Some s.
Proof.
  induction p as [|a p IH]; simpl; [reflexivity|].
  now rewrite N.eqb_refl.
Qed.

Lemma startswith_app (p s : pystr) : startswith p (p ++ s) = true.
Proof. unfold startswith; now rewrite strip_prefix_app. Qed.

Lemma strip_prefix_head (a b : N) (p s : pystr) :
  a <> b -> strip_prefix (a :: p) (b :: s) = None.
Proof. intros H; simpl. now destruct (N.eqb_spec a b). Qed.

Lemma startswith_cons (a b : N) (p s : pystr) :
  startswith (a :: p) (b :: s) = N.eqb a b && startswith p s.
Proof. unfold startswith; simpl. now destruct (N.eqb a b). Qed.


Lemma startswith_no_first (c0 : N) (p s : pystr) :
  ~ In c0 s -> startswith (c0 :: p) s = false.
Proof.
  destruct s as [|b s]; [reflexivity|]; intros H.
  rewrite startswith_cons. destruct (N.eqb_spec c0 b) as [->|]; [|reflexivity].
  exfalso; apply H; now left.
Qed.

Lemma occurs_head (p s : pystr) :
  occurs p s = false -> startswith p s = false.
Proof.
  destruct s; simpl; [auto|]. now intros [H _]%orb_false_iff.
Qed.

Lemma occurs_tail (p : pystr) (c : N) (s : pystr) :
  occurs p (c :: s) = false -> occurs p s = false.
Proof. simpl; now intros [_ H]%orb_false_iff. Qed.

Lemma occurs_app_r (p a b : pystr) :
  occurs p b = true -> occurs p (a ++ b) = true.
Proof.
  intros H; induction a as [|c a IH]; simpl; [assumption|].
  rewrite IH; apply orb_true_r.
Qed.

Lemma dropwhile_split (cls : N -> bool) (s : pystr) :
  exists d, s = d ++ dropwhile cls s /\ forallb cls d = true.
Proof.
  induction s as [|c s [d [Hd Hall]]]; simpl.
  - now exists [].
  - destruct (cls c) eqn:E.
    + exists (c :: d); simpl; rewrite E; split; [now f_equal|assumption].
    + now exists [].
Qed.


Lemma dropwhile_app (cls : N -> bool) (d s : pystr) :
  forallb cls d = true -> dropwhile cls (d ++ s) = dropwhile cls s.
Proof.
  induction d as [|c d IH]; simpl; [reflexivity|].
  intros [-> H]%andb_true_iff; auto.
Qed.


(** *** [int] *)

Lemma digit_nonneg (c : N) : (0 <= digit c)%Z.
Proof. unfold digit; destruct (decimal c); lia. Qed.

Lemma int_from (s : pystr) (acc : Z) :
  (0 <= acc)%Z ->
  let n := fold_left (fun acc c => (10 * acc + digit c)%Z) s acc in
  (0 <= n)%Z /\
  ((1 <= n)%Z <-> (1 <= acc)%Z \/ exists c, In c s /\ digit c <> 0%Z).
Proof.
  revert acc; induction s as [|c s IH]; intros acc Hacc; simpl.
  - split; [assumption|]. split; [auto|].
    intros [H|[c [[] _]]]; assumption.
  - pose proof (digit_nonneg c) as Hc.
    destruct (IH (10 * acc + digit c)%Z ltac:(lia)) as [H0 H1].
    split; [assumption|]. rewrite H1. split.
    + intros [H|[d [Hd Hnz]]].
      * destruct (Z.eq_dec (digit c) 0).
        -- left; lia.
        -- right; exists c; auto.
      * right; exists d; auto.
    + intros [H|[d [[->|Hd] Hnz]]].
      * left; lia.
      * left; lia.
      * right; exists d; auto.
Qed.

Lemma int_nonneg (s : pystr) : (0 <= int s)%Z.
Proof. apply (int_from s 0%Z); lia. Qed.

Lemma int_positive (s : pystr) :
  (1 <= int s)%Z <-> exists c, In c s /\ digit c <> 0%Z.
Proof.
  unfold int. destruct (int_from s 0%Z ltac:(lia)) as [_ H].
  rewrite H. split; [intros [?|?]; [lia|assumption] | auto].
Qed.

End PyFacts.

(** ** The matcher and the scanning loops *)

Module ReFacts.
Import Py Re PyFacts.

Lemma star_sound (cls : N -> bool) (s : pystr) (g : groups) (k : cont) res :
  star cls s g k = Some res ->
  exists d rest, s = d ++ rest /\ forallb cls d = true /\ k rest g = Some res.
Proof.
  induction s as [|c s IH]; simpl; intros H.
  - exists [], []; auto.
  - destruct (cls c) eqn:E; [|exists [], (c :: s); auto].
    destruct (star cls s g k) as [r0|] eqn:E1; [|exists [], (c :: s); auto].
    destruct (IH H) as (d & rest & -> & Hd & Hk).
    exists (c :: d), rest; simpl; rewrite E; auto.
Qed.

(** When the continuation cannot start on a character of the class, giving
    characters back never helps: the greedy run is the whole run. *)
Lemma star_greedy (cls : N -> bool) (s : pystr) (g : groups) (k : cont) :
  (forall c t, cls c = true -> k (c :: t) g = None) ->
  star cls s g k = k (dropwhile cls s) g.
Proof.
  intros H; induction s as [|c s IH]; simpl; [reflexivity|].
  destruct (cls c) eqn:E; [|reflexivity].
  rewrite IH. destruct (k (dropwhile cls s) g); [reflexivity|now apply H].
Qed.

Lemma star_first (cls : N -> bool) (s : pystr) (g : groups) (k : cont) res :
  k (dropwhile cls s) g = Some res -> star cls s g k = Some res.
Proof.
  induction s as [|c s IH]; simpl; [auto|].
  destruct (cls c); [|auto]. intros H; now rewrite (IH H).
Qed.

Lemma star_lazy_unfold (cls : N -> bool) (s : pystr) (g : groups) (k : cont) :
  star_lazy cls s g k =
  match k s g with
  | Some r => Some r
  | None =>
      match s with
      | c :: s' => if cls c then star_lazy cls s' g k else None
      | [] => None
      end
  end.
Proof. destruct s; reflexivity. Qed.

Lemma star_lazy_sound (cls : N -> bool) (s : pystr) (g : groups) (k : cont)
  res :
  star_lazy cls s g k = Some res ->
  exists d rest, s = d ++ rest /\ forallb cls d = true /\ k rest g = Some res.
Proof.
  induction s as [|c s IH]; rewrite star_lazy_unfold; intros H.
  - destruct (k [] g) eqn:E; [|discriminate].
    exists [], []; repeat split; congruence.
  - destruct (k (c :: s) g) eqn:E;
      [exists [], (c :: s); repeat split; congruence|].
    destruct (cls c) eqn:Ec; [|discriminate].
    destruct (IH H) as (d & rest & -> & Hd & Hk).
    exists (c :: d), rest; simpl; rewrite Ec; auto.
Qed.


Lemma star_lazy_none (s : pystr) (g : groups) (k : cont) :
  (forall t1 t2, s = t1 ++ t2 -> k t2 g = None) ->
  star_lazy anychar s g k = None.
Proof.
  induction s as [|c s IH]; intros Hno; rewrite star_lazy_unfold.
  - now rewrite (Hno [] [] eq_refl).
  - rewrite (Hno [] (c :: s) eq_refl). simpl.
    apply IH. intros t1 t2 ->. apply (Hno (c :: t1) t2). reflexivity.
Qed.

(** A successful run of the matcher hands its continuation a suffix of the
    subject. *)
Lemma exec_suffix (r : regex) :
  forall s g k res, exec r s g k = Some res ->
  exists m s' g', s = m ++ s' /\ k s' g' = Some res.
Proof.
  induction r as [p|cls|cls|cls|r1 IH1 r2 IH2|r1 IH1 r2 IH2|r IH|r IH|];
    intros s g k res H; simpl in H.
  - destruct (strip_prefix p s) as [s'|] eqn:E; [|discriminate].
    apply strip_prefix_Some in E. now exists p, s', g.
  - destruct s as [|c s]; [discriminate|].
    destruct (cls c); [|discriminate]. now exists [c], s, g.
  - apply star_sound in H. destruct H as (d & rest & -> & _ & Hk).
    now exists d, rest, g.
  - apply star_lazy_sound in H. destruct H as (d & rest & -> & _ & Hk).
    now exists d, rest, g.
  - apply IH1 in H. destruct H as (m1 & s1 & g1 & -> & H).
    apply IH2 in H. destruct H as (m2 & s2 & g2 & -> & H).
    exists (m1 ++ m2), s2, g2. now rewrite app_assoc.
  - destruct (exec r1 s g k) eqn:E.
    + inversion H; subst. now apply IH1 in E.
    + now apply IH2 in H.
  - apply IH in H. destruct H as (m & s' & g' & -> & H).
    now exists m, s', (g' ++ [firstn (length (m ++ s') - length s') (m ++ s')]).
  - destruct (exec r s g (fun s' g' => Some (g', s'))); [|discriminate].
    now exists [], s, g.
  - destruct s as [|c [|d s]]; try discriminate.
    + now exists [], [], g.
    + destruct c; try discriminate.
      repeat (destruct p; try discriminate). now exists [], [10%N], g.
    + destruct c; try discriminate.
      repeat (destruct p; try discriminate).
Qed.

Lemma re_match_suffix (r : regex) (s : pystr) (g : groups) (rest : pystr) :
  re_match r s = Some (g, rest) -> exists m, s = m ++ rest.
Proof.
  intros H. apply exec_suffix in H. destruct H as (m & s' & g' & -> & H).
  inversion H; subst. now exists m.
Qed.

(** A pattern that opens with a character consumes at least that
    character, and none of the patterns the scripts scan with can match the
    empty string. *)
Lemma exec_consumes (r : regex) :
  Scripts.opens_with_char r = true ->
  forall s g k res, exec r s g k = Some res ->
  exists c m s' g', s = c :: m ++ s' /\ k s' g' = Some res.
Proof.
  induction r as [p|cls|cls|cls|r1 IH1 r2 _|r1 _ r2 _|r IH|r _|];
    intros Hopen s g k res H; simpl in Hopen; try discriminate.
  - destruct p as [|c p]; [discriminate|]. cbn [exec] in H.
    destruct (strip_prefix (c :: p) s) as [s'|] eqn:E; [|discriminate].
    apply strip_prefix_Some in E. now exists c, p, s', g.
  - cbn [exec] in H. destruct s as [|c s]; [discriminate|].
    destruct (cls c); [|discriminate]. now exists c, [], s, g.
  - cbn [exec] in H. apply (IH1 Hopen) in H.
    destruct H as (c & m & s1 & g1 & -> & H).
    apply exec_suffix in H. destruct H as (m2 & s2 & g2 & -> & H).
    exists c, (m ++ m2), s2, g2. now rewrite <- app_assoc.
  - cbn [exec] in H. apply (IH Hopen) in H.
    destruct H as (c & m & s' & g' & -> & H).
    now exists c, m, s',
      (g' ++ [firstn (length (c :: m ++ s') - length s') (c :: m ++ s')]).
Qed.

Lemma scanned_patterns_consume (r : regex) (s : pystr) (g : groups)
  (rest : pystr) :
  In r Scripts.scanned_patterns ->
  re_match r s = Some (g, rest) -> length rest < length s.
Proof.
  intros Hr H.
  assert (Hopen : Scripts.opens_with_char r = true).
  { assert (Hall : forallb Scripts.opens_with_char Scripts.scanned_patterns
                   = true) by reflexivity.
    rewrite forallb_forall in Hall. now apply Hall. }
  apply (exec_consumes r Hopen) in H.
  destruct H as (c & m & s' & g' & -> & H). inversion H; subst.
  simpl. rewrite length_app. lia.
Qed.

(** *** [re.sub] *)

Lemma sub_from_skip (r : regex) (repl : pystr) (n : nat) (s : pystr) :
  sub_from r repl n s = sub_from r repl 0 (skipn n s).
Proof.
  revert n; induction s as [|c s IH]; intros [|n]; try reflexivity.
  simpl. apply IH.
Qed.

Lemma re_sub_nil (r : regex) (repl : pystr) : re_sub r repl [] = [].
Proof. reflexivity. Qed.

Lemma re_sub_nomatch (r : regex) (repl : pystr) (c : N) (s : pystr) :
  re_match r (c :: s) = None ->
  re_sub r repl (c :: s) = c :: re_sub r repl s.
Proof. intros H. unfold re_sub. simpl. now rewrite H. Qed.

Lemma re_sub_match (r : regex) (repl : pystr) (c : N) (m rest : pystr)
  (g : groups) :
  re_match r (c :: m ++ rest) = Some (g, rest) ->
  re_sub r repl (c :: m ++ rest) = repl ++ re_sub r repl rest.
Proof.
  intros H. unfold re_sub. cbn [sub_from]. rewrite H.
  replace (length (c :: m ++ rest) - length rest) with (S (length m))
    by (cbn [length]; rewrite length_app; lia).
  rewrite sub_from_skip, skipn_app, skipn_all, Nat.sub_diag. reflexivity.
Qed.

(** One step of [re.sub] at a non-empty subject. *)
Lemma re_sub_step (r : regex) (repl : pystr) (c : N) (s : pystr) :
  (re_sub r repl (c :: s) = c :: re_sub r repl s) \/
  (exists g m rest, c :: s = (c :: m) ++ rest /\
     re_match r (c :: s) = Some (g, rest) /\
     re_sub r repl (c :: s) = repl ++ re_sub r repl rest).
Proof.
  destruct (re_match r (c :: s)) as [[g rest]|] eqn:E.
  - destruct (re_match_suffix _ _ _ _ E) as [m Hm].
    destruct m as [|c' m].
    + left. unfold re_sub; cbn [sub_from]. rewrite E.
      simpl in Hm; subst rest. now rewrite Nat.sub_diag.
    + right. simpl in Hm. injection Hm as <- ->. exists g, m, rest.
      split; [reflexivity|]. split; [reflexivity|].
      now apply re_sub_match with g.
  - left. now apply re_sub_nomatch.
Qed.

(** *** [re.finditer] *)





(** Every reported match is a match of the pattern at its offset. *)
Lemma finditer_from_sound (r : regex) (s : pystr) :
  forall n pos p g, In (p, g) (finditer_from r n pos s) ->
  pos <= p /\ exists rest, re_match r (skipn (p - pos) s) = Some (g, rest).
Proof.
  induction s as [|c s IH]; intros n pos p g H; cbn [finditer_from] in H;
    [contradiction|].
  assert (Hrec : forall k, In (p, g) (finditer_from r k (S pos) s) ->
    pos <= p /\ exists rest,
      re_match r (skipn (p - pos) (c :: s)) = Some (g, rest)).
  { intros k Hk. destruct (IH _ _ _ _ Hk) as [Hle [rest Hm]].
    split; [lia|]. exists rest.
    replace (p - pos) with (S (p - S pos)) by lia. exact Hm. }
  destruct n as [|n]; [|now apply Hrec with n].
  destruct (re_match r (c :: s)) as [[g0 rest]|] eqn:E;
    [|now apply Hrec with 0].
  destruct (length (c :: s) - length rest) as [|k]; [now apply Hrec with 0|].
  destruct H as [H|H]; [|now apply Hrec with k].
  inversion H; subst. split; [lia|]. exists rest.
  now rewrite Nat.sub_diag.
Qed.

End ReFacts.

(** ** The patterns of the scripts *)

Module PatternFacts.
Import Py Re Markup Scripts PyFacts ReFacts.

Lemma firstn_prefix (m r : pystr) :
  firstn (length (m ++ r) - length r) (m ++ r) = m.
Proof.
  rewrite length_app, Nat.add_sub, firstn_app, firstn_all, Nat.sub_diag.
  simpl. apply app_nil_r.
Qed.

(** *** What a match tells about the subject *)

Lemma exec_lit_sound (p : pystr) (r : regex) s g k res :
  exec (Cat (Lit p) r) s g k = Some res ->
  exists s', s = p ++ s' /\ exec r s' g k = Some res.
Proof.
  cbn [exec]. destruct (strip_prefix p s) as [s'|] eqn:E; [|discriminate].
  apply strip_prefix_Some in E. intros H. now exists s'.
Qed.

Lemma exec_group_plus_sound (cls : N -> bool) (r : regex) s g k res :
  exec (Cat (Group (Plus cls)) r) s g k = Some res ->
  exists d s', d <> [] /\ forallb cls d = true /\ s = d ++ s' /\
               exec r s' (g ++ [d]) k = Some res.
Proof.
  cbn [exec Plus]. destruct s as [|c s]; [discriminate|].
  destruct (cls c) eqn:E; [|discriminate]. intros H.
  apply star_sound in H. destruct H as (d & rest & -> & Hd & H).
  change (c :: d ++ rest) with ((c :: d) ++ rest) in H.
  rewrite firstn_prefix in H.
  exists (c :: d), rest. repeat split; try assumption; try discriminate.
  simpl; now rewrite E.
Qed.

Lemma exec_group_lazy_sound (cls : N -> bool) (r : regex) s g k res :
  exec (Cat (Group (StarLazy cls)) r) s g k = Some res ->
  exists d s', forallb cls d = true /\ s = d ++ s' /\
               exec r s' (g ++ [d]) k = Some res.
Proof.
  cbn [exec]. intros H.
  apply star_lazy_sound in H. destruct H as (d & rest & -> & Hd & H).
  rewrite firstn_prefix in H. now exists d, rest.
Qed.

Lemma exec_group_pluslazy_sound (cls : N -> bool) (r : regex) s g k res :
  exec (Cat (Group (PlusLazy cls)) r) s g k = Some res ->
  exists d s', d <> [] /\ forallb cls d = true /\ s = d ++ s' /\
               exec r s' (g ++ [d]) k = Some res.
Proof.
  cbn [exec PlusLazy]. destruct s as [|c s]; [discriminate|].
  destruct (cls c) eqn:E; [|discriminate]. intros H.
  apply star_lazy_sound in H. destruct H as (d & rest & -> & Hd & H).
  change (c :: d ++ rest) with ((c :: d) ++ rest) in H.
  rewrite firstn_prefix in H.
  exists (c :: d), rest. repeat split; try assumption; try discriminate.
  simpl; now rewrite E.
Qed.

Lemma exec_ahead_alt (a b : pystr) s g k :
  exec (Ahead (Alt (Lit a) (Lit b))) s g k =
  if startswith a s || startswith b s then k s g else None.
Proof.
  cbn [exec]. unfold startswith.
  destruct (strip_prefix a s); [reflexivity|].
  destruct (strip_prefix b s); reflexivity.
Qed.

(** A match of the marker pattern: two non-empty digit runs in the marker,
    a body, and one of the two terminators right after the body. *)
Lemma marker_match_sound (s : pystr) (g : groups) (rest : pystr) :
  re_match marker_pattern s = Some (g, rest) ->
  exists a b t,
    g = [a; b; t] /\
    s = marker_head ++ a ++ marker_mid ++ b ++ marker_tail ++ t ++ rest /\
    a <> [] /\ forallb isdecimal a = true /\
    b <> [] /\ forallb isdecimal b = true /\
    startswith verse_open rest || startswith div_close rest = true.
Proof.
  unfold re_match, marker_pattern. intros H.
  apply exec_lit_sound in H. destruct H as (s1 & -> & H).
  apply exec_group_plus_sound in H.
  destruct H as (a & s2 & Ha & Hda & -> & H).
  apply exec_lit_sound in H. destruct H as (s3 & -> & H).
  apply exec_group_plus_sound in H.
  destruct H as (b & s4 & Hb & Hdb & -> & H).
  apply exec_lit_sound in H. destruct H as (s5 & -> & H).
  apply exec_group_lazy_sound in H.
  destruct H as (t & s6 & _ & -> & H).
  rewrite exec_ahead_alt in H.
  destruct (startswith verse_open s6 || startswith div_close s6) eqn:E;
    [|discriminate].
  inversion H; subst. exists a, b, t. repeat split; assumption.
Qed.

(** *** Matches of subjects of a known shape *)

Lemma exec_lit_app (p : pystr) (r : regex) s g k :
  exec (Cat (Lit p) r) (p ++ s) g k = exec r s g k.
Proof. cbn [exec]. now rewrite strip_prefix_app. Qed.

Lemma exec_lit_mismatch (p : pystr) (r : regex) s g k :
  startswith p s = false -> exec (Cat (Lit p) r) s g k = None.
Proof.
  unfold startswith; cbn [exec]. now destruct (strip_prefix p s).
Qed.





End PatternFacts.

(** ** The extraction loop *)

Module ExtractFacts.
Import Py Re Markup Scripts PyFacts ReFacts PatternFacts.

Lemma web_for_matches (ms : list (pystr * pystr * pystr))
  (acc : list extract_bible_data.verse) :
  map (fun r => (extract_bible_data.verse_num r, extract_bible_data.text r))
      (extract_bible_data.for_matches ms acc)
  = map (fun r => (extract_bible_data.verse_num r, extract_bible_data.text r))
        acc
    ++ map (record_of WEB) (filter (keeps WEB) ms).
Proof.
  revert acc; induction ms as [|[[a b] t] ms IH]; intros acc.
  - simpl. now rewrite app_nil_r.
  - cbn [extract_bible_data.for_matches filter].
    change (keeps WEB (a, b, t))
      with (match extract_bible_data.clean_text t with [] => false | _ :: _ => true end).
    destruct (extract_bible_data.clean_text t) as [|c t'] eqn:E.
    + apply IH.
    + rewrite IH, map_app, <- app_assoc. cbn [map app]. do 2 f_equal.
      unfold record_of, number_digits, id_digits, display_digits, body,
        clean_text_of.
      cbn [fst snd extract_bible_data.verse_num extract_bible_data.text
           extract_darby.verse_number extract_darby.text].
      now rewrite E.
Qed.

Lemma darby_for_matches (ms : list (pystr * pystr * pystr))
  (acc : list extract_darby.verse) :
  map (fun r => (extract_darby.verse_number r, extract_darby.text r))
      (extract_darby.for_matches ms acc)
  = map (fun r => (extract_darby.verse_number r, extract_darby.text r)) acc
    ++ map (record_of DARBY) (filter (keeps DARBY) ms).
Proof.
  revert acc; induction ms as [|[[a b] t] ms IH]; intros acc.
  - simpl. now rewrite app_nil_r.
  - cbn [extract_darby.for_matches filter].
    change (keeps DARBY (a, b, t))
      with (match extract_darby.clean_text t with [] => false | _ :: _ => true end).
    destruct (extract_darby.clean_text t) as [|c t'] eqn:E.
    + apply IH.
    + rewrite IH, map_app, <- app_assoc. cbn [map app]. do 2 f_equal.
      unfold record_of, number_digits, id_digits, display_digits, body,
        clean_text_of.
      cbn [fst snd extract_bible_data.verse_num extract_bible_data.text
           extract_darby.verse_number extract_darby.text].
      now rewrite E.
Qed.

(** The loop with its accumulator is a filter followed by a map. *)
Lemma extract_of_spec (v : script) (html : pystr) :
  extract_of v html
  = map (record_of v)
        (filter (keeps v) (re_findall3 (pattern_of v) (prepared v html))).
Proof.
  destruct v; unfold extract_of.
  - unfold extract_bible_data.extract_verses_from_html.
    now rewrite web_for_matches.
  - unfold extract_darby.extract_verses_from_html.
    now rewrite darby_for_matches.
Qed.




End ExtractFacts.

(** ** The batch drivers *)

Module DriverFacts.
Import Py Re Markup Scripts PyFacts.

Lemma in_insert_sorted (x y : pystr) (l : list pystr) :
  In x (insert_sorted y l) <-> x = y \/ In x l.
Proof.
  induction l as [|z l IH]; simpl.
  - intuition.
  - destruct (str_leb y z); simpl; [intuition|].
    rewrite IH. intuition.
Qed.

Lemma in_sorted (x : pystr) (l : list pystr) : In x (sorted l) <-> In x l.
Proof.
  unfold sorted. induction l as [|y l IH]; simpl; [reflexivity|].
  rewrite in_insert_sorted, IH. intuition.
Qed.

(** The first script's loop stops at the first file whose processing
    raises. *)
Lemma web_for_files_app (w : world) (l1 l2 : list pystr) (st : state) :
  extract_bible_data.for_files w (l1 ++ l2) st =
  match extract_bible_data.for_files w l1 st with
  | Normal st' => extract_bible_data.for_files w l2 st'
  | Raised st' => Raised st'
  end.
Proof.
  revert st; induction l1 as [|f l1 IH]; intros st; simpl; [reflexivity|].
  destruct (extract_bible_data.process_file w st f); [apply IH|reflexivity].
Qed.

Lemma web_for_files_raises (w : world) (files : list pystr) (f : pystr) :
  In f files ->
  (forall st, extract_bible_data.process_file w st f = Raised st) ->
  forall st, exists st', extract_bible_data.for_files w files st = Raised st'.
Proof.
  intros Hin Hf. induction files as [|f0 files IH]; [contradiction|].
  intros st. simpl.
  destruct (extract_bible_data.process_file w st f0) as [st1|st1] eqn:E.
  - destruct Hin as [->|Hin].
    + rewrite Hf in E. discriminate.
    + apply IH, Hin.
  - now exists st1.
Qed.

End DriverFacts.

(** ** File names, chapters and verse numbers *)

Module NumberFacts.
Import Py Re Markup Scripts PyFacts ReFacts PatternFacts ExtractFacts.

Lemma web_parse_sound (f code : pystr) (ch : Z) :
  extract_bible_data.parse_filename f = Some (code, ch) ->
  exists ds, chapter_digits WEB f code ds /\ code <> [] /\
             ds <> [] /\ forallb isdecimal ds = true /\ ch = int ds.
Proof.
  unfold extract_bible_data.parse_filename.
  destruct (re_match extract_bible_data.name_pattern _) as [[g rest]|] eqn:E;
    [|discriminate].
  unfold re_match, extract_bible_data.name_pattern in E.
  apply exec_group_pluslazy_sound in E.
  destruct E as (c & s1 & Hc & _ & Hs & E).
  apply exec_group_plus_sound in E.
  destruct E as (ds & s2 & Hds & Hdec & -> & E).
  assert (Hg : g = [c; ds] /\ (s2 = [] \/ s2 = [10%N])).
  { cbn [exec app] in E. destruct s2 as [|x [|y s2]].
    - inversion E; auto.
    - destruct x; try discriminate.
      repeat (destruct p; try discriminate). inversion E; auto.
    - destruct x; try discriminate.
      repeat (destruct p; try discriminate). }
  destruct Hg as [-> Hnl]. cbn [group Nat.sub nth].
  intros H; inversion H; subst.
  exists ds. repeat split; try assumption.
  exists s2. now split.
Qed.

Lemma darby_parse_sound (f code : pystr) (ch : Z) :
  extract_darby.parse_filename f = Some (code, ch) ->
  exists ds, chapter_digits DARBY f code ds /\ code <> [] /\
             ds <> [] /\ forallb isdecimal ds = true /\ ch = int ds.
Proof.
  unfold extract_darby.parse_filename.
  destruct (re_match extract_darby.name_pattern f) as [[g rest]|] eqn:E;
    [|discriminate].
  unfold re_match, extract_darby.name_pattern in E.
  cbn [exec] in E.
  destruct f as [|c1 [|c2 [|c3 s1]]]; try discriminate;
    destruct (upper_or_digit c1); try discriminate;
    try (destruct (upper_or_digit c2); try discriminate);
    try (destruct (upper_or_digit c3); try discriminate).
  change (c1 :: c2 :: c3 :: s1) with ([c1; c2; c3] ++ s1) in E.
  rewrite firstn_prefix in E.
  change (exec (Cat (Group (Plus isdecimal)) (Lit (lit ".htm"))) s1
            ([] ++ [[c1; c2; c3]]) (fun s' g' => Some (g', s'))
          = Some (g, rest)) in E.
  apply exec_group_plus_sound in E.
  destruct E as (ds & s2 & Hds & Hdec & -> & E).
  cbn [exec app] in E.
  destruct (strip_prefix (lit ".htm") s2) as [tail|] eqn:Et; [|discriminate].
  apply strip_prefix_Some in Et. inversion E; subst.
  cbn [group Nat.sub nth]. intros H; inversion H; subst.
  exists ds. repeat split; try assumption; try discriminate.
  now exists rest.
Qed.

Lemma parse_sound (v : script) (f code : pystr) (ch : Z) :
  parse_filename_of v f = Some (code, ch) ->
  exists ds, chapter_digits v f code ds /\ code <> [] /\
             ds <> [] /\ forallb isdecimal ds = true /\ ch = int ds.
Proof. destruct v; [apply web_parse_sound|apply darby_parse_sound]. Qed.

(** A match of either script's verse pattern has digit runs for its first
    two groups. *)
Lemma pattern_match_sound (v : script) (s : pystr) (g : groups)
  (rest : pystr) :
  re_match (pattern_of v) s = Some (g, rest) ->
  exists a b t, g = [a; b; t] /\
    a <> [] /\ forallb isdecimal a = true /\
    b <> [] /\ forallb isdecimal b = true.
Proof.
  intros H. destruct v; cbn [pattern_of] in H.
  - apply marker_match_sound in H.
    destruct H as (a & b & t & -> & _ & Ha & Hda & Hb & Hdb & _).
    now exists a, b, t.
  - unfold extract_darby.pattern, re_match in H.
    apply exec_lit_sound in H. destruct H as (s' & -> & H).
    apply marker_match_sound in H.
    destruct H as (a & b & t & -> & _ & Ha & Hda & Hb & Hdb & _).
    now exists a, b, t.
Qed.

Lemma findall3_digits (v : script) (text : pystr) (m : pystr * pystr * pystr) :
  In m (re_findall3 (pattern_of v) text) ->
  number_digits v m <> [] /\ forallb isdecimal (number_digits v m) = true.
Proof.
  unfold re_findall3. intros H. apply in_map_iff in H.
  destruct H as ([p g] & <- & Hin).
  apply finditer_from_sound in Hin. destruct Hin as [_ [rest Hm]].
  apply pattern_match_sound in Hm.
  destruct Hm as (a & b & t & -> & Ha & Hda & Hb & Hdb).
  destruct v; cbn; auto.
Qed.

Lemma extract_of_number (v : script) (html : pystr) (n : Z) (t : pystr) :
  In (n, t) (extract_of v html) ->
  exists m, In m (re_findall3 (pattern_of v) (prepared v html)) /\
            n = int (number_digits v m) /\ t = clean_text_of v (body m).
Proof.
  rewrite extract_of_spec. intros H. apply in_map_iff in H.
  destruct H as (m & Heq & Hin). apply filter_In in Hin.
  destruct Hin as [Hin _]. unfold record_of in Heq.
  injection Heq as <- <-. now exists m.
Qed.

End NumberFacts.

(** ** Chapters and verses of the emitted records *)

Module RecordFacts.
Import Py Re Markup Scripts PyFacts ReFacts PatternFacts ExtractFacts
  NumberFacts.

Lemma parse_chapter_nonneg (v : script) (f code : pystr) (ch : Z) :
  parse_filename_of v f = Some (code, ch) -> (0 <= ch)%Z.
Proof.
  intros H. apply parse_sound in H. destruct H as (ds & _ & _ & _ & _ & ->).
  apply int_nonneg.
Qed.

Lemma extract_verse_nonneg (v : script) (html : pystr) (n : Z) (t : pystr) :
  In (n, t) (extract_of v html) -> (0 <= n)%Z.
Proof.
  intros H. apply extract_of_number in H. destruct H as (m & _ & -> & _).
  apply int_nonneg.
Qed.

Lemma fold_left_append {A B : Type} (f : B -> A) (l : list B) (acc : list A) :
  fold_left (fun acc x => acc ++ [f x]) l acc = acc ++ map f l.
Proof.
  revert acc; induction l as [|x l IH]; intros acc; simpl.
  - now rewrite app_nil_r.
  - now rewrite IH, <- app_assoc.
Qed.

Lemma web_process_file_nonneg (w : world) (st : state) (f : pystr) :
  Forall nonneg (all_verses st) ->
  Forall nonneg
    (all_verses (state_of (extract_bible_data.process_file w st f))).
Proof.
  intros Hst. unfold extract_bible_data.process_file.
  destruct (extract_bible_data.parse_filename f) as [[code ch]|] eqn:Ep;
    [|exact Hst].
  destruct (dict_get extract_bible_data.BOOK_NAMES code) as [book|];
    [|exact Hst].
  unfold extract_bible_data.extract_verses_from_file.
  destruct (read_text w f) as [html|e]; [|exact Hst].
  destruct (extract_bible_data.extract_verses_from_html html)
    as [|r0 rs] eqn:Ev; [exact Hst|].
  assert (Hall : Forall nonneg
    (all_verses st ++
       map (extract_bible_data.verse_obj book ch
              (if str_in book extract_bible_data.OLD_TESTAMENT_BOOKS
               then lit "Old" else lit "New")) (r0 :: rs))).
  { apply Forall_app. split; [exact Hst|].
    apply Forall_forall. intros r Hr. apply in_map_iff in Hr.
    destruct Hr as (x & <- & Hx). split; cbn.
    - apply (parse_chapter_nonneg WEB f code ch Ep).
    - apply (extract_verse_nonneg WEB html _ (extract_bible_data.text x)).
      unfold extract_of. rewrite Ev.
      apply (in_map (fun r => (extract_bible_data.verse_num r,
                               extract_bible_data.text r))). exact Hx. }
  cbv zeta. cbn [all_verses].
  destruct (Nat.eqb _ 0); exact Hall.
Qed.

Lemma web_for_files_nonneg (w : world) (files : list pystr) :
  forall st, Forall nonneg (all_verses st) ->
  Forall nonneg (all_verses (state_of (extract_bible_data.for_files w files st))).
Proof.
  induction files as [|f files IH]; intros st Hst; simpl; [exact Hst|].
  pose proof (web_process_file_nonneg w st f Hst) as H.
  destruct (extract_bible_data.process_file w st f) as [st'|st'];
    [apply IH|]; exact H.
Qed.

Lemma darby_process_file_nonneg (w : world) (st : state) (f : pystr) :
  Forall nonneg (all_verses st) ->
  Forall nonneg (all_verses (extract_darby.process_file w st f)).
Proof.
  intros Hst. unfold extract_darby.process_file.
  destruct (extract_darby.parse_filename f) as [[code ch]|] eqn:Ep;
    [|exact Hst].
  destruct (dict_get extract_darby.BOOK_NAMES code) as [book|];
    [|exact Hst].
  destruct (read_text w f) as [html|e]; [|exact Hst].
  cbv zeta. cbn [all_verses].
  rewrite (fold_left_append
             (extract_darby.verse_obj book ch (extract_darby.get_testament book)
                match list_index book extract_darby.BOOK_ORDER with
                | Some i => Z.of_nat i
                | None => 0%Z
                end)).
  assert (Hall : Forall nonneg
    (all_verses st ++
       map (extract_darby.verse_obj book ch (extract_darby.get_testament book)
              match list_index book extract_darby.BOOK_ORDER with
              | Some i => Z.of_nat i
              | None => 0%Z
              end)
           (extract_darby.extract_verses_from_html html))).
  { apply Forall_app. split; [exact Hst|].
    apply Forall_forall. intros r Hr. apply in_map_iff in Hr.
    destruct Hr as (x & <- & Hx). split; cbn.
    - apply (parse_chapter_nonneg DARBY f code ch Ep).
    - apply (extract_verse_nonneg DARBY html _ (extract_darby.text x)).
      unfold extract_of.
      apply (in_map (fun r => (extract_darby.verse_number r,
                               extract_darby.text r))). exact Hx. }
  destruct (_ && _); exact Hall.
Qed.

Lemma darby_for_files_nonneg (w : world) (files : list pystr) :
  forall st, Forall nonneg (all_verses st) ->
  Forall nonneg (all_verses (extract_darby.for_files w files st)).
Proof.
  unfold extract_darby.for_files.
  induction files as [|f files IH]; intros st Hst; simpl; [exact Hst|].
  apply IH. now apply darby_process_file_nonneg.
Qed.

Lemma web_test_first_file_records (w : world) (files : list pystr)
  (st : state) :
  all_verses (state_of (extract_bible_data.test_first_file w files st))
  = all_verses st.
Proof.
  unfold extract_bible_data.test_first_file.
  destruct files as [|f files]; [reflexivity|].
  destruct (extract_bible_data.extract_verses_from_file w f); reflexivity.
Qed.

Lemma darby_test_first_file_records (w : world) (files : list pystr)
  (st : state) :
  all_verses (state_of (extract_darby.test_first_file w files st))
  = all_verses st.
Proof.
  unfold extract_darby.test_first_file.
  destruct files as [|f files]; [reflexivity|].
  destruct (read_text w f); [|reflexivity].
  destruct (extract_darby.extract_verses_from_html _); reflexivity.
Qed.

Lemma main_nonneg (v : script) (w : world) (records : list VerseObj)
  (out : list pystr) :
  main_of v w = Written records out -> Forall nonneg records.
Proof.
  destruct v; cbn [main_of].
  - unfold extract_bible_data.main.
    set (files := sorted _). set (st0 := print _ _).
    pose proof (web_test_first_file_records w files st0) as H1.
    destruct (extract_bible_data.test_first_file w files st0) as [st1|st1];
      [|discriminate].
    cbn [state_of] in H1.
    assert (H2 : Forall nonneg (all_verses st1))
      by (rewrite H1; constructor).
    apply (web_for_files_nonneg w files) in H2.
    destruct (extract_bible_data.for_files w files st1) as [st2|st2];
      [|discriminate].
    cbn [state_of] in H2. intros H; inversion H; subst. exact H2.
  - unfold extract_darby.main.
    set (files := sorted _). set (st0 := print _ (print _ _)).
    pose proof (darby_test_first_file_records w files st0) as H1.
    destruct (extract_darby.test_first_file w files st0) as [st1|st1];
      [|discriminate].
    cbn [state_of] in H1.
    assert (H2 : Forall nonneg (all_verses st1))
      by (rewrite H1; constructor).
    apply (darby_for_files_nonneg w files) in H2.
    intros H; inversion H; subst. exact H2.
Qed.

End RecordFacts.

(** ** Scanning a text of known shape *)

Module ScanFacts.
Import Py Re Markup Scripts PyFacts ReFacts PatternFacts ExtractFacts.

Lemma notin_by_test (c : N) (l : pystr) :
  existsb (N.eqb c) l = false -> ~ In c l.
Proof.
  intros H Hin. assert (existsb (N.eqb c) l = true); [|congruence].
  apply existsb_exists. exists c. split; [assumption|apply N.eqb_refl].
Qed.

Lemma notin_class (cls : N -> bool) (c : N) (l : pystr) :
  forallb cls l = true -> cls c = false -> ~ In c l.
Proof.
  intros Hall Hc Hin. rewrite forallb_forall in Hall.
  specialize (Hall c Hin). congruence.
Qed.

Lemma notin_app (c : N) (l1 l2 : pystr) :
  ~ In c l1 -> ~ In c l2 -> ~ In c (l1 ++ l2).
Proof. intros H1 H2 H. apply in_app_or in H. tauto. Qed.

Lemma notin_cons (c d : N) (l : pystr) :
  N.eqb c d = false -> ~ In c l -> ~ In c (d :: l).
Proof.
  intros Hd Hl [->|H]; [|tauto]. now rewrite N.eqb_refl in Hd.
Qed.

Lemma occurs_cons_false (p : pystr) (c : N) (s : pystr) :
  startswith p (c :: s) = false -> occurs p s = false ->
  occurs p (c :: s) = false.
Proof. intros H1 H2. simpl. now rewrite H1, H2. Qed.

Lemma occurs_plain_false (c0 : N) (p x s : pystr) :
  ~ In c0 x -> occurs (c0 :: p) s = false ->
  occurs (c0 :: p) (x ++ s) = false.
Proof.
  intros Hx Hs. induction x as [|c x IH]; [exact Hs|].
  cbn [app]. apply occurs_cons_false.
  - rewrite startswith_cons. destruct (N.eqb_spec c0 c) as [->|]; [|reflexivity].
    exfalso; apply Hx; now left.
  - apply IH. intros H; apply Hx; now right.
Qed.

(** A pattern that opens with a literal leaves a text without that literal
    as it is. *)
Lemma re_sub_lit_absent (p : pystr) (r : regex) (repl s : pystr) :
  occurs p s = false -> re_sub (Cat (Lit p) r) repl s = s.
Proof.
  induction s as [|c s IH]; intros H; [reflexivity|].
  rewrite re_sub_nomatch.
  - f_equal. apply IH. now apply occurs_tail in H.
  - apply exec_lit_mismatch. now apply occurs_head.
Qed.

Lemma replace_absent (old new s : pystr) :
  occurs old s = false -> replace old new s = s.
Proof.
  unfold replace. induction s as [|c s IH]; intros H; [reflexivity|].
  rewrite re_sub_nomatch.
  - f_equal. apply IH. now apply occurs_tail in H.
  - apply occurs_head in H. unfold startswith in H.
    unfold re_match; cbn [exec]. now destruct (strip_prefix old (c :: s)).
Qed.

Lemma occurs_no_first (c0 : N) (p s : pystr) :
  ~ In c0 s -> occurs (c0 :: p) s = false.
Proof.
  intros H. rewrite <- (app_nil_r s). now apply occurs_plain_false.
Qed.






End ScanFacts.

(** ** One marker, its body, and the closing [</div>] *)

Module MarkerFacts.
Import Py Re Markup Scripts PyFacts ReFacts PatternFacts ExtractFacts
  ScanFacts.



Section OneMarker.

Variables a b t : pystr.
Hypothesis a_nonempty : a <> [].
Hypothesis a_digits : forallb isdecimal a = true.
Hypothesis b_nonempty : b <> [].
Hypothesis b_digits : forallb isdecimal b = true.
Hypothesis t_plain : ~ In 60%N t.







End OneMarker.

End MarkerFacts.

(** ** Popup spans *)

Module PopupFacts.
Import Py Re Markup Scripts PyFacts ReFacts PatternFacts ExtractFacts
  ScanFacts.
Import extract_bible_data.

Lemma occurs_suffix (p t1 t2 : pystr) :
  occurs p (t1 ++ t2) = false -> occurs p t2 = false.
Proof.
  induction t1 as [|c t1 IH]; [auto|].
  cbn [app]. intros H. apply IH. now apply occurs_tail in H.
Qed.






End PopupFacts.

(** ** White space, and characters removed one by one *)

Module CleanFacts.
Import Py Re Markup Scripts PyFacts ReFacts PatternFacts ExtractFacts
  ScanFacts.

(** *** Where the characters of a result come from *)

Lemma in_sub_from (x : N) (r : regex) (repl s : pystr) :
  forall n, In x (sub_from r repl n s) -> In x repl \/ In x s.
Proof.
  induction s as [|c s IH]; intros n H; cbn [sub_from] in H;
    [contradiction|].
  assert (Hrec : forall k, In x (sub_from r repl k s) ->
                           In x repl \/ In x (c :: s)).
  { intros k Hk. destruct (IH k Hk); [now left|right; now right]. }
  assert (Hcons : In x (c :: sub_from r repl 0 s) ->
                  In x repl \/ In x (c :: s)).
  { intros [->|Hk]; [right; now left|now apply Hrec with 0]. }
  destruct n as [|n]; [|now apply Hrec with n].
  destruct (re_match r (c :: s)) as [[g rest]|]; [|now apply Hcons].
  destruct (length (c :: s) - length rest) as [|k]; [now apply Hcons|].
  apply in_app_or in H. destruct H as [H|H]; [now left|now apply Hrec with k].
Qed.

Lemma in_re_sub (x : N) (r : regex) (repl s : pystr) :
  ~ In x repl -> In x (re_sub r repl s) -> In x s.
Proof. intros Hr H. apply in_sub_from in H. tauto. Qed.

Lemma in_replace (x : N) (old new s : pystr) :
  ~ In x new -> In x (replace old new s) -> In x s.
Proof. apply in_re_sub. Qed.

Lemma in_dropwhile (x : N) (cls : N -> bool) (s : pystr) :
  In x (dropwhile cls s) -> In x s.
Proof.
  destruct (dropwhile_split cls s) as [d [Hd _]]. intros H.
  rewrite Hd. apply in_or_app. now right.
Qed.

Lemma in_strip (x : N) (s : pystr) : In x (strip s) -> In x s.
Proof.
  unfold strip, rstrip, lstrip. intros H.
  apply in_rev, in_dropwhile, in_rev in H. now apply in_dropwhile in H.
Qed.

(** *** Patterns of one character *)

Lemma re_sub_one (cls : N -> bool) (s : pystr) :
  re_sub (One cls) [] s = filter (fun c => negb (cls c)) s.
Proof.
  induction s as [|c s IH]; [reflexivity|]. cbn [filter].
  destruct (cls c) eqn:E; cbn [negb].
  - rewrite <- IH.
    apply (re_sub_match (One cls) [] c [] s []).
    unfold re_match; cbn [exec app]. now rewrite E.
  - rewrite re_sub_nomatch; [now rewrite IH|].
    unfold re_match; cbn [exec]. now rewrite E.
Qed.

Lemma replace_char (c : N) (s : pystr) :
  replace [c] [] s = filter (fun x => negb (N.eqb c x)) s.
Proof.
  unfold replace. induction s as [|d s IH]; [reflexivity|]. cbn [filter].
  destruct (N.eqb c d) eqn:E; cbn [negb].
  - rewrite <- IH.
    apply (re_sub_match (Lit [c]) [] d [] s []).
    unfold re_match; cbn [exec app strip_prefix]. now rewrite E.
  - rewrite re_sub_nomatch; [now rewrite IH|].
    unfold re_match; cbn [exec strip_prefix]. now rewrite E.
Qed.


(** *** Runs of white space *)

Lemma space_match (c : N) (s : pystr) :
  re_match space_pattern (c :: s)
  = if isspace c then Some ([], dropwhile isspace s) else None.
Proof.
  unfold re_match, space_pattern. cbn [exec Plus].
  destruct (isspace c); [|reflexivity]. now apply star_first.
Qed.

Lemma collapse_cons (c : N) (s : pystr) :
  re_sub space_pattern (lit " ") (c :: s)
  = if isspace c
    then 32%N :: re_sub space_pattern (lit " ") (dropwhile isspace s)
    else c :: re_sub space_pattern (lit " ") s.
Proof.
  pose proof (space_match c s) as Hm.
  destruct (isspace c).
  - destruct (dropwhile_split isspace s) as [d [Hd _]].
    rewrite Hd in Hm at 1. rewrite Hd at 1.
    now rewrite (re_sub_match _ _ _ _ _ _ Hm).
  - now apply re_sub_nomatch.
Qed.

Lemma dropwhile_head_false (cls : N -> bool) (s : pystr) :
  match dropwhile cls s with [] => True | d :: _ => cls d = false end.
Proof.
  induction s as [|c s IH]; simpl; [exact I|].
  destruct (cls c) eqn:E; [exact IH|exact E].
Qed.

Lemma dropwhile_length (cls : N -> bool) (s : pystr) :
  length (dropwhile cls s) <= length s.
Proof.
  destruct (dropwhile_split cls s) as [d [Hd _]].
  rewrite Hd at 2. rewrite length_app. lia.
Qed.

Lemma collapse_single_spaced (s : pystr) :
  single_spaced (re_sub space_pattern (lit " ") s).
Proof.
  remember (length s) as n eqn:Hn. revert s Hn.
  induction n as [n IH] using lt_wf_ind. intros s Hn.
  destruct s as [|c s]; [exact I|].
  rewrite collapse_cons. destruct (isspace c) eqn:E.
  - cbn [single_spaced]. split.
    + intros _. split; [reflexivity|].
      pose proof (dropwhile_head_false isspace s) as Hd.
      destruct (dropwhile isspace s) as [|d u]; [exact I|].
      rewrite collapse_cons, Hd. exact Hd.
    + apply (IH (length (dropwhile isspace s))); [|reflexivity].
      subst n. pose proof (dropwhile_length isspace s). simpl. lia.
  - cbn [single_spaced]. split; [congruence|].
    apply (IH (length s)); [subst n; simpl; lia|reflexivity].
Qed.


Lemma single_spaced_app_r (a b : pystr) :
  single_spaced (a ++ b) -> single_spaced b.
Proof.
  induction a as [|c a IH]; [auto|]. cbn [app single_spaced].
  intros [_ H]. now apply IH.
Qed.

Lemma single_spaced_app_l (a b : pystr) :
  single_spaced (a ++ b) -> single_spaced a.
Proof.
  induction a as [|c a IH]; [intros; exact I|]. cbn [app single_spaced].
  intros [Hc H]. split; [|now apply IH].
  intros Hs. destruct (Hc Hs) as [-> Hnext]. split; [reflexivity|].
  destruct a; [exact I|exact Hnext].
Qed.

(** *** [strip] *)

Lemma rstrip_prefix (s : pystr) : exists d, s = rstrip s ++ d.
Proof.
  unfold rstrip, lstrip.
  destruct (dropwhile_split isspace (rev s)) as [d [Hd _]].
  exists (rev d). rewrite <- rev_app_distr, <- Hd. now rewrite rev_involutive.
Qed.

Lemma single_spaced_strip (s : pystr) :
  single_spaced s -> single_spaced (strip s).
Proof.
  intros H. unfold strip.
  destruct (rstrip_prefix (lstrip s)) as [d Hd].
  apply single_spaced_app_l with d. rewrite <- Hd.
  unfold lstrip. destruct (dropwhile_split isspace s) as [e [He _]].
  apply single_spaced_app_r with e. now rewrite <- He.
Qed.


(** *** Cleaning twice *)

Section Twice.

(** [remove] is the script's own removal step: it deletes the characters
    that [keep] rejects, and a space is not one of them. *)
Variable keep : N -> bool.
Variable remove : pystr -> pystr.
Hypothesis remove_filter : forall s, remove s = filter keep s.
Hypothesis keep_space : keep 32%N = true.




End Twice.



End CleanFacts.

(** ** Angle brackets *)

Module BracketFacts.
Import Py Re Markup Scripts PyFacts ReFacts PatternFacts ExtractFacts
  ScanFacts CleanFacts.

(** A character of the replacement text is only there if the old text
    occurred. *)
Lemma in_replace_from (x : N) (old new s : pystr) :
  forall n, In x (sub_from (Lit old) new n s) ->
  In x s \/ (In x new /\ occurs old s = true).
Proof.
  induction s as [|c s IH]; intros n H; cbn [sub_from] in H;
    [contradiction|].
  assert (Hrec : forall k, In x (sub_from (Lit old) new k s) ->
    In x (c :: s) \/ (In x new /\ occurs old (c :: s) = true)).
  { intros k Hk. destruct (IH k Hk) as [Hs|[Hn Ho]].
    - left; now right.
    - right. split; [assumption|]. simpl. rewrite Ho. apply orb_true_r. }
  assert (Hcons : In x (c :: sub_from (Lit old) new 0 s) ->
    In x (c :: s) \/ (In x new /\ occurs old (c :: s) = true)).
  { intros [->|Hk]; [left; now left|now apply Hrec with 0]. }
  destruct n as [|n]; [|now apply Hrec with n].
  destruct (re_match (Lit old) (c :: s)) as [[g rest]|] eqn:E;
    [|now apply Hcons].
  destruct (length (c :: s) - length rest) as [|k]; [now apply Hcons|].
  apply in_app_or in H. destruct H as [H|H]; [|now apply Hrec with k].
  right. split; [assumption|].
  unfold re_match in E. cbn [exec] in E.
  simpl. unfold startswith.
  now destruct (strip_prefix old (c :: s)).
Qed.

Lemma in_replace_new (x : N) (old new s : pystr) :
  In x (replace old new s) -> In x s \/ occurs old s = true.
Proof. intros H. apply in_replace_from in H. tauto. Qed.

(** A text that does not hold the character [c] is found in the result of
    a substitution by [c] only where it already was. *)
Lemma startswith_through_sub (r : regex) (c : N) (p : pystr) :
  ~ In c p ->
  forall s, startswith p (re_sub r [c] s) = true -> startswith p s = true.
Proof.
  induction p as [|a p IH]; intros Hp s H; [reflexivity|].
  destruct s as [|d s]; [discriminate|].
  assert (Hac : a <> c) by (intros ->; apply Hp; now left).
  destruct (re_sub_step r [c] d s) as [Hs|(g & m & rest & _ & _ & Hs)];
    rewrite Hs in H.
  - rewrite startswith_cons in *. apply andb_true_iff in H.
    destruct H as [-> H]. simpl. apply IH; [|assumption].
    intros Hin; apply Hp; now right.
  - cbn [app] in H. rewrite startswith_cons in H.
    apply andb_true_iff in H. destruct H as [H _].
    apply N.eqb_eq in H. contradiction.
Qed.

Lemma occurs_through_sub (r : regex) (c : N) (p : pystr) :
  ~ In c p ->
  forall s, occurs p (re_sub r [c] s) = true -> occurs p s = true.
Proof.
  intros Hp s. remember (length s) as n eqn:Hn. revert s Hn.
  induction n as [n IH] using lt_wf_ind. intros s Hn H.
  destruct s as [|d s]; [exact H|].
  assert (Hhead : startswith p (re_sub r [c] (d :: s)) = true ->
                  occurs p (d :: s) = true).
  { intros Hsw. apply (startswith_through_sub r c p Hp) in Hsw.
    simpl. now rewrite Hsw. }
  destruct (re_sub_step r [c] d s) as [Hs|(g & m & rest & Hshape & _ & Hs)].
  - rewrite Hs in H. simpl in H. apply orb_true_iff in H.
    destruct H as [H|H].
    + apply Hhead. now rewrite Hs.
    + simpl. rewrite (IH (length s)); [apply orb_true_r| |reflexivity|exact H].
      subst n; simpl; lia.
  - rewrite Hs in H. cbn [app] in H. simpl in H. apply orb_true_iff in H.
    destruct H as [H|H].
    + apply Hhead. now rewrite Hs.
    + rewrite Hshape. apply occurs_app_r.
      apply (IH (length rest)); [|reflexivity|exact H].
      subst n. rewrite Hshape, length_app. simpl. lia.
Qed.

(** *** The tag pattern *)

Lemma tag_match_first (c : N) (s : pystr) :
  c <> 60%N -> re_match tag_pattern (c :: s) = None.
Proof.
  intros H. unfold tag_pattern. apply exec_lit_mismatch.
  change (lit "<") with [60%N]. rewrite startswith_cons.
  destruct (N.eqb_spec 60 c); [congruence|reflexivity].
Qed.

Lemma tag_match_after_lt (s : pystr) :
  re_match tag_pattern (60%N :: s)
  = match s with
    | d :: u =>
        if not_gt d then
          match dropwhile not_gt u with
          | e :: rest => Some ([], rest)
          | [] => None
          end
        else None
    | [] => None
    end.
Proof.
  unfold re_match, tag_pattern. change (lit "<") with [60%N].
  change (60%N :: s) with ([60%N] ++ s). rewrite exec_lit_app.
  cbn [exec Plus]. destruct s as [|d u]; [reflexivity|].
  destruct (not_gt d); [|reflexivity].
  rewrite star_greedy.
  - pose proof (dropwhile_head_false not_gt u) as Hd.
    destruct (dropwhile not_gt u) as [|e rest]; [reflexivity|].
    unfold not_gt in Hd. apply negb_false_iff, N.eqb_eq in Hd. subst e.
    reflexivity.
  - intros c t Hc. change (lit ">") with [62%N].
    rewrite strip_prefix_head; [reflexivity|].
    unfold not_gt in Hc. apply negb_true_iff, N.eqb_neq in Hc. congruence.
Qed.

Lemma dropwhile_not_gt_nil (u : pystr) :
  ~ In 62%N u -> dropwhile not_gt u = [].
Proof.
  induction u as [|c u IH]; intros H; [reflexivity|]. simpl.
  assert (Hc : not_gt c = true).
  { unfold not_gt. apply negb_true_iff, N.eqb_neq.
    intros ->. apply H. now left. }
  rewrite Hc. apply IH. intros Hin; apply H; now right.
Qed.

Lemma dropwhile_not_gt_in (u : pystr) :
  dropwhile not_gt u = [] -> ~ In 62%N u.
Proof.
  induction u as [|c u IH]; intros H; [auto|]. simpl in H.
  destruct (not_gt c) eqn:Hc; [|discriminate].
  intros [->|Hin]; [discriminate|]. now apply IH.
Qed.

(** Tag removal leaves no tag behind. *)
Lemma no_tag_left_after_removal (s : pystr) :
  no_tag_left (re_sub tag_pattern (lit " ") s).
Proof.
  remember (length s) as n eqn:Hn. revert s Hn.
  induction n as [n IH] using lt_wf_ind. intros s Hn.
  destruct s as [|c s]; [exact I|].
  assert (IHs : no_tag_left (re_sub tag_pattern (lit " ") s))
    by (apply (IH (length s)); [subst n; simpl; lia|reflexivity]).
  assert (Hplain : re_match tag_pattern (c :: s) = None ->
            re_match tag_pattern (c :: re_sub tag_pattern (lit " ") s) = None ->
            no_tag_left (re_sub tag_pattern (lit " ") (c :: s))).
  { intros Hm Hm'. rewrite (re_sub_nomatch _ _ _ _ Hm). now split. }
  destruct (N.eq_dec c 60) as [->|Hc];
    [|apply Hplain; now apply tag_match_first].
  pose proof (tag_match_after_lt s) as Hm.
  destruct s as [|d u]; [apply Hplain; reflexivity|].
  destruct (not_gt d) eqn:Hd.
  - destruct (dropwhile not_gt u) as [|e rest] eqn:Hu.
    + (* no [>] follows: nothing after this point is replaced *)
      apply Hplain; [exact Hm|].
      assert (Hno : ~ In 62%N (d :: u)).
      { apply notin_cons; [|now apply dropwhile_not_gt_in].
        unfold not_gt in Hd. apply negb_true_iff in Hd.
        now rewrite N.eqb_sym. }
      rewrite tag_match_after_lt.
      destruct (re_sub tag_pattern (lit " ") (d :: u)) as [|d' u'] eqn:Hr;
        [reflexivity|].
      destruct (not_gt d'); [|reflexivity].
      rewrite dropwhile_not_gt_nil; [reflexivity|].
      intros Hin.
      assert (Hin' : In 62%N (re_sub tag_pattern (lit " ") (d :: u)))
        by (rewrite Hr; now right).
      apply in_re_sub in Hin'; [contradiction|].
      apply notin_by_test; reflexivity.
    + (* a tag: replaced by a space, and removal goes on after it *)
      destruct (dropwhile_split not_gt u) as [x [Hx _]]. rewrite Hu in Hx.
      assert (Hshape : 60%N :: d :: u = 60%N :: (d :: x ++ [e]) ++ rest).
      { rewrite Hx. cbn [app]. now rewrite <- app_assoc. }
      rewrite Hshape in Hm |- *.
      rewrite (re_sub_match _ _ _ _ _ _ Hm).
      split; [reflexivity|].
      apply (IH (length rest)); [|reflexivity].
      subst n. rewrite Hshape. cbn [length]. rewrite length_app. lia.
  - (* [<>]: the [>] stays right after the [<] *)
    apply Hplain; [exact Hm|].
    assert (Hd' : d = 62%N).
    { unfold not_gt in Hd. now apply negb_false_iff, N.eqb_eq in Hd. }
    subst d. rewrite re_sub_nomatch by (now apply tag_match_first).
    rewrite tag_match_after_lt. reflexivity.
Qed.

End BracketFacts.

(** * The claims *)

Import Py Re Markup Scripts Samples PyFacts ReFacts PatternFacts ExtractFacts.

(** ** Records and matched markers *)



(** Markers numbered 2, 1, 2 give records numbered 2, 1, 2. *)
Example out_of_order_kept (v : script) :
  extract_of v out_of_order
  = [(2%Z, lit "second"); (1%Z, lit "first"); (2%Z, lit "again")].
Proof. destruct v; vm_compute; reflexivity. Qed.

(** A body of markup and white space only gives no record. *)
Example empty_body_dropped (v : script) :
  extract_of v empty_then_full = [(2%Z, lit "And the earth.")].
Proof. destruct v; vm_compute; reflexivity. Qed.

(** ** The batch drivers *)

Import DriverFacts.

(** C8, as amended.  A chapter file of a known book that cannot be read:
    the loop of [extract_darby] prints an error line for it and goes on
    with the files that follow, records and earlier output unchanged; the
    loop of [extract_bible_data] raises, and so does its [main] whenever
    such a file is among the chapter files of the directory. *)
Theorem read_failure_in_loop (v : script) (w : world) (f code book e : pystr)
  (ch : Z) :
  parse_filename_of v f = Some (code, ch) ->
  dict_get BOOK_NAMES code = Some book ->
  read_text w f = IOError e ->
  (forall rest st,
     for_files_of v w (f :: rest) st =
     match v with
     | WEB => Raised st
     | DARBY =>
         for_files_of DARBY w rest
           (print (lit "Error processing " ++ f ++ lit ": " ++ e) st)
     end) /\
  (v = WEB -> In f (listdir w) ->
   extract_bible_data.is_chapter_file f = true ->
   exists out, extract_bible_data.main w = Aborted out).
Proof.
  intros Hparse Hcode Hread.
  assert (Hweb : v = WEB ->
    forall st, extract_bible_data.process_file w st f = Raised st).
  { intros -> st. cbn [parse_filename_of] in Hparse.
    unfold extract_bible_data.process_file.
    rewrite Hparse. unfold extract_bible_data.BOOK_NAMES. rewrite Hcode.
    unfold extract_bible_data.extract_verses_from_file. now rewrite Hread. }
  split.
  - intros rest st. destruct v; cbn [parse_filename_of for_files_of] in *.
    + cbn [extract_bible_data.for_files]. now rewrite (Hweb eq_refl).
    + f_equal. unfold extract_darby.for_files. cbn [fold_left]. f_equal.
      unfold extract_darby.process_file.
      rewrite Hparse. unfold extract_darby.BOOK_NAMES. rewrite Hcode.
      now rewrite Hread.
  - intros Hv Hin Hfile. unfold extract_bible_data.main.
    destruct (extract_bible_data.test_first_file w _ _) as [st1|st1];
      [|now exists (stdout st1)].
    destruct (web_for_files_raises w
                (sorted (filter extract_bible_data.is_chapter_file (listdir w)))
                f) with (st := st1) as [st2 Hst2].
    + apply in_sorted, filter_In. now split.
    + now apply Hweb.
    + rewrite Hst2. now exists (stdout st2).
Qed.

Lemma read_failure_in_loop_witness :
  for_files_of DARBY Samples.genesis_unreadable
    [lit "GEN01.htm"; lit "EXO01.htm"] {| all_verses := []; stdout := [] |}
  = for_files_of DARBY Samples.genesis_unreadable [lit "EXO01.htm"]
      (print (lit "Error processing " ++ lit "GEN01.htm" ++ lit ": "
                ++ lit "[Errno 13] Permission denied")
         {| all_verses := []; stdout := [] |}).
Proof.
  apply (proj1 (read_failure_in_loop DARBY Samples.genesis_unreadable
                  (lit "GEN01.htm") (lit "GEN") (lit "Genesis")
                  (lit "[Errno 13] Permission denied") 1%Z
                  ltac:(vm_compute; reflexivity)
                  ltac:(vm_compute; reflexivity)
                  ltac:(vm_compute; reflexivity))).
Defined.

(** C8, refuted as stated.  With two chapter files of which [GEN01.htm]
    cannot be read, [extract_bible_data]'s [main] is left by the exception:
    the batch is aborted and the record of [EXO01.htm] is not written. *)
Lemma unreadable_file_aborts_batch :
  read_text Samples.genesis_unreadable (lit "GEN01.htm")
    = IOError (lit "[Errno 13] Permission denied") /\
  main_of WEB Samples.genesis_unreadable
    = Aborted [lit "Found 2 chapter files";
               lit "Testing first file: EXO01.htm";
               lit "Test extraction resulted in 1 verses"].
Proof. split; vm_compute; reflexivity. Qed.

(** In [extract_darby] the same directory is processed to the end: the
    failure is printed and the record of the other file is written. *)
Example darby_goes_on_after_unreadable_file :
  exists r, main_of DARBY Samples.genesis_unreadable
  = Written [r]
      [lit "Processing Darby Translation from: " ++ extract_darby.DARBY_DIR;
       lit "Found 2 chapter files in Darby Translation";
       lit "Testing first file: EXO01.htm";
       lit "Test extraction resulted in 1 verses";
       lit "Sample verse: Now these are the names....";
       lit "Error processing GEN01.htm: [Errno 13] Permission denied";
       lit "Total verses extracted: 1";
       lit "Output written to: " ++ extract_darby.OUTPUT_JSON;
       lit "Darby Translation has been successfully extracted!"]
  /\ FullText r = lit "Exodus 1:1: Now these are the names.".
Proof. eexists. split; vm_compute; reflexivity. Qed.

(** The first-file test of [extract_darby] reads outside the [try]: when
    the first chapter file cannot be read, its [main] is aborted too. *)
Example darby_first_file_unreadable :
  main_of DARBY Samples.nothing_readable
  = Aborted [lit "Processing Darby Translation from: " ++ extract_darby.DARBY_DIR;
             lit "Found 1 chapter files in Darby Translation";
             lit "Testing first file: GEN01.htm"].
Proof. vm_compute; reflexivity. Qed.

(** Apart from that test, no read failure keeps [extract_darby]'s [main]
    from writing its output, in a run in which the directory is listed,
    every [int()] returns and the output can be written; the runs in which
    one of these raises are those of [Strict.extract_darby.main]. *)
Lemma darby_main_completes (w : world) :
  let files := sorted (filter extract_darby.is_chapter_file (listdir w)) in
  (files = [] \/ exists html, read_text w (hd [] files) = Content html) ->
  exists records out, extract_darby.main w = Written records out.
Proof.
  intros files H. unfold extract_darby.main. fold files.
  unfold extract_darby.test_first_file.
  destruct files as [|f files']; [eexists; eexists; reflexivity|].
  destruct H as [H|[html H]]; [discriminate|].
  simpl in H. rewrite H.
  destruct (extract_darby.extract_verses_from_html html);
    eexists; eexists; reflexivity.
Qed.

(** ** The two-verse scenario *)

Import NumberFacts RecordFacts Samples.

(** C3, refuted as stated.  On the fragment as written, with nothing after
    [And the earth...], the first script returns the first verse only, and
    its text has a space before the full stop; so does the second script
    when the three dots stand for the opening of the marker. *)
Lemma scenario_without_terminator :
  extract_of WEB (scenario dots) = [(1%Z, lit "In the beginning .")] /\
  extract_of DARBY (scenario span_lead) = [(1%Z, lit "In the beginning .")] /\
  extract_of WEB (scenario dots)
    <> [(1%Z, lit "In the beginning."); (2%Z, lit "And the earth...")].
Proof.
  split; [vm_compute; reflexivity|].
  split; [vm_compute; reflexivity|].
  vm_compute. discriminate.
Qed.

(** C3, as amended.  On the fragment followed by the closing [</div>], both
    scripts return exactly two records, verse 1 with the text
    [In the beginning .] (the closing tag of the emphasis became a space)
    and verse 2 with the text [And the earth...]; without the [</div>] the
    last verse has no terminator and only verse 1 is returned. *)
Theorem scenario_with_closing_div (v : script) :
  extract_of v (scenario span_lead ++ div_close) = two_verses /\
  extract_of WEB (scenario dots ++ div_close) = two_verses /\
  extract_of v (scenario span_lead) = [(1%Z, lit "In the beginning .")].
Proof.
  destruct v; repeat split; vm_compute; reflexivity.
Qed.

(** The end of the text ends no verse: where neither terminator occurs in
    the text the verse pattern is run on, no record is returned. *)
Lemma verse_needs_terminator (v : script) (html : pystr) :
  occurs verse_open (prepared v html) = false ->
  occurs div_close (prepared v html) = false ->
  extract_of v html = [].
Proof.
  intros Hv Hd. rewrite extract_of_spec. unfold re_findall3, re_finditer.
  destruct (finditer_from (pattern_of v) 0 0 (prepared v html))
    as [|[p g] found] eqn:E; [reflexivity|].
  exfalso.
  assert (Hin : In (p, g) (finditer_from (pattern_of v) 0 0 (prepared v html)))
    by (rewrite E; now left).
  apply finditer_from_sound in Hin. destruct Hin as [_ [rest Hm]].
  rewrite Nat.sub_0_r in Hm.
  assert (Hrest : exists pre, prepared v html = pre ++ rest /\
            startswith verse_open rest || startswith div_close rest = true).
  { destruct v; cbn [pattern_of] in Hm.
    - apply marker_match_sound in Hm.
      destruct Hm as (a & b & t & _ & Hs & _ & _ & _ & _ & Ht).
      exists (firstn p (prepared WEB html)
                ++ marker_head ++ a ++ marker_mid ++ b ++ marker_tail ++ t).
      split; [|exact Ht].
      rewrite <- (firstn_skipn p (prepared WEB html)) at 1.
      rewrite Hs. now rewrite <- !app_assoc.
    - unfold extract_darby.pattern, re_match in Hm.
      apply exec_lit_sound in Hm. destruct Hm as (s' & Hs' & Hm).
      apply marker_match_sound in Hm.
      destruct Hm as (a & b & t & _ & Hs & _ & _ & _ & _ & Ht).
      exists (firstn p (prepared DARBY html)
                ++ (verse_open ++ lit " ")
                ++ marker_head ++ a ++ marker_mid ++ b ++ marker_tail ++ t).
      split; [|exact Ht].
      rewrite <- (firstn_skipn p (prepared DARBY html)) at 1.
      rewrite Hs', Hs. now rewrite <- !app_assoc. }
  destruct Hrest as (pre & Hpre & Ht).
  assert (Hocc : forall q, startswith q rest = true ->
                           occurs q (prepared v html) = true).
  { intros q Hq. rewrite Hpre. apply occurs_app_r.
    destruct rest; simpl; [exact Hq|now rewrite Hq]. }
  apply orb_true_iff in Ht. destruct Ht as [Ht|Ht];
    apply Hocc in Ht; congruence.
Qed.

(** ** Chapter and verse numbers *)

(** C9, refuted as stated.  A chapter file [GEN00.htm] whose marker is
    numbered 0 makes both batch drivers emit one record, with chapter 0 and
    verse 0. *)
Lemma chapter_zero_verse_zero :
  extract_bible_data.parse_filename (lit "GEN00.htm") = Some (lit "GEN", 0%Z) /\
  extract_of WEB verse_zero = [(0%Z, lit "In the beginning.")] /\
  (exists r out, main_of WEB zero_world = Written [r] out /\
                 Chapter r = 0%Z /\ Verse r = 0%Z) /\
  (exists r out, main_of DARBY zero_world = Written [r] out /\
                 Chapter r = 0%Z /\ Verse r = 0%Z).
Proof.
  split; [vm_compute; reflexivity|].
  split; [vm_compute; reflexivity|].
  split; vm_compute; eexists; eexists; repeat split.
Qed.

(** C9, as amended.  In both scripts the chapter is the base-ten value of
    the non-empty digit run of the file name and the verse number that of a
    non-empty digit run of the marker; such a value is never negative, and
    it is at least 1 exactly when the run has a digit other than zero.  So
    every record the batch driver emits has a chapter and a verse that are
    at least 0. *)
Theorem chapter_and_verse_from_digits (v : script) :
  (forall f code ch, parse_filename_of v f = Some (code, ch) ->
     exists ds, chapter_digits v f code ds /\ ds <> [] /\
                forallb isdecimal ds = true /\ ch = int ds) /\
  (forall html n t, In (n, t) (extract_of v html) ->
     exists m, In m (re_findall3 (pattern_of v) (prepared v html)) /\
               number_digits v m <> [] /\
               forallb isdecimal (number_digits v m) = true /\
               n = int (number_digits v m)) /\
  (forall ds, (0 <= int ds)%Z /\
              ((1 <= int ds)%Z <-> exists c, In c ds /\ digit c <> 0%Z)) /\
  (forall w records out r,
     main_of v w = Written records out -> In r records ->
     (0 <= Chapter r)%Z /\ (0 <= Verse r)%Z).
Proof.
  split; [|split; [|split]].
  - intros f code ch H. apply parse_sound in H.
    destruct H as (ds & Hshape & _ & Hne & Hdec & Hch). now exists ds.
  - intros html n t H. apply extract_of_number in H.
    destruct H as (m & Hin & Hn & _).
    destruct (findall3_digits v _ m Hin) as [Hne Hdec]. now exists m.
  - intros ds. split; [apply int_nonneg|apply int_positive].
  - intros w records out r Hmain Hr.
    apply main_nonneg in Hmain.
    rewrite Forall_forall in Hmain. exact (Hmain r Hr).
Qed.

Lemma chapter_and_verse_from_digits_witness :
  exists ds, chapter_digits WEB (lit "GEN00.htm") (lit "GEN") ds /\
             ds <> [] /\ forallb isdecimal ds = true /\ 0%Z = int ds.
Proof.
  apply (proj1 (chapter_and_verse_from_digits WEB)
           (lit "GEN00.htm") (lit "GEN") 0%Z).
  vm_compute; reflexivity.
Defined.

(** ** Which digits give the verse number *)

Import ScanFacts MarkerFacts PopupFacts.




(** ** Popup spans *)


(** What the first script makes of the verse with the popup. *)
Example popup_removed_in_first_script :
  extract_of WEB with_popup = [(1%Z, lit "Word end")].
Proof. vm_compute; reflexivity. Qed.

(** ** Cleaning a text twice *)

Import CleanFacts.




Example clean_text_sample :
  clean_text_of WEB (lit "  In the   beginning [God] ")
    = lit "In the beginning [God]" /\
  clean_text_of DARBY (lit "  In the   beginning [God] ")
    = lit "In the beginning God".
Proof. split; vm_compute; reflexivity. Qed.

(** A text with [&] in it can be free of entities and still change at the
    second cleaning: removing the footnote mark of [&], U+2020, [lt;]
    leaves the entity [&lt;], which only a second cleaning decodes. *)
Example removal_can_complete_an_entity :
  occurs (lit "&lt;") hidden_entity = false /\
  clean_text_of WEB hidden_entity = lit "&lt;" /\
  clean_text_of WEB (clean_text_of WEB hidden_entity) = lit "<".
Proof. repeat split; vm_compute; reflexivity. Qed.

(** ** Angle brackets in the text of a record *)

Import BracketFacts.

(** C2, refuted as stated.  In both scripts [&lt;] and [&gt;] are decoded
    after the tags are removed, and a bracket that is not part of a tag is
    not removed at all: the texts of these records hold [<] and [>]. *)
Lemma angle_brackets_in_text :
  extract_of WEB with_entities = [(1%Z, lit "a <b> c")] /\
  extract_of DARBY with_entities = [(1%Z, lit "a <b> c")] /\
  extract_of WEB with_stray_brackets = [(1%Z, lit "x > y and y < z")] /\
  In 60%N (lit "a <b> c") /\ In 62%N (lit "a <b> c").
Proof.
  split; [vm_compute; reflexivity|].
  split; [vm_compute; reflexivity|].
  split; [vm_compute; reflexivity|].
  split; vm_compute; auto 10.
Qed.

Lemma in_decoded (x : N) (entity : pystr) (s : pystr) :
  (x = 60%N /\ entity = lit "&lt;") \/ (x = 62%N /\ entity = lit "&gt;") ->
  In x (decode_entities s) -> In x s \/ occurs entity s = true.
Proof.
  intros Hx H. unfold decode_entities in H.
  assert (Hother : forall old new u,
    existsb (N.eqb x) new = false -> In x (replace old new u) -> In x u).
  { intros old new u Hn. apply in_replace. now apply notin_by_test. }
  assert (Hspace : forall old u,
    In x (replace old (lit " ") u) -> In x u).
  { intros old u. apply Hother. destruct Hx as [[-> _]|[-> _]]; reflexivity. }
  assert (Hocc : forall old u,
    occurs entity (replace old (lit " ") u) = true -> occurs entity u = true).
  { intros old u. unfold replace. apply occurs_through_sub.
    destruct Hx as [[_ ->]|[_ ->]]; apply notin_by_test; reflexivity. }
  apply Hother in H; [|destruct Hx as [[-> _]|[-> _]]; reflexivity].
  apply Hother in H; [|destruct Hx as [[-> _]|[-> _]]; reflexivity].
  apply Hother in H; [|destruct Hx as [[-> _]|[-> _]]; reflexivity].
  destruct Hx as [[-> ->]|[-> ->]].
  - apply Hother in H; [|reflexivity].
    apply in_replace_new in H. destruct H as [H|H].
    + left. now apply Hspace, Hspace in H.
    + right. now apply Hocc, Hocc in H.
  - apply in_replace_new in H. destruct H as [H|H].
    + left. apply Hother in H; [|reflexivity].
      now apply Hspace, Hspace in H.
    + right.
      assert (H' : occurs (lit "&gt;")
                     (replace (lit "&nbsp;") (lit " ")
                        (replace (lit "&#160;") (lit " ") s)) = true).
      { revert H. unfold replace at 1. apply occurs_through_sub.
        apply notin_by_test; reflexivity. }
      now apply Hocc, Hocc in H'.
Qed.

Lemma in_clean_text (v : script) (x : N) (entity : pystr) (t : pystr) :
  (x = 60%N /\ entity = lit "&lt;") \/ (x = 62%N /\ entity = lit "&gt;") ->
  In x (clean_text_of v t) ->
  In x (re_sub tag_pattern (lit " ") t) \/ occurs entity t = true.
Proof.
  intros Hx H.
  assert (Hnot : forall l, existsb (N.eqb x) l = false -> ~ In x l)
    by (intros l; apply notin_by_test).
  assert (Hdec : In x (decode_entities (re_sub tag_pattern (lit " ") t))).
  { destruct v; cbn [clean_text_of] in H.
    - unfold extract_bible_data.clean_text in H.
      apply in_strip, in_re_sub in H;
        [|apply Hnot; destruct Hx as [[-> _]|[-> _]]; reflexivity].
      apply in_re_sub in H; [exact H|intros []].
    - unfold extract_darby.clean_text in H.
      apply in_strip, in_re_sub in H;
        [|apply Hnot; destruct Hx as [[-> _]|[-> _]]; reflexivity].
      apply in_replace in H; [|intros []].
      apply in_replace in H; [exact H|intros []]. }
  apply (in_decoded x entity _ Hx) in Hdec. destruct Hdec as [H'|H'].
  - now left.
  - right. revert H'. apply occurs_through_sub.
    destruct Hx as [[_ ->]|[_ ->]]; apply notin_by_test; reflexivity.
Qed.

(** C2, as amended.  In both scripts the text of a record is the cleaned
    body of a matched marker in which tag removal leaves no tag
    ([<], one or more characters other than [>], then [>]); a [<] or a [>]
    in the text is either a bracket that was not part of a tag and that tag
    removal left in the body, or the decoding of an [&lt;] or [&gt;] of the
    body. *)
Theorem angle_brackets_of_a_record (v : script) (html : pystr) (n : Z)
  (text : pystr) :
  In (n, text) (extract_of v html) ->
  exists m,
    In m (re_findall3 (pattern_of v) (prepared v html)) /\
    text = clean_text_of v (body m) /\
    no_tag_left (re_sub tag_pattern (lit " ") (body m)) /\
    (In 60%N text ->
     In 60%N (re_sub tag_pattern (lit " ") (body m))
     \/ occurs (lit "&lt;") (body m) = true) /\
    (In 62%N text ->
     In 62%N (re_sub tag_pattern (lit " ") (body m))
     \/ occurs (lit "&gt;") (body m) = true).
Proof.
  intros H. apply NumberFacts.extract_of_number in H.
  destruct H as (m & Hin & _ & Ht). exists m.
  split; [exact Hin|]. split; [exact Ht|].
  split; [apply no_tag_left_after_removal|].
  subst text. split; apply in_clean_text; auto.
Qed.

Lemma angle_brackets_of_a_record_witness :
  exists m,
    In m (re_findall3 (pattern_of WEB) (prepared WEB with_entities)) /\
    lit "a <b> c" = clean_text_of WEB (body m) /\
    no_tag_left (re_sub tag_pattern (lit " ") (body m)) /\
    (In 60%N (lit "a <b> c") ->
     In 60%N (re_sub tag_pattern (lit " ") (body m))
     \/ occurs (lit "&lt;") (body m) = true) /\
    (In 62%N (lit "a <b> c") ->
     In 62%N (re_sub tag_pattern (lit " ") (body m))
     \/ occurs (lit "&gt;") (body m) = true).
Proof.
  apply (angle_brackets_of_a_record WEB with_entities 1%Z (lit "a <b> c")).
  vm_compute. now left.
Defined.


(** * Further properties of the scripts *)

(** ** What [main] writes *)

Module BatchFacts.
Import Py Re Markup Scripts Batch PyFacts DriverFacts.

Lemma web_records_of_verses (book : pystr) (ch : Z)
  (verses : list extract_bible_data.verse) :
  map (extract_bible_data.verse_obj book ch (testament_of WEB book)) verses
  = map (record_from WEB book ch)
        (map (fun r => (extract_bible_data.verse_num r,
                        extract_bible_data.text r)) verses).
Proof. rewrite map_map. apply map_ext. reflexivity. Qed.

Lemma darby_records_of_verses (book : pystr) (ch : Z)
  (verses : list extract_darby.verse) :
  map (extract_darby.verse_obj book ch (testament_of DARBY book)
         (book_number_of DARBY book)) verses
  = map (record_from DARBY book ch)
        (map (fun r => (extract_darby.verse_number r, extract_darby.text r))
             verses).
Proof. rewrite map_map. apply map_ext. reflexivity. Qed.

(** One iteration of the first script's loop: it raises exactly on an
    unreadable chapter file of a known book, and otherwise appends the
    records of the file. *)
Lemma web_process_file_cases (w : world) (st : state) (f : pystr) :
  (unreadable_known WEB w f /\
   extract_bible_data.process_file w st f = Raised st) \/
  (~ unreadable_known WEB w f /\
   exists st', extract_bible_data.process_file w st f = Normal st' /\
               all_verses st' = all_verses st ++ file_records WEB w f).
Proof.
  unfold extract_bible_data.process_file, file_records, unreadable_known.
  cbn [parse_filename_of].
  destruct (extract_bible_data.parse_filename f) as [[code ch]|] eqn:Ep.
  2:{ right. split; [intros (c & n & b & e & H & _); discriminate|].
      exists st. now rewrite app_nil_r. }
  unfold extract_bible_data.BOOK_NAMES.
  destruct (dict_get BOOK_NAMES code) as [book|] eqn:Ed.
  2:{ right. split.
      - intros (c & n & b & e & H & H' & _). congruence.
      - exists st. now rewrite app_nil_r. }
  unfold extract_bible_data.extract_verses_from_file.
  destruct (read_text w f) as [html|e] eqn:Er.
  2:{ left. split; [now exists code, ch, book, e|reflexivity]. }
  right. split; [intros (c & n & b & e & _ & _ & H); discriminate|].
  unfold extract_of.
  rewrite <- (web_records_of_verses book ch).
  destruct (extract_bible_data.extract_verses_from_html html) as [|r rs].
  - eexists; split; [reflexivity|]. cbn. now rewrite app_nil_r.
  - cbv zeta. cbn [all_verses].
    destruct (Nat.eqb _ 0); eexists; (split; [reflexivity|reflexivity]).
Qed.

Lemma web_for_files_cases (w : world) (files : list pystr) :
  forall st,
  ((exists f, In f files /\ unreadable_known WEB w f) /\
   exists st', extract_bible_data.for_files w files st = Raised st') \/
  ((forall f, In f files -> ~ unreadable_known WEB w f) /\
   exists st', extract_bible_data.for_files w files st = Normal st' /\
               all_verses st'
               = all_verses st ++ flat_map (file_records WEB w) files).
Proof.
  induction files as [|f files IH]; intros st.
  - right. split; [intros f []|]. exists st. simpl. now rewrite app_nil_r.
  - cbn [extract_bible_data.for_files flat_map].
    destruct (web_process_file_cases w st f)
      as [[Hbad ->]|[Hok (st1 & -> & Hst1)]].
    + left. split; [exists f; split; [now left|assumption]|now exists st].
    + destruct (IH st1) as [[(g & Hg & Hbad) Hr]|[Hall (st2 & Hn & Hst2)]].
      * left. split; [exists g; split; [now right|assumption]|exact Hr].
      * right. split.
        -- intros g [<-|Hg]; [assumption|now apply Hall].
        -- exists st2. split; [assumption|].
           now rewrite Hst2, Hst1, <- app_assoc.
Qed.

Lemma darby_process_file_records (w : world) (st : state) (f : pystr) :
  all_verses (extract_darby.process_file w st f)
  = all_verses st ++ file_records DARBY w f.
Proof.
  unfold extract_darby.process_file, file_records.
  cbn [parse_filename_of].
  destruct (extract_darby.parse_filename f) as [[code ch]|];
    [|now rewrite app_nil_r].
  unfold extract_darby.BOOK_NAMES.
  destruct (dict_get BOOK_NAMES code) as [book|]; [|now rewrite app_nil_r].
  destruct (read_text w f) as [html|e]; [|cbn; now rewrite app_nil_r].
  unfold extract_of. rewrite <- (darby_records_of_verses book ch).
  cbv zeta. cbn [all_verses].
  rewrite (RecordFacts.fold_left_append
             (extract_darby.verse_obj book ch (extract_darby.get_testament book)
                match list_index book extract_darby.BOOK_ORDER with
                | Some i => Z.of_nat i
                | None => 0%Z
                end)).
  destruct (_ && _); reflexivity.
Qed.

Lemma darby_for_files_records (w : world) (files : list pystr) :
  forall st,
    all_verses (extract_darby.for_files w files st)
    = all_verses st ++ flat_map (file_records DARBY w) files.
Proof.
  unfold extract_darby.for_files.
  induction files as [|f files IH]; intros st; simpl.
  - now rewrite app_nil_r.
  - now rewrite IH, darby_process_file_records, <- app_assoc.
Qed.

Lemma all_verses_print (line : pystr) (st : state) :
  all_verses (print line st) = all_verses st.
Proof. reflexivity. Qed.

(** The two drivers, with the first-file test and the loop spelled out. *)
Lemma web_main_cases (w : world) :
  let files := html_files_of WEB w in
  match extract_bible_data.main w with
  | Written records _ =>
      records = flat_map (file_records WEB w) files /\
      (forall f, In f files -> ~ unreadable_known WEB w f) /\
      (files = [] \/ exists html, read_text w (hd [] files) = Content html)
  | Aborted _ =>
      (exists f, In f files /\ unreadable_known WEB w f) \/
      (files <> [] /\ exists e, read_text w (hd [] files) = IOError e)
  end.
Proof.
  intros files. unfold extract_bible_data.main.
  change (sorted (filter extract_bible_data.is_chapter_file (listdir w)))
    with files.
  set (st0 := print _ _).
  pose proof (RecordFacts.web_test_first_file_records w files st0) as Hrec.
  unfold extract_bible_data.test_first_file in *.
  destruct files as [|f0 files'] eqn:Ef.
  - cbn [extract_bible_data.for_files]. rewrite !all_verses_print.
    split; [reflexivity|]. split; [intros f []|now left].
  - unfold extract_bible_data.extract_verses_from_file in *.
    destruct (read_text w f0) as [html|e] eqn:Er.
    + cbn [state_of] in Hrec.
      match goal with
      | |- context [extract_bible_data.for_files w _ ?s] => set (st1 := s) in *
      end.
      destruct (web_for_files_cases w (f0 :: files') st1)
        as [[Hbad (st2 & ->)]|[Hall (st2 & -> & Hst2)]].
      * now left.
      * rewrite !all_verses_print.
        split; [|split; [exact Hall|right; now exists html]].
        rewrite Hst2, Hrec. unfold st0. now rewrite all_verses_print.
    + right. split; [discriminate|now exists e].
Qed.

Lemma darby_main_cases (w : world) :
  let files := html_files_of DARBY w in
  match extract_darby.main w with
  | Written records _ =>
      records = flat_map (file_records DARBY w) files /\
      (files = [] \/ exists html, read_text w (hd [] files) = Content html)
  | Aborted _ =>
      files <> [] /\ exists e, read_text w (hd [] files) = IOError e
  end.
Proof.
  intros files. unfold extract_darby.main.
  change (sorted (filter extract_darby.is_chapter_file (listdir w)))
    with files.
  set (st0 := print _ (print _ _)).
  pose proof (RecordFacts.darby_test_first_file_records w files st0) as Hrec.
  unfold extract_darby.test_first_file in *.
  destruct files as [|f0 files'] eqn:Ef.
  - rewrite !all_verses_print. split; [|now left].
    rewrite darby_for_files_records. unfold st0.
    now rewrite !all_verses_print.
  - destruct (read_text w f0) as [html|e] eqn:Er.
    + assert (Hok : f0 :: files' = [] \/
                exists h, read_text w (hd [] (f0 :: files')) = Content h)
        by (right; exists html; exact Er).
      destruct (extract_darby.extract_verses_from_html html) as [|r rs];
        cbn [state_of] in Hrec; rewrite !all_verses_print;
        (split; [|exact Hok]);
        rewrite darby_for_files_records, Hrec; unfold st0;
        now rewrite !all_verses_print.
    + split; [discriminate|now exists e].
Qed.

End BatchFacts.

Import Batch BatchFacts.

(** X2.  Every record [main] writes, in either script, comes from a file of
    the directory listing that passes the chapter file filter, whose name
    parses to the record's chapter and to a code that [BOOK_NAMES] maps to
    the record's book, and from a verse extracted from the text of that
    file; its text is not empty, and its other fields are functions of
    book, chapter, verse and text: the reference is
    [book chapter:verse] and the full text is the reference, [: ] and the
    text. *)
Theorem written_record_provenance (v : script) (w : world)
  (records : list VerseObj) (out : list pystr) (r : VerseObj) :
  main_of v w = Written records out ->
  In r records ->
  (exists f book_code html_content,
     In f (listdir w) /\ is_chapter_file_of v f = true /\
     parse_filename_of v f = Some (book_code, Chapter r) /\
     dict_get BOOK_NAMES book_code = Some (Book r) /\
     read_text w f = Content html_content /\
     In (Verse r, Text r) (extract_of v html_content)) /\
  Text r <> [] /\
  r = record_from v (Book r) (Chapter r) (Verse r, Text r) /\
  Reference r
    = Book r ++ lit " " ++ str_of_int (Chapter r) ++ lit ":"
        ++ str_of_int (Verse r) /\
  FullText r = Reference r ++ lit ": " ++ Text r.
Proof.
  intros Hmain Hr.
  assert (Hrec : records = flat_map (file_records v w) (html_files_of v w)).
  { destruct v; cbn [main_of] in Hmain.
    - pose proof (web_main_cases w) as Hc. cbv zeta in Hc.
      rewrite Hmain in Hc. now destruct Hc as [-> _].
    - pose proof (darby_main_cases w) as Hc. cbv zeta in Hc.
      rewrite Hmain in Hc. now destruct Hc as [-> _]. }
  subst records. apply in_flat_map in Hr. destruct Hr as (f & Hf & Hr).
  unfold html_files_of in Hf. apply in_sorted, filter_In in Hf.
  destruct Hf as [Hlist Hfile].
  unfold file_records in Hr.
  destruct (parse_filename_of v f) as [[code ch]|] eqn:Ep; [|contradiction].
  destruct (dict_get BOOK_NAMES code) as [book|] eqn:Ed; [|contradiction].
  destruct (read_text w f) as [html|e] eqn:Er; [|contradiction].
  apply in_map_iff in Hr. destruct Hr as ([n t] & <- & Hv).
  cbn [record_from Book Chapter Verse Text Reference FullText fst snd].
  split; [now exists f, code, html|].
  split; [|repeat split].
  rewrite ExtractFacts.extract_of_spec in Hv. apply in_map_iff in Hv.
  destruct Hv as (m & Hm & Hin). apply filter_In in Hin.
  destruct Hin as [_ Hk]. unfold record_of in Hm. injection Hm as _ <-.
  unfold keeps in Hk. now destruct (clean_text_of v (body m)).
Qed.

Lemma written_record_provenance_witness :
  exists r, In r (flat_map (file_records WEB all_readable)
                    (html_files_of WEB all_readable)) /\
            FullText r = Reference r ++ lit ": " ++ Text r.
Proof.
  pose (records := flat_map (file_records WEB all_readable)
                     (html_files_of WEB all_readable)).
  assert (Hmain : exists out, main_of WEB all_readable = Written records out)
    by (eexists; vm_compute; reflexivity).
  destruct Hmain as [out Hmain].
  exists (hd (record_from WEB [] 0%Z (0%Z, [])) records).
  assert (Hin : In (hd (record_from WEB [] 0%Z (0%Z, [])) records) records)
    by (vm_compute; now left).
  split; [exact Hin|].
  apply (written_record_provenance WEB all_readable records out _ Hmain Hin).
Defined.

(** ** The order the files are processed in *)

Module SortFacts.
Import Py Batch.

Lemma str_leb_refl (a : pystr) : str_leb a a = true.
Proof.
  induction a as [|x a IH]; [reflexivity|]. simpl.
  now rewrite N.eqb_refl, IH, orb_true_r.
Qed.

Lemma str_leb_total (a b : pystr) : str_leb a b = false -> str_leb b a = true.
Proof.
  revert b; induction a as [|x a IH]; intros [|y b]; simpl; try easy.
  intros H. apply orb_false_iff in H. destruct H as [Hlt H].
  apply N.ltb_ge in Hlt.
  destruct (N.eqb_spec x y) as [->|Hne].
  - simpl in H. now rewrite (IH b H), N.eqb_refl, orb_true_r.
  - assert (Hyx : (y <? x)%N = true) by (apply N.ltb_lt; lia).
    now rewrite Hyx.
Qed.

Lemma str_leb_trans (a b c : pystr) :
  str_leb a b = true -> str_leb b c = true -> str_leb a c = true.
Proof.
  revert b c; induction a as [|x a IH]; intros [|y b] [|z c]; simpl;
    try easy.
  intros H1 H2. apply orb_true_iff in H1, H2. apply orb_true_iff.
  destruct H1 as [H1|H1], H2 as [H2|H2].
  - left. apply N.ltb_lt in H1, H2. apply N.ltb_lt. lia.
  - apply andb_true_iff in H2. destruct H2 as [E _].
    apply N.eqb_eq in E. subst z. now left.
  - apply andb_true_iff in H1. destruct H1 as [E _].
    apply N.eqb_eq in E. subst y. now left.
  - apply andb_true_iff in H1, H2. destruct H1 as [E1 H1], H2 as [E2 H2].
    apply N.eqb_eq in E1, E2. subst y z. right.
    now rewrite N.eqb_refl, (IH b c H1 H2).
Qed.

Lemma str_leb_antisym (a b : pystr) :
  str_leb a b = true -> str_leb b a = true -> a = b.
Proof.
  revert b; induction a as [|x a IH]; intros [|y b]; simpl; try easy.
  intros H1 H2. apply orb_true_iff in H1, H2.
  destruct H1 as [H1|H1], H2 as [H2|H2].
  - apply N.ltb_lt in H1, H2. lia.
  - apply andb_true_iff in H2. destruct H2 as [E _].
    apply N.eqb_eq in E. apply N.ltb_lt in H1. lia.
  - apply andb_true_iff in H1. destruct H1 as [E _].
    apply N.eqb_eq in E. apply N.ltb_lt in H2. lia.
  - apply andb_true_iff in H1, H2. destruct H1 as [E1 H1], H2 as [_ H2].
    apply N.eqb_eq in E1. subst y. f_equal. now apply IH.
Qed.

Lemma insert_sorted_perm (x : pystr) (l : list pystr) :
  Permutation (insert_sorted x l) (x :: l).
Proof.
  induction l as [|y l IH]; simpl; [reflexivity|].
  destruct (str_leb x y); [reflexivity|].
  rewrite IH. apply perm_swap.
Qed.

Lemma insert_sorted_sorted (x : pystr) (l : list pystr) :
  StronglySorted str_le l -> StronglySorted str_le (insert_sorted x l).
Proof.
  induction l as [|y l IH]; intros H; simpl.
  - constructor; constructor.
  - inversion H as [|? ? Hl Hy]; subst.
    destruct (str_leb x y) eqn:E.
    + constructor; [assumption|]. constructor; [exact E|].
      eapply Forall_impl; [|exact Hy].
      intros z Hz. now apply str_leb_trans with y.
    + constructor; [now apply IH|].
      apply Forall_forall. intros z Hz.
      apply (Permutation_in _ (insert_sorted_perm x l)) in Hz.
      destruct Hz as [<-|Hz]; [now apply str_leb_total|].
      rewrite Forall_forall in Hy. now apply Hy.
Qed.

Lemma sorted_perm (l : list pystr) : Permutation (sorted l) l.
Proof.
  unfold sorted. induction l as [|x l IH]; simpl; [reflexivity|].
  rewrite insert_sorted_perm. now constructor.
Qed.

Lemma sorted_sorted (l : list pystr) : StronglySorted str_le (sorted l).
Proof.
  unfold sorted. induction l as [|x l IH]; simpl; [constructor|].
  now apply insert_sorted_sorted.
Qed.

End SortFacts.

(** X5.  In both scripts the list of files [main] processes holds exactly
    the names of the directory listing that pass the chapter file filter,
    each as many times as listed, in ascending order of their code points;
    the order of comparison is a total order, so the list does not depend
    on the order of the listing. *)
Theorem html_files_sorted (v : script) (w : world) :
  Permutation (html_files_of v w)
    (filter (is_chapter_file_of v) (listdir w)) /\
  StronglySorted str_le (html_files_of v w) /\
  (forall w',
     Permutation (listdir w') (listdir w) ->
     html_files_of v w' = html_files_of v w).
Proof.
  split; [apply SortFacts.sorted_perm|].
  split; [apply SortFacts.sorted_sorted|].
  intros w' Hperm. unfold html_files_of.
  assert (Hp : Permutation
            (sorted (filter (is_chapter_file_of v) (listdir w')))
            (sorted (filter (is_chapter_file_of v) (listdir w)))).
  { rewrite !SortFacts.sorted_perm. clear -Hperm.
    induction Hperm; simpl.
    - reflexivity.
    - destruct (is_chapter_file_of v x); [now constructor|assumption].
    - destruct (is_chapter_file_of v x), (is_chapter_file_of v y);
        try reflexivity. apply perm_swap.
    - now transitivity (filter (is_chapter_file_of v) l'). }
  pose proof (SortFacts.sorted_sorted
                (filter (is_chapter_file_of v) (listdir w'))) as H1.
  pose proof (SortFacts.sorted_sorted
                (filter (is_chapter_file_of v) (listdir w))) as H2.
  revert Hp H1 H2.
  generalize (sorted (filter (is_chapter_file_of v) (listdir w'))).
  generalize (sorted (filter (is_chapter_file_of v) (listdir w))).
  intros l2 l1. revert l2.
  induction l1 as [|a l1 IH]; intros l2 Hp H1 H2.
  - apply Permutation_nil in Hp. now subst.
  - destruct l2 as [|b l2];
      [apply Permutation_sym, Permutation_nil in Hp; discriminate|].
    inversion H1 as [|? ? S1 F1]; inversion H2 as [|? ? S2 F2]; subst.
    rewrite Forall_forall in F1, F2.
    assert (Hab : a = b).
    { apply SortFacts.str_leb_antisym.
      - assert (Hb : In b (a :: l1))
          by (apply (Permutation_in _ (Permutation_sym Hp)); now left).
        destruct Hb as [->|Hb]; [apply SortFacts.str_leb_refl|now apply F1].
      - assert (Ha : In a (b :: l2))
          by (apply (Permutation_in _ Hp); now left).
        destruct Ha as [->|Ha]; [apply SortFacts.str_leb_refl|now apply F2]. }
    subst b. f_equal. apply IH; try assumption.
    now apply Permutation_cons_inv in Hp.
Qed.

(** ** The book tables *)

Module TableFacts.
Import Py Markup.

Lemma dict_get_in (d : dict) (k v : pystr) :
  dict_get d k = Some v -> In (k, v) d.
Proof.
  induction d as [|[k' v'] d IH]; simpl; [discriminate|].
  destruct (str_eqb k k') eqn:E.
  - apply PyFacts.str_eqb_eq in E. subst k'.
    intros H; inversion H; now left.
  - intros H. right. now apply IH.
Qed.

End TableFacts.

(** X6.  A book code that [BOOK_NAMES] maps to a name: the name stands in
    [BOOK_ORDER] at the position, from 0 to 65, that the code's entry has
    in [BOOK_NAMES]; that position is the book number of the second script,
    its testament is [Old] exactly for the positions below 39, and no other
    code has that name.  The two scripts give every book name the same
    testament. *)
Theorem known_book_rank (code name : pystr) :
  dict_get BOOK_NAMES code = Some name ->
  (exists i,
     i < 66 /\
     nth_error BOOK_NAMES i = Some (code, name) /\
     list_index name extract_darby.BOOK_ORDER = Some i /\
     book_number_of DARBY name = Z.of_nat i /\
     testament_of DARBY name = (if i <? 39 then lit "Old" else lit "New")) /\
  (forall code', dict_get BOOK_NAMES code' = Some name -> code' = code) /\
  (forall any_name, testament_of WEB any_name = testament_of DARBY any_name).
Proof.
  intros Hget.
  pose (check := fun p : pystr * pystr =>
    match list_index (snd p) extract_darby.BOOK_ORDER with
    | None => false
    | Some i =>
        (i <? 66)
        && match nth_error BOOK_NAMES i with
           | Some (c, n) => str_eqb c (fst p) && str_eqb n (snd p)
           | None => false
           end
        && str_eqb (testament_of DARBY (snd p))
                   (if i <? 39 then lit "Old" else lit "New")
    end).
  assert (Hall : forallb check BOOK_NAMES = true) by (vm_compute; reflexivity).
  rewrite forallb_forall in Hall.
  assert (Hrank : forall c n, dict_get BOOK_NAMES c = Some n ->
    exists i, i < 66 /\ nth_error BOOK_NAMES i = Some (c, n) /\
              list_index n extract_darby.BOOK_ORDER = Some i /\
              testament_of DARBY n
              = (if i <? 39 then lit "Old" else lit "New")).
  { intros c n H. apply TableFacts.dict_get_in in H.
    specialize (Hall (c, n) H). unfold check in Hall. cbn [fst snd] in Hall.
    destruct (list_index n extract_darby.BOOK_ORDER) as [i|] eqn:Ei;
      [|discriminate].
    apply andb_true_iff in Hall. destruct Hall as [Hall Ht].
    apply andb_true_iff in Hall. destruct Hall as [Hi Hn].
    destruct (nth_error BOOK_NAMES i) as [[c' n']|] eqn:En; [|discriminate].
    apply andb_true_iff in Hn. destruct Hn as [Hc Hn].
    apply PyFacts.str_eqb_eq in Hc, Hn, Ht. subst c' n'.
    exists i. repeat split; try reflexivity; try assumption.
    now apply Nat.ltb_lt. }
  split; [|split].
  - destruct (Hrank code name Hget) as (i & Hi & Hn & Hidx & Ht).
    exists i. repeat split; try assumption.
    cbn [book_number_of]. now rewrite Hidx.
  - intros code' Hget'.
    destruct (Hrank code name Hget) as (i & _ & Hn & Hidx & _).
    destruct (Hrank code' name Hget') as (i' & _ & Hn' & Hidx' & _).
    congruence.
  - intros any_name. cbn [testament_of]. unfold extract_darby.get_testament.
    assert (Hot : extract_bible_data.OLD_TESTAMENT_BOOKS
                  = firstn 39 extract_darby.BOOK_ORDER)
      by (vm_compute; reflexivity).
    now rewrite Hot.
Qed.

Lemma known_book_rank_witness :
  (exists i,
     i < 66 /\
     nth_error BOOK_NAMES i = Some (lit "JHN", lit "John") /\
     list_index (lit "John") extract_darby.BOOK_ORDER = Some i /\
     book_number_of DARBY (lit "John") = Z.of_nat i /\
     testament_of DARBY (lit "John")
     = (if i <? 39 then lit "Old" else lit "New")) /\
  (forall code',
     dict_get BOOK_NAMES code' = Some (lit "John") -> code' = lit "JHN") /\
  (forall any_name, testament_of WEB any_name = testament_of DARBY any_name).
Proof.
  apply (known_book_rank (lit "JHN") (lit "John")).
  vm_compute. reflexivity.
Defined.

(** ** File names *)

Module ParseFacts.
Import Py Re Markup Scripts PyFacts ReFacts PatternFacts ScanFacts.

Lemma replace_skip_plain (c0 : N) (p new x s : pystr) :
  ~ In c0 x ->
  replace (c0 :: p) new (x ++ s) = x ++ replace (c0 :: p) new s.
Proof.
  unfold replace. induction x as [|c x IH]; intros Hx; [reflexivity|].
  cbn [app]. rewrite re_sub_nomatch.
  - f_equal. apply IH. intros H; apply Hx; now right.
  - unfold re_match; cbn [exec]. rewrite strip_prefix_head; [reflexivity|].
    intros ->. apply Hx. now left.
Qed.

Lemma replace_here (c0 : N) (p new s : pystr) :
  replace (c0 :: p) new ((c0 :: p) ++ s) = new ++ replace (c0 :: p) new s.
Proof.
  unfold replace.
  replace ((c0 :: p) ++ s) with (c0 :: p ++ s) by reflexivity.
  apply (re_sub_match (Lit (c0 :: p)) new c0 p s []).
  unfold re_match; cbn [exec].
  change (c0 :: p ++ s) with ((c0 :: p) ++ s). now rewrite strip_prefix_app.
Qed.

Lemma exec_eos (s : pystr) (g : groups) (k : cont) :
  exec Eos s g k
  = if match s with
       | [] => true
       | [c] => N.eqb c 10
       | _ => false
       end
    then k s g else None.
Proof.
  destruct s as [|c [|d t]]; [reflexivity| |].
  - destruct c as [|p]; [reflexivity|].
    repeat (destruct p as [p|p|]; try reflexivity).
  - destruct c as [|p]; [reflexivity|].
    repeat (destruct p as [p|p|]; try reflexivity).
Qed.

Lemma exec_eos_after_digit (c : N) (t : pystr) (g : groups) (k : cont) :
  isdecimal c = true -> exec Eos (c :: t) g k = None.
Proof.
  intros Hc. rewrite exec_eos. destruct t as [|d t]; [|reflexivity].
  destruct (N.eqb_spec c 10) as [->|]; [discriminate|reflexivity].
Qed.

(** A greedy run of a class, when what follows in the pattern cannot start
    on the class and what follows in the subject does not start with it. *)
Lemma exec_group_plus_greedy (cls : N -> bool) (r : regex) (d s : pystr)
  (g : groups) (k : cont) :
  d <> [] -> forallb cls d = true ->
  (forall c t g', cls c = true -> exec r (c :: t) g' k = None) ->
  dropwhile cls s = s ->
  exec (Cat (Group (Plus cls)) r) (d ++ s) g k = exec r s (g ++ [d]) k.
Proof.
  intros Hne Hd Hr Hs. destruct d as [|c d]; [contradiction|].
  simpl in Hd. apply andb_true_iff in Hd. destruct Hd as [Hc Hd].
  cbn [exec Plus app]. rewrite Hc. rewrite star_greedy.
  - rewrite dropwhile_app, Hs by assumption.
    change (c :: d ++ s) with ((c :: d) ++ s). now rewrite firstn_prefix.
  - intros c' t Hc'. now apply Hr.
Qed.

Lemma exec_plus_greedy (cls : N -> bool) (r : regex) (d s : pystr)
  (g : groups) (k : cont) :
  d <> [] -> forallb cls d = true ->
  (forall c t g', cls c = true -> exec r (c :: t) g' k = None) ->
  dropwhile cls s = s ->
  exec (Cat (Plus cls) r) (d ++ s) g k = exec r s g k.
Proof.
  intros Hne Hd Hr Hs. destruct d as [|c d]; [contradiction|].
  simpl in Hd. apply andb_true_iff in Hd. destruct Hd as [Hc Hd].
  cbn [exec Plus app]. rewrite Hc. rewrite star_greedy.
  - now rewrite dropwhile_app, Hs by assumption.
  - intros c' t Hc'. now apply Hr.
Qed.

Lemma lit_after_digit (q : pystr) (c : N) (t : pystr) (g : groups)
  (k : cont) :
  isdecimal c = true -> exec (Lit (46%N :: q)) (c :: t) g k = None.
Proof.
  intros Hc. cbn [exec]. rewrite strip_prefix_head; [reflexivity|].
  intros <-. discriminate.
Qed.

(** [(\d+)$] does not match where a character that is no digit comes
    before the last character. *)
Lemma no_digits_to_end (u : pystr) (z : N) (ds : pystr) (g : groups)
  (k : cont) :
  isdecimal z = false -> ds <> [] -> forallb isdecimal ds = true ->
  exec (Cat (Group (Plus isdecimal)) Eos) (u ++ z :: ds) g k = None.
Proof.
  intros Hz Hne Hds.
  destruct (exec (Cat (Group (Plus isdecimal)) Eos) (u ++ z :: ds) g k)
    as [res|] eqn:E; [|reflexivity].
  exfalso. apply exec_group_plus_sound in E.
  destruct E as (d & s' & _ & Hd & Hshape & E).
  rewrite exec_eos in E.
  assert (Hrev : rev ds ++ z :: rev u = rev s' ++ rev d).
  { rewrite <- rev_app_distr, <- Hshape, rev_app_distr. simpl.
    now rewrite <- app_assoc. }
  assert (Hlast : exists e tl, rev ds = e :: tl /\ isdecimal e = true).
  { destruct (rev ds) as [|e tl] eqn:Er.
    - apply (f_equal (@rev N)) in Er. rewrite rev_involutive in Er.
      now subst ds.
    - exists e, tl. split; [reflexivity|].
      rewrite forallb_forall in Hds. apply Hds, in_rev.
      rewrite Er. now left. }
  destruct Hlast as (e & tl & Hr & He). rewrite Hr in Hrev.
  assert (Hzd : In z (rev s' ++ rev d)).
  { rewrite <- Hrev. apply in_or_app. right. now left. }
  destruct s' as [|c [|c' s']]; try discriminate.
  - simpl in Hzd. apply in_rev in Hzd.
    rewrite forallb_forall in Hd. specialize (Hd z Hzd). congruence.
  - destruct (N.eqb c 10) eqn:Ec; [|discriminate].
    apply N.eqb_eq in Ec. subst c.
    simpl in Hrev. injection Hrev as He' _. subst e. discriminate He.
Qed.

Lemma star_some (cls : N -> bool) (d rest : pystr) (g : groups) (k : cont) :
  forallb cls d = true -> k rest g <> None ->
  star cls (d ++ rest) g k <> None.
Proof.
  intros Hd Hk. induction d as [|c d IH]; cbn [app].
  - destruct rest as [|c rest]; [exact Hk|]. simpl.
    destruct (cls c); [|exact Hk].
    destruct (star cls rest g k); [discriminate|exact Hk].
  - simpl in Hd. apply andb_true_iff in Hd. destruct Hd as [Hc Hd].
    simpl. rewrite Hc.
    destruct (star cls (d ++ rest) g k) eqn:E; [discriminate|].
    now apply IH in Hd.
Qed.

(** The lazy run stops at the first place where the continuation succeeds,
    and not before. *)
Lemma star_lazy_first_cls (cls : N -> bool) (s rest : pystr) (g : groups)
  (k : cont) res :
  forallb cls s = true ->
  (forall t1 c t2, s = t1 ++ c :: t2 -> k (c :: t2 ++ rest) g = None) ->
  k rest g = Some res ->
  star_lazy cls (s ++ rest) g k = Some res.
Proof.
  induction s as [|c s IH]; intros Hs Hno Hk; simpl app.
  - rewrite star_lazy_unfold. now rewrite Hk.
  - simpl in Hs. apply andb_true_iff in Hs. destruct Hs as [Hc Hs].
    rewrite star_lazy_unfold. rewrite (Hno [] c s eq_refl). rewrite Hc.
    apply IH; try assumption.
    intros t1 d t2 ->. apply (Hno (c :: t1) d t2). reflexivity.
Qed.

Lemma star_lazy_min (cls : N -> bool) (s : pystr) (g : groups) (k : cont)
  res :
  star_lazy cls s g k = Some res ->
  exists d rest,
    s = d ++ rest /\ forallb cls d = true /\ k rest g = Some res /\
    forall d1 c d2, d = d1 ++ c :: d2 -> k (c :: d2 ++ rest) g = None.
Proof.
  induction s as [|c s IH]; rewrite star_lazy_unfold; intros H.
  - destruct (k [] g) eqn:E; [|discriminate].
    exists [], []. repeat split; try congruence.
    intros [|? ?] ? ? ?; discriminate.
  - destruct (k (c :: s) g) eqn:E.
    + exists [], (c :: s). repeat split; try congruence.
      intros [|? ?] ? ? ?; discriminate.
    + destruct (cls c) eqn:Ec; [|discriminate].
      destruct (IH H) as (d & rest & -> & Hd & Hk & Hmin).
      exists (c :: d), rest. simpl. rewrite Ec.
      repeat split; try assumption.
      intros [|x d1] y d2 Heq; simpl in Heq; injection Heq as -> ->.
      * exact E.
      * now apply Hmin with d1.
Qed.

Lemma exec_group_pluslazy_cons (cls : N -> bool) (r : regex) (c : N)
  (s : pystr) (g : groups) (k : cont) :
  exec (Cat (Group (PlusLazy cls)) r) (c :: s) g k
  = if cls c
    then star_lazy cls s g
           (fun s' g' =>
              exec r s'
                (g' ++ [firstn (length (c :: s) - length s') (c :: s)]) k)
    else None.
Proof. reflexivity. Qed.

Lemma exec_group_pluslazy_nil (cls : N -> bool) (r : regex) (g : groups)
  (k : cont) :
  exec (Cat (Group (PlusLazy cls)) r) [] g k = None.
Proof. reflexivity. Qed.

End ParseFacts.

(** X7.  [extract_bible_data]: a name made of a book code, of upper-case
    letters and digits and ending in a character that is no digit, of a
    non-empty run of digits and of [.htm] passes the chapter file filter
    and parses to that code and to the value of the digits. *)
Theorem web_parse_filename_complete (code ds : pystr) :
  code <> [] -> forallb upper_or_digit code = true ->
  isdecimal (last code 0%N) = false ->
  ds <> [] -> forallb isdecimal ds = true ->
  extract_bible_data.is_chapter_file (code ++ ds ++ lit ".htm") = true /\
  extract_bible_data.parse_filename (code ++ ds ++ lit ".htm")
  = Some (code, int ds).
Proof.
  intros Hne Hcode Hlast Hdne Hds.
  destruct code as [|c1 code']; [contradiction|]. clear Hne.
  pose proof Hcode as Hcode0.
  simpl in Hcode. apply andb_true_iff in Hcode. destruct Hcode as [Hc1 Hcode'].
  split.
  - unfold extract_bible_data.is_chapter_file, re_match,
      extract_bible_data.chapter_file.
    cbn [exec Plus app]. rewrite Hc1.
    match goal with
    | |- match ?x with Some _ => true | None => false end = true =>
        assert (Hx : x <> None); [|destruct x; [reflexivity|contradiction]]
    end.
    apply ParseFacts.star_some; [exact Hcode'|].
    change (exec (Cat (Plus isdecimal) (Lit (46%N :: lit "htm")))
              (ds ++ 46%N :: lit "htm") [] (fun s' g' => Some (g', s'))
            <> None).
    rewrite ParseFacts.exec_plus_greedy; try assumption.
    + discriminate.
    + intros c t g' Hc. now apply ParseFacts.lit_after_digit.
    + reflexivity.
  - unfold extract_bible_data.parse_filename.
    assert (Hname : replace (lit ".htm") [] ((c1 :: code') ++ ds ++ lit ".htm")
                    = (c1 :: code') ++ ds).
    { change (lit ".htm") with (46%N :: lit "htm").
      rewrite app_assoc.
      rewrite ParseFacts.replace_skip_plain.
      - rewrite <- (app_nil_r (46%N :: lit "htm")) at 2.
        rewrite ParseFacts.replace_here. now rewrite app_nil_r.
      - apply ScanFacts.notin_app.
        + now apply (ScanFacts.notin_class upper_or_digit).
        + now apply (ScanFacts.notin_class isdecimal). }
    rewrite Hname.
    assert (Hm : re_match extract_bible_data.name_pattern
                   ((c1 :: code') ++ ds)
                 = Some ([c1 :: code'; ds], [])).
    { unfold re_match, extract_bible_data.name_pattern.
      cbn [app]. rewrite ParseFacts.exec_group_pluslazy_cons, Hc1.
      apply ParseFacts.star_lazy_first_cls; [exact Hcode'| |].
      - intros t1 c t2 Hsplit.
        assert (Hz : exists u, c :: t2 = u ++ [last (c1 :: code') 0%N]).
        { assert (Hn : c :: t2 <> []) by discriminate.
          destruct (exists_last Hn) as (u & z & Hu). exists u.
          rewrite Hu. do 2 f_equal.
          rewrite Hsplit.
          change (c1 :: t1 ++ c :: t2) with ((c1 :: t1) ++ c :: t2).
          rewrite Hu, app_assoc. now rewrite last_last. }
        destruct Hz as [u Hu].
        change (c :: t2 ++ ds) with ((c :: t2) ++ ds).
        rewrite Hu, <- app_assoc. cbn [app].
        now apply ParseFacts.no_digits_to_end.
      - change (c1 :: code' ++ ds) with ((c1 :: code') ++ ds).
        rewrite firstn_prefix.
        replace (exec (Cat (Group (Plus isdecimal)) Eos) ds)
          with (exec (Cat (Group (Plus isdecimal)) Eos) (ds ++ []))
          by now rewrite app_nil_r.
        rewrite ParseFacts.exec_group_plus_greedy; try assumption.
        + reflexivity.
        + intros c t g' Hc. now apply ParseFacts.exec_eos_after_digit.
        + reflexivity. }
    rewrite Hm. reflexivity.
Qed.

Lemma web_parse_filename_complete_witness :
  extract_bible_data.is_chapter_file (lit "JHN" ++ lit "03" ++ lit ".htm")
    = true /\
  extract_bible_data.parse_filename (lit "JHN" ++ lit "03" ++ lit ".htm")
  = Some (lit "JHN", int (lit "03")).
Proof.
  apply (web_parse_filename_complete (lit "JHN") (lit "03"));
    solve [discriminate | reflexivity].
Defined.

(** X8.  [extract_darby]: a name made of three upper-case letters or
    digits, of a non-empty run of digits, of [.htm] and of anything after
    it passes the chapter file filter and parses to the three characters as
    the book code and to the value of the digits. *)
Theorem darby_parse_filename_complete (c1 c2 c3 : N) (ds tail : pystr) :
  upper_or_digit c1 = true -> upper_or_digit c2 = true ->
  upper_or_digit c3 = true ->
  ds <> [] -> forallb isdecimal ds = true ->
  extract_darby.is_chapter_file ([c1; c2; c3] ++ ds ++ lit ".htm" ++ tail)
    = true /\
  extract_darby.parse_filename ([c1; c2; c3] ++ ds ++ lit ".htm" ++ tail)
  = Some ([c1; c2; c3], int ds).
Proof.
  intros H1 H2 H3 Hdne Hds.
  assert (Hm : re_match extract_darby.name_pattern
                 ([c1; c2; c3] ++ ds ++ lit ".htm" ++ tail)
               = Some ([[c1; c2; c3]; ds], tail)).
  { unfold re_match, extract_darby.name_pattern.
    cbn [exec app]. rewrite H1, H2, H3.
    change (c1 :: c2 :: c3 :: ds ++ lit ".htm" ++ tail)
      with ([c1; c2; c3] ++ ds ++ lit ".htm" ++ tail).
    rewrite firstn_prefix.
    change (lit ".htm") with (46%N :: lit "htm").
    change (exec (Cat (Group (Plus isdecimal)) (Lit (46%N :: lit "htm")))
              (ds ++ (46%N :: lit "htm") ++ tail) ([] ++ [[c1; c2; c3]])
              (fun s' g' => Some (g', s'))
            = Some ([[c1; c2; c3]; ds], tail)).
    rewrite ParseFacts.exec_group_plus_greedy; try assumption.
    - cbn [exec]. now rewrite strip_prefix_app.
    - intros c t g' Hc. now apply ParseFacts.lit_after_digit.
    - reflexivity. }
  unfold extract_darby.is_chapter_file, extract_darby.parse_filename.
  rewrite Hm. split; reflexivity.
Qed.

Lemma darby_parse_filename_complete_witness :
  extract_darby.is_chapter_file
    ([74; 72; 78]%N ++ lit "03" ++ lit ".htm" ++ lit ".bak") = true /\
  extract_darby.parse_filename
    ([74; 72; 78]%N ++ lit "03" ++ lit ".htm" ++ lit ".bak")
  = Some ([74; 72; 78]%N, int (lit "03")).
Proof.
  apply (darby_parse_filename_complete 74 72 78 (lit "03") (lit ".bak"));
    solve [discriminate | reflexivity].
Defined.

(** X9.  [extract_bible_data]: the lazy book code group takes as little as
    it can, so all the digits at the end of the name go to the chapter: a
    parsed book code of more than one character never ends in a digit. *)
Theorem web_book_code_shortest (f code : pystr) (ch : Z) :
  extract_bible_data.parse_filename f = Some (code, ch) ->
  forallb upper_or_digit code = true /\
  (length code = 1 \/ isdecimal (last code 0%N) = false).
Proof.
  unfold extract_bible_data.parse_filename.
  destruct (re_match extract_bible_data.name_pattern _) as [[g rest]|] eqn:E;
    [|discriminate].
  unfold re_match, extract_bible_data.name_pattern in E.
  destruct (replace (lit ".htm") [] f) as [|c1 s1]; [discriminate|].
  rewrite ParseFacts.exec_group_pluslazy_cons in E.
  destruct (upper_or_digit c1) eqn:Hc1; [|discriminate].
  apply ParseFacts.star_lazy_min in E.
  destruct E as (d & s2 & -> & Hd & E & Hmin).
  change (c1 :: d ++ s2) with ((c1 :: d) ++ s2) in E.
  rewrite firstn_prefix in E.
  pose proof E as E0.
  apply exec_group_plus_sound in E.
  destruct E as (ds & s3 & Hdne & Hds & -> & E).
  rewrite ParseFacts.exec_eos in E.
  destruct (match s3 with [] => true | [c] => N.eqb c 10 | _ :: _ :: _ => false
            end) eqn:Hend; [|discriminate].
  injection E as <- <-. cbn [group Nat.sub nth app].
  intros H; injection H as <- _.
  split; [simpl; now rewrite Hc1|].
  destruct d as [|x d'] using rev_ind; [now left|]. right. clear IHd'.
  change (c1 :: d' ++ [x]) with ((c1 :: d') ++ [x]). rewrite last_last.
  destruct (isdecimal x) eqn:Hx; [exfalso|reflexivity].
  specialize (Hmin d' x [] eq_refl). cbn [app] in Hmin.
  change (x :: ds ++ s3) with ((x :: ds) ++ s3) in Hmin.
  rewrite ParseFacts.exec_group_plus_greedy in Hmin.
  - rewrite ParseFacts.exec_eos, Hend in Hmin. discriminate.
  - discriminate.
  - simpl. now rewrite Hx.
  - intros c t g' Hc. now apply ParseFacts.exec_eos_after_digit.
  - destruct s3 as [|c [|c' s3]]; try discriminate; [reflexivity|].
    apply N.eqb_eq in Hend. subst c. reflexivity.
Qed.

Lemma web_book_code_shortest_witness :
  forallb upper_or_digit (lit "A1B") = true /\
  (length (lit "A1B") = 1 \/ isdecimal (last (lit "A1B") 0%N) = false).
Proof.
  apply (web_book_code_shortest (lit "A1B23.htm") (lit "A1B") 23%Z).
  vm_compute. reflexivity.
Defined.

(** ** The text of a record *)

Module TextFacts.
Import Py Re Markup Scripts Batch Shape PyFacts ReFacts PatternFacts
  ExtractFacts ScanFacts CleanFacts BracketFacts.

Lemma strip_trimmed (s : pystr) : trimmed (strip s).
Proof.
  unfold trimmed, strip. split.
  - destruct (rstrip_prefix (lstrip s)) as [d Hd].
    pose proof (dropwhile_head_false isspace s) as Hh.
    fold (lstrip s) in Hh. rewrite Hd in Hh.
    destruct (rstrip (lstrip s)); [exact I|exact Hh].
  - unfold rstrip at 1. rewrite rev_involutive.
    apply dropwhile_head_false.
Qed.

(** The last two steps of cleaning are applied to a text from which the
    characters the script deletes are gone. *)
Lemma clean_text_shape (v : script) (s : pystr) :
  exists u,
    clean_text_of v s = strip (re_sub space_pattern (lit " ") u) /\
    forall c, In c u -> deleted_by v c = false.
Proof.
  destruct v; cbn [clean_text_of].
  - unfold extract_bible_data.clean_text.
    unfold extract_bible_data.footnote_marker. rewrite re_sub_one.
    eexists. split; [reflexivity|].
    intros c Hc. apply filter_In in Hc. destruct Hc as [_ Hc].
    now apply negb_true_iff in Hc.
  - unfold extract_darby.clean_text.
    change (lit "]") with [93%N]. change (lit "[") with [91%N].
    rewrite !replace_char.
    eexists. split; [reflexivity|].
    intros c Hc. apply filter_In in Hc. destruct Hc as [Hc H93].
    apply filter_In in Hc. destruct Hc as [_ H91].
    apply negb_true_iff in H91, H93. cbn [deleted_by].
    rewrite (N.eqb_sym c 91), (N.eqb_sym c 93), H91, H93. reflexivity.
Qed.

Lemma deleted_not_space (v : script) : deleted_by v 32%N = false.
Proof. destruct v; reflexivity. Qed.

Lemma clean_text_normal (v : script) (s : pystr) :
  trimmed (clean_text_of v s) /\
  single_spaced (clean_text_of v s) /\
  forall c, In c (clean_text_of v s) -> deleted_by v c = false.
Proof.
  destruct (clean_text_shape v s) as (u & -> & Hu).
  split; [apply strip_trimmed|].
  split; [apply single_spaced_strip, collapse_single_spaced|].
  intros c Hc. apply in_strip in Hc. unfold re_sub in Hc.
  apply in_sub_from in Hc. destruct Hc as [[<-|[]]|Hc].
  - apply deleted_not_space.
  - now apply Hu.
Qed.

(** *** Tags *)

Lemma tag_sub_skip (repl u s : pystr) :
  ~ In 60%N u ->
  re_sub tag_pattern repl (u ++ s) = u ++ re_sub tag_pattern repl s.
Proof.
  induction u as [|c u IH]; intros Hu; [reflexivity|].
  cbn [app]. rewrite re_sub_nomatch.
  - f_equal. apply IH. intros H; apply Hu; now right.
  - apply tag_match_first. intros ->. apply Hu. now left.
Qed.

Lemma tag_sub_here (repl : pystr) (d : N) (x w : pystr) :
  d <> 62%N -> ~ In 62%N x ->
  re_sub tag_pattern repl (60%N :: d :: x ++ 62%N :: w)
  = repl ++ re_sub tag_pattern repl w.
Proof.
  intros Hd Hx.
  replace (60%N :: d :: x ++ 62%N :: w)
    with (60%N :: (d :: x ++ [62%N]) ++ w)
    by (cbn [app]; now rewrite <- app_assoc).
  apply (re_sub_match tag_pattern repl 60%N (d :: x ++ [62%N]) w []).
  rewrite tag_match_after_lt. cbn [app].
  assert (Hgt : not_gt d = true)
    by (unfold not_gt; now apply negb_true_iff, N.eqb_neq).
  rewrite Hgt, <- app_assoc. cbn [app].
  rewrite dropwhile_app.
  - reflexivity.
  - apply forallb_forall. intros c Hc. unfold not_gt.
    apply negb_true_iff, N.eqb_neq. intros ->. contradiction.
Qed.

(** *** The marker pattern *)

Lemma exec_group_lazy_unfold (cls : N -> bool) (r : regex) (s : pystr)
  (g : groups) (k : cont) :
  exec (Cat (Group (StarLazy cls)) r) s g k
  = star_lazy cls s g
      (fun s' g' => exec r s' (g' ++ [firstn (length s - length s') s]) k).
Proof. reflexivity. Qed.

(** A match of the marker pattern, with the body as short as it can be: no
    terminator starts inside the body. *)
Lemma marker_match_minimal (s : pystr) (g : groups) (rest : pystr) :
  re_match marker_pattern s = Some (g, rest) ->
  exists a b t,
    g = [a; b; t] /\
    s = marker_head ++ a ++ marker_mid ++ b ++ marker_tail ++ t ++ rest /\
    a <> [] /\ forallb isdecimal a = true /\
    b <> [] /\ forallb isdecimal b = true /\
    terminator_at rest = true /\
    forall t1 c t2, t = t1 ++ c :: t2 ->
      terminator_at (c :: t2 ++ rest) = false.
Proof.
  unfold re_match, marker_pattern. intros H.
  apply exec_lit_sound in H. destruct H as (s1 & -> & H).
  apply exec_group_plus_sound in H.
  destruct H as (a & s2 & Ha & Hda & -> & H).
  apply exec_lit_sound in H. destruct H as (s3 & -> & H).
  apply exec_group_plus_sound in H.
  destruct H as (b & s4 & Hb & Hdb & -> & H).
  apply exec_lit_sound in H. destruct H as (s5 & -> & H).
  rewrite exec_group_lazy_unfold in H.
  apply ParseFacts.star_lazy_min in H.
  destruct H as (t & s6 & -> & _ & H & Hmin).
  rewrite exec_ahead_alt in H. fold (terminator_at s6) in H.
  destruct (terminator_at s6) eqn:E; [|discriminate].
  rewrite firstn_prefix in H. injection H as <- <-.
  exists a, b, t. repeat split; try assumption.
  intros t1 c t2 Ht. specialize (Hmin t1 c t2 Ht). cbv beta in Hmin.
  rewrite exec_ahead_alt in Hmin.
  fold (terminator_at (c :: t2 ++ s6)) in Hmin.
  destruct (terminator_at (c :: t2 ++ s6)); [discriminate|reflexivity].
Qed.

Lemma pattern_match_minimal (v : script) (s : pystr) (g : groups)
  (rest : pystr) :
  re_match (pattern_of v) s = Some (g, rest) ->
  exists a b t,
    g = [a; b; t] /\
    s = lead_of v ++ marker_head ++ a ++ marker_mid ++ b ++ marker_tail
          ++ t ++ rest /\
    a <> [] /\ forallb isdecimal a = true /\
    b <> [] /\ forallb isdecimal b = true /\
    terminator_at rest = true /\
    forall t1 c t2, t = t1 ++ c :: t2 ->
      terminator_at (c :: t2 ++ rest) = false.
Proof.
  intros H. destruct v; cbn [pattern_of lead_of] in *.
  - now apply marker_match_minimal.
  - unfold extract_darby.pattern, re_match in H.
    apply exec_lit_sound in H. destruct H as (s' & -> & H).
    apply marker_match_minimal in H.
    destruct H as (a & b & t & Hg & -> & H).
    exists a, b, t. split; [exact Hg|]. split; [reflexivity|exact H].
Qed.

End TextFacts.

(** X10.  In both scripts the text of every returned record is in normal
    form: it has no white space at either end, every white space character
    in it is a single U+0020 between two characters that are not white
    space, and it holds none of the characters the script deletes (the
    footnote marks in the first script, the square brackets in the
    second). *)
Theorem record_text_normal_form (v : script) (html : pystr) (n : Z)
  (text : pystr) :
  In (n, text) (extract_of v html) ->
  Batch.trimmed text /\
  single_spaced text /\
  forall c, In c text -> Batch.deleted_by v c = false.
Proof.
  intros H. apply NumberFacts.extract_of_number in H.
  destruct H as (m & _ & _ & ->). apply TextFacts.clean_text_normal.
Qed.

Lemma record_text_normal_form_witness :
  Batch.trimmed (lit "In the beginning .") /\
  single_spaced (lit "In the beginning .") /\
  forall c, In c (lit "In the beginning .") ->
            Batch.deleted_by DARBY c = false.
Proof.
  apply (record_text_normal_form DARBY
           (Samples.scenario Samples.span_lead) 1%Z).
  vm_compute. now left.
Defined.

(** X11.  In both scripts every returned record comes from a marker of the
    text the verse pattern is run on: the literal parts of the marker around
    two non-empty runs of digits, then a body, then one of the two
    terminators; no terminator starts inside the body, so the body ends at
    the first terminator after the marker; the verse number is the value of
    the id digits in the first script and of the displayed digits in the
    second, and the text is the cleaned body, which is not empty. *)
Theorem record_of_a_marker (v : script) (html : pystr) (n : Z)
  (text : pystr) :
  In (n, text) (extract_of v html) ->
  exists pre a b t rest,
    prepared v html
    = pre ++ Shape.lead_of v ++ marker_head ++ a ++ marker_mid ++ b
          ++ marker_tail ++ t ++ rest /\
    a <> [] /\ forallb isdecimal a = true /\
    b <> [] /\ forallb isdecimal b = true /\
    Shape.terminator_at rest = true /\
    (forall t1 c t2, t = t1 ++ c :: t2 ->
       Shape.terminator_at (c :: t2 ++ rest) = false) /\
    n = int (number_digits v (a, b, t)) /\
    text = clean_text_of v t /\
    text <> [].
Proof.
  rewrite extract_of_spec. intros H. apply in_map_iff in H.
  destruct H as (m & Heq & Hin). apply filter_In in Hin.
  destruct Hin as [Hin Hkeep].
  unfold re_findall3 in Hin. apply in_map_iff in Hin.
  destruct Hin as ([p g] & <- & Hin).
  apply finditer_from_sound in Hin. destruct Hin as [_ [rest Hm]].
  rewrite Nat.sub_0_r in Hm.
  apply TextFacts.pattern_match_minimal in Hm.
  destruct Hm as (a & b & t & -> & Hs & Ha & Hda & Hb & Hdb & Hend & Hmin).
  exists (firstn p (prepared v html)), a, b, t, rest.
  split.
  { rewrite <- (firstn_skipn p (prepared v html)) at 1. now rewrite Hs. }
  unfold record_of in Heq. cbn [snd group Nat.sub nth] in Heq, Hkeep.
  injection Heq as <- <-.
  repeat split; try assumption.
  - unfold keeps in Hkeep. cbn [body snd] in *.
    intros E. rewrite E in Hkeep. discriminate.
Qed.

Lemma record_of_a_marker_witness :
  exists pre a b t rest,
    prepared WEB Samples.mismatched
    = pre ++ Shape.lead_of WEB ++ marker_head ++ a ++ marker_mid ++ b
          ++ marker_tail ++ t ++ rest /\
    a <> [] /\ forallb isdecimal a = true /\
    b <> [] /\ forallb isdecimal b = true /\
    Shape.terminator_at rest = true /\
    (forall t1 c t2, t = t1 ++ c :: t2 ->
       Shape.terminator_at (c :: t2 ++ rest) = false) /\
    fst (hd (0%Z, []) (extract_of WEB Samples.mismatched))
    = int (number_digits WEB (a, b, t)) /\
    snd (hd (0%Z, []) (extract_of WEB Samples.mismatched))
    = clean_text_of WEB t /\
    snd (hd (0%Z, []) (extract_of WEB Samples.mismatched)) <> [].
Proof.
  apply (record_of_a_marker WEB Samples.mismatched).
  vm_compute. now left.
Defined.

(** X12.  In both scripts a tag counts as one space: cleaning a body with a
    tag in it, [<], one or more characters other than [>], then [>], after
    a part free of [<], gives the same text as cleaning the body with a
    space in place of the tag. *)
Theorem tag_cleaned_as_space (v : script) (u : pystr) (d : N)
  (x w : pystr) :
  ~ In 60%N u -> d <> 62%N -> ~ In 62%N x ->
  clean_text_of v (u ++ 60%N :: d :: x ++ 62%N :: w)
  = clean_text_of v (u ++ 32%N :: w).
Proof.
  intros Hu Hd Hx.
  assert (E : re_sub tag_pattern (lit " ") (u ++ 60%N :: d :: x ++ 62%N :: w)
              = re_sub tag_pattern (lit " ") (u ++ 32%N :: w)).
  { rewrite (TextFacts.tag_sub_skip _ u _ Hu).
    rewrite (TextFacts.tag_sub_here _ d x w Hd Hx).
    replace (u ++ 32%N :: w) with ((u ++ [32%N]) ++ w)
      by (now rewrite <- app_assoc).
    rewrite TextFacts.tag_sub_skip.
    - now rewrite <- app_assoc.
    - apply ScanFacts.notin_app; [exact Hu|].
      intros [H|[]]; discriminate. }
  destruct v; cbn [clean_text_of];
    unfold extract_bible_data.clean_text, extract_darby.clean_text;
    now rewrite E.
Qed.

Lemma tag_cleaned_as_space_witness :
  clean_text_of WEB (lit "the" ++ 60%N :: 105%N :: [] ++ 62%N :: lit "word")
  = clean_text_of WEB (lit "the" ++ 32%N :: lit "word").
Proof.
  apply (tag_cleaned_as_space WEB (lit "the") 105%N [] (lit "word")).
  - apply ScanFacts.notin_by_test. reflexivity.
  - discriminate.
  - intros [].
Defined.

(** ** What the drivers read *)

Module FrameFacts.
Import Py Re Markup Scripts Batch.

Lemma web_process_file_agree (w1 w2 : world) (st : state) (f : pystr) :
  (of_known_book WEB f -> read_text w1 f = read_text w2 f) ->
  extract_bible_data.process_file w1 st f
  = extract_bible_data.process_file w2 st f.
Proof.
  intros H.
  unfold extract_bible_data.process_file,
    extract_bible_data.extract_verses_from_file.
  destruct (extract_bible_data.parse_filename f) as [[code ch]|] eqn:Ep;
    [|reflexivity].
  destruct (dict_get extract_bible_data.BOOK_NAMES code) as [name|] eqn:Ed;
    [|reflexivity].
  rewrite H; [reflexivity|]. exists code, ch, name. now split.
Qed.

Lemma darby_process_file_agree (w1 w2 : world) (st : state) (f : pystr) :
  (of_known_book DARBY f -> read_text w1 f = read_text w2 f) ->
  extract_darby.process_file w1 st f = extract_darby.process_file w2 st f.
Proof.
  intros H. unfold extract_darby.process_file.
  destruct (extract_darby.parse_filename f) as [[code ch]|] eqn:Ep;
    [|reflexivity].
  destruct (dict_get extract_darby.BOOK_NAMES code) as [name|] eqn:Ed;
    [|reflexivity].
  rewrite H; [reflexivity|]. exists code, ch, name. now split.
Qed.

Lemma web_for_files_agree (w1 w2 : world) (files : list pystr) :
  (forall f, In f files -> of_known_book WEB f ->
             read_text w1 f = read_text w2 f) ->
  forall st,
    extract_bible_data.for_files w1 files st
    = extract_bible_data.for_files w2 files st.
Proof.
  induction files as [|f files IH]; intros H st; [reflexivity|].
  cbn [extract_bible_data.for_files].
  rewrite (web_process_file_agree w1 w2 st f)
    by (apply H; now left).
  destruct (extract_bible_data.process_file w2 st f); [|reflexivity].
  apply IH. intros f' Hf'. apply H. now right.
Qed.

Lemma darby_for_files_agree (w1 w2 : world) (files : list pystr) :
  (forall f, In f files -> of_known_book DARBY f ->
             read_text w1 f = read_text w2 f) ->
  forall st,
    extract_darby.for_files w1 files st
    = extract_darby.for_files w2 files st.
Proof.
  unfold extract_darby.for_files.
  induction files as [|f files IH]; intros H st; [reflexivity|].
  cbn [fold_left].
  rewrite (darby_process_file_agree w1 w2 st f)
    by (apply H; now left).
  apply IH. intros f' Hf'. apply H. now right.
Qed.

Lemma web_test_first_file_agree (w1 w2 : world) (files : list pystr)
  (st : state) :
  (files <> [] -> read_text w1 (hd [] files) = read_text w2 (hd [] files)) ->
  extract_bible_data.test_first_file w1 files st
  = extract_bible_data.test_first_file w2 files st.
Proof.
  intros H. destruct files as [|f files]; [reflexivity|].
  cbn [extract_bible_data.test_first_file hd] in *.
  unfold extract_bible_data.extract_verses_from_file.
  rewrite H; [reflexivity|discriminate].
Qed.

Lemma darby_test_first_file_agree (w1 w2 : world) (files : list pystr)
  (st : state) :
  (files <> [] -> read_text w1 (hd [] files) = read_text w2 (hd [] files)) ->
  extract_darby.test_first_file w1 files st
  = extract_darby.test_first_file w2 files st.
Proof.
  intros H. destruct files as [|f files]; [reflexivity|].
  cbn [extract_darby.test_first_file hd] in *.
  rewrite H; [reflexivity|discriminate].
Qed.

End FrameFacts.

(** X13.  What [main] prints and writes depends on the directory listing
    and on the content of two kinds of files only: the first chapter file
    of the sorted list, and the chapter files whose name parses to the code
    of a known book.  Two directories with the same listing that agree on
    reading those files give the same outcome; no other file is read. *)
Theorem main_reads_chapter_files_only (v : script) (w1 w2 : world) :
  listdir w1 = listdir w2 ->
  (forall f, In f (Batch.html_files_of v w1) ->
     f = hd [] (Batch.html_files_of v w1) \/ Batch.of_known_book v f ->
     read_text w1 f = read_text w2 f) ->
  main_of v w1 = main_of v w2.
Proof.
  intros Hl Hr.
  assert (Hfiles : Batch.html_files_of v w2 = Batch.html_files_of v w1)
    by (unfold Batch.html_files_of; now rewrite Hl).
  assert (Hfirst : Batch.html_files_of v w1 <> [] ->
            read_text w1 (hd [] (Batch.html_files_of v w1))
            = read_text w2 (hd [] (Batch.html_files_of v w1))).
  { intros Hne. apply Hr; [|now left].
    destruct (Batch.html_files_of v w1); [contradiction|now left]. }
  assert (Hknown : forall f, In f (Batch.html_files_of v w1) ->
            Batch.of_known_book v f -> read_text w1 f = read_text w2 f).
  { intros f Hin Hk. apply Hr; [exact Hin|now right]. }
  destruct v; cbn [main_of].
  - unfold extract_bible_data.main.
    change (sorted (filter extract_bible_data.is_chapter_file (listdir w2)))
      with (Batch.html_files_of WEB w2).
    change (sorted (filter extract_bible_data.is_chapter_file (listdir w1)))
      with (Batch.html_files_of WEB w1).
    rewrite Hfiles. cbv zeta.
    rewrite (FrameFacts.web_test_first_file_agree w1 w2 _ _ Hfirst).
    destruct (extract_bible_data.test_first_file w2 _ _); [|reflexivity].
    now rewrite (FrameFacts.web_for_files_agree w1 w2 _ Hknown).
  - unfold extract_darby.main.
    change (sorted (filter extract_darby.is_chapter_file (listdir w2)))
      with (Batch.html_files_of DARBY w2).
    change (sorted (filter extract_darby.is_chapter_file (listdir w1)))
      with (Batch.html_files_of DARBY w1).
    rewrite Hfiles. cbv zeta.
    rewrite (FrameFacts.darby_test_first_file_agree w1 w2 _ _ Hfirst).
    destruct (extract_darby.test_first_file w2 _ _); [|reflexivity].
    now rewrite (FrameFacts.darby_for_files_agree w1 w2 _ Hknown).
Qed.

Lemma main_reads_chapter_files_only_witness :
  main_of DARBY Batch.all_readable = main_of DARBY Batch.others_unreadable.
Proof.
  apply (main_reads_chapter_files_only DARBY Batch.all_readable
           Batch.others_unreadable).
  - reflexivity.
  - intros f Hin Hk. vm_compute in Hin.
    destruct Hin as [<-|[<-|[<-|[]]]]; try reflexivity.
    exfalso. destruct Hk as [Hk|(c & ch & nm & Hp & Hd)].
    + vm_compute in Hk. discriminate.
    + vm_compute in Hp. injection Hp as <- <-.
      vm_compute in Hd. discriminate.
Defined.

(** ** The order of the entity replacements *)

Module EntityFacts.
Import Py Re Markup Scripts PyFacts ScanFacts.

Lemma amp_tail_plain (w : pystr) : ~ In 38%N w -> ~ In 38%N (lit "amp;" ++ w).
Proof.
  intros H. apply notin_app; [|exact H]. apply notin_by_test. reflexivity.
Qed.

(** Around an [&amp;], in a text with no other [&], no entity that does not
    start like [&amp;] occurs. *)
Lemma occurs_around_amp (p u w : pystr) :
  ~ In 38%N u -> ~ In 38%N w ->
  startswith (38%N :: p) (lit "&amp;" ++ w) = false ->
  occurs (38%N :: p) (u ++ lit "&amp;" ++ w) = false.
Proof.
  intros Hu Hw Hs. apply occurs_plain_false; [exact Hu|].
  change (lit "&amp;" ++ w) with (38%N :: lit "amp;" ++ w) in *.
  apply occurs_cons_false; [exact Hs|].
  apply occurs_no_first. now apply amp_tail_plain.
Qed.

Lemma decode_around_amp (u w : pystr) :
  ~ In 38%N u -> ~ In 38%N w ->
  decode_entities (u ++ lit "&amp;" ++ w)
  = replace (lit "&apos;") (lit "'")
      (replace (lit "&quot;") [DQ] (u ++ lit "&" ++ w)).
Proof.
  intros Hu Hw. unfold decode_entities. cbv zeta.
  rewrite (replace_absent (lit "&#160;") (lit " ") (u ++ lit "&amp;" ++ w))
    by (apply occurs_around_amp; auto).
  rewrite (replace_absent (lit "&nbsp;") (lit " ") (u ++ lit "&amp;" ++ w))
    by (apply occurs_around_amp; auto).
  rewrite (replace_absent (lit "&lt;") (lit "<") (u ++ lit "&amp;" ++ w))
    by (apply occurs_around_amp; auto).
  rewrite (replace_absent (lit "&gt;") (lit ">") (u ++ lit "&amp;" ++ w))
    by (apply occurs_around_amp; auto).
  do 2 f_equal.
  change (lit "&amp;") with (38%N :: lit "amp;").
  rewrite ParseFacts.replace_skip_plain by exact Hu.
  rewrite ParseFacts.replace_here.
  rewrite (replace_absent (38%N :: lit "amp;") (lit "&") w)
    by (now apply occurs_no_first).
  reflexivity.
Qed.

End EntityFacts.

(** X14.  The entity replacements are made one after the other, [&amp;]
    after [&lt;] and [&gt;] and before [&quot;] and [&apos;].  So, in a text
    with no other [&], an [&amp;] is decoded to [&] and the text goes on
    through the last two replacements: [&amp;lt;] is decoded once, to
    [&lt;], and [&amp;quot;] twice, to the quotation mark. *)
Theorem amp_decoded_before_quotes (u w : pystr) :
  ~ In 38%N u -> ~ In 38%N w ->
  decode_entities (u ++ lit "&amp;" ++ w)
  = replace (lit "&apos;") (lit "'")
      (replace (lit "&quot;") [DQ] (u ++ lit "&" ++ w)) /\
  decode_entities (u ++ lit "&amp;lt;" ++ w) = u ++ lit "&lt;" ++ w /\
  decode_entities (u ++ lit "&amp;quot;" ++ w) = u ++ DQ :: w.
Proof.
  intros Hu Hw. split; [now apply EntityFacts.decode_around_amp|].
  assert (Hplain : forall p x, ~ In 38%N x ->
            replace (38%N :: p) [DQ] x = x /\
            replace (38%N :: p) (lit "'") x = x).
  { intros p x Hx.
    split; apply ScanFacts.replace_absent, ScanFacts.occurs_no_first, Hx. }
  split.
  - change (lit "&amp;lt;" ++ w) with (lit "&amp;" ++ lit "lt;" ++ w).
    rewrite EntityFacts.decode_around_amp; [|exact Hu|].
    + change (lit "&" ++ lit "lt;" ++ w) with (lit "&lt;" ++ w).
      rewrite (ScanFacts.replace_absent (lit "&quot;") [DQ]).
      * apply ScanFacts.replace_absent.
        apply ScanFacts.occurs_plain_false; [exact Hu|].
        change (lit "&lt;" ++ w) with (38%N :: lit "lt;" ++ w).
        apply ScanFacts.occurs_cons_false; [reflexivity|].
        apply ScanFacts.occurs_no_first.
        apply ScanFacts.notin_app; [|exact Hw].
        apply ScanFacts.notin_by_test. reflexivity.
      * apply ScanFacts.occurs_plain_false; [exact Hu|].
        change (lit "&lt;" ++ w) with (38%N :: lit "lt;" ++ w).
        apply ScanFacts.occurs_cons_false; [reflexivity|].
        apply ScanFacts.occurs_no_first.
        apply ScanFacts.notin_app; [|exact Hw].
        apply ScanFacts.notin_by_test. reflexivity.
    + apply ScanFacts.notin_app; [|exact Hw].
      apply ScanFacts.notin_by_test. reflexivity.
  - change (lit "&amp;quot;" ++ w) with (lit "&amp;" ++ lit "quot;" ++ w).
    rewrite EntityFacts.decode_around_amp; [|exact Hu|].
    + change (lit "&" ++ lit "quot;" ++ w)
        with ((38%N :: lit "quot;") ++ w).
      change (lit "&quot;") with (38%N :: lit "quot;").
      rewrite ParseFacts.replace_skip_plain by exact Hu.
      rewrite ParseFacts.replace_here.
      destruct (Hplain (lit "quot;") w Hw) as [-> _].
      change (lit "&apos;") with (38%N :: lit "apos;").
      apply Hplain. apply ScanFacts.notin_app; [exact Hu|].
      intros [H|H]; [discriminate|contradiction].
    + apply ScanFacts.notin_app; [|exact Hw].
      apply ScanFacts.notin_by_test. reflexivity.
Qed.

Lemma amp_decoded_before_quotes_witness :
  decode_entities (lit "a " ++ lit "&amp;" ++ lit " b")
  = replace (lit "&apos;") (lit "'")
      (replace (lit "&quot;") [DQ] (lit "a " ++ lit "&" ++ lit " b")) /\
  decode_entities (lit "a " ++ lit "&amp;lt;" ++ lit " b")
  = lit "a " ++ lit "&lt;" ++ lit " b" /\
  decode_entities (lit "a " ++ lit "&amp;quot;" ++ lit " b")
  = lit "a " ++ DQ :: lit " b".
Proof.
  apply (amp_decoded_before_quotes (lit "a ") (lit " b"));
    apply ScanFacts.notin_by_test; reflexivity.
Defined.

(** ** The copy of the extraction in [simple_test.py] *)

Module SimpleFacts.
Import Py Re Markup Scripts Batch PyFacts ReFacts PatternFacts ExtractFacts
  ScanFacts PopupFacts BracketFacts.

Lemma startswith_app_l (p s b : pystr) :
  startswith p s = true -> startswith p (s ++ b) = true.
Proof.
  unfold startswith. destruct (strip_prefix p s) as [r|] eqn:E;
    [|discriminate].
  intros _. apply strip_prefix_Some in E. subst s.
  now rewrite <- app_assoc, strip_prefix_app.
Qed.

Lemma occurs_app_l (p a b : pystr) :
  occurs p a = true -> occurs p (a ++ b) = true.
Proof.
  induction a as [|c a IH]; cbn [app occurs]; intros H.
  - assert (Hp : p = []) by (destruct p; [reflexivity|discriminate]).
    subst p. destruct b; reflexivity.
  - apply orb_true_iff in H. apply orb_true_iff.
    destruct H as [H|H]; [left|right; now apply IH].
    now apply (startswith_app_l p (c :: a) b).
Qed.

Lemma occurs_prefix (p a b : pystr) :
  occurs p (a ++ b) = false -> occurs p a = false.
Proof.
  intros H. destruct (occurs p a) eqn:E; [|reflexivity].
  apply (occurs_app_l p a b) in E. congruence.
Qed.

(** The body of a match is a part of the text. *)
Lemma body_in_text (text : pystr) (m : pystr * pystr * pystr) :
  In m (re_findall3 marker_pattern text) ->
  exists pre rest, text = pre ++ body m ++ rest.
Proof.
  unfold re_findall3. intros H. apply in_map_iff in H.
  destruct H as ([p g] & <- & Hin).
  apply finditer_from_sound in Hin. destruct Hin as [_ [rest Hm]].
  rewrite Nat.sub_0_r in Hm. apply marker_match_sound in Hm.
  destruct Hm as (a & b & t & -> & Hs & _).
  exists (firstn p text ++ marker_head ++ a ++ marker_mid ++ b ++ marker_tail),
    rest.
  cbn [body snd group Nat.sub nth].
  rewrite <- (firstn_skipn p text) at 1. rewrite Hs.
  now rewrite <- !app_assoc.
Qed.

Lemma absent_in_body (e text : pystr) (m : pystr * pystr * pystr) :
  In m (re_findall3 marker_pattern text) ->
  occurs e text = false -> occurs e (body m) = false.
Proof.
  intros Hm He. destruct (body_in_text text m Hm) as (pre & rest & Ht).
  rewrite Ht in He. apply occurs_suffix in He.
  now apply occurs_prefix in He.
Qed.

(** An entity that does not occur in a body does not occur in it after the
    tags and the two kinds of no-break space are replaced by spaces. *)
Lemma absent_after_spaces (e t : pystr) :
  ~ In 32%N e -> occurs e t = false ->
  occurs e (replace (lit "&nbsp;") (lit " ")
              (replace (lit "&#160;") (lit " ")
                 (re_sub tag_pattern (lit " ") t))) = false.
Proof.
  intros Hsp He.
  destruct (occurs e (replace (lit "&nbsp;") (lit " ")
              (replace (lit "&#160;") (lit " ")
                 (re_sub tag_pattern (lit " ") t)))) eqn:E; [|reflexivity].
  unfold replace in E. change (lit " ") with [32%N] in E.
  do 3 apply (occurs_through_sub _ 32%N e Hsp) in E. congruence.
Qed.

Lemma decode_without_entities (t : pystr) :
  Forall (fun e => occurs e t = false) simple_test.entities_left ->
  decode_entities (re_sub tag_pattern (lit " ") t)
  = replace (lit "&nbsp;") (lit " ")
      (replace (lit "&#160;") (lit " ") (re_sub tag_pattern (lit " ") t)).
Proof.
  intros H. unfold simple_test.entities_left in H.
  inversion_clear H as [|? ? Hlt H1]. inversion_clear H1 as [|? ? Hgt H2].
  inversion_clear H2 as [|? ? Hamp H3]. inversion_clear H3 as [|? ? Hquot H4].
  inversion_clear H4 as [|? ? Hapos _].
  apply absent_after_spaces in Hlt, Hgt, Hamp, Hquot, Hapos;
    try (apply notin_by_test; reflexivity).
  unfold decode_entities. cbv zeta.
  set (x := replace (lit "&nbsp;") (lit " ")
              (replace (lit "&#160;") (lit " ")
                 (re_sub tag_pattern (lit " ") t))) in *.
  rewrite (replace_absent (lit "&lt;") (lit "<") x Hlt).
  rewrite (replace_absent (lit "&gt;") (lit ">") x Hgt).
  rewrite (replace_absent (lit "&amp;") (lit "&") x Hamp).
  rewrite (replace_absent (lit "&quot;") [DQ] x Hquot).
  now rewrite (replace_absent (lit "&apos;") (lit "'") x Hapos).
Qed.

Lemma simple_clean_text (t : pystr) :
  Forall (fun e => occurs e t = false) simple_test.entities_left ->
  simple_test.clean_text t = extract_bible_data.clean_text t.
Proof.
  intros H. unfold simple_test.clean_text, extract_bible_data.clean_text.
  cbv zeta. now rewrite (decode_without_entities t H).
Qed.

(** The loop of the copy makes the records [main] makes for the first
    chapter of Genesis, where it cleans the bodies as [main] does. *)
Lemma simple_for_matches (ms : list (pystr * pystr * pystr))
  (acc : list VerseObj) :
  (forall m, In m ms ->
     simple_test.clean_text (body m) = extract_bible_data.clean_text (body m)) ->
  simple_test.for_matches ms acc
  = acc ++ map (record_from WEB (lit "Genesis") 1)
             (map (record_of WEB) (filter (keeps WEB) ms)).
Proof.
  revert acc; induction ms as [|[[a b] t] ms IH]; intros acc H.
  - simpl. now rewrite app_nil_r.
  - cbn [simple_test.for_matches filter].
    pose proof (H (a, b, t) (or_introl eq_refl)) as Ht.
    cbn [body snd] in Ht. rewrite Ht.
    change (keeps WEB (a, b, t))
      with (match extract_bible_data.clean_text t with
            | [] => false | _ :: _ => true end).
    assert (H' : forall m, In m ms ->
              simple_test.clean_text (body m)
              = extract_bible_data.clean_text (body m))
      by (intros m Hm; apply H; now right).
    destruct (extract_bible_data.clean_text t) as [|c t'] eqn:E.
    + now apply IH.
    + rewrite (IH _ H'), <- app_assoc. cbn [map app]. do 2 f_equal.
      unfold record_from, record_of, number_digits, id_digits, body,
        clean_text_of.
      cbn [fst snd]. rewrite E. reflexivity.
Qed.

End SimpleFacts.

(** X15.  On a fragment with no popup span and with none of the entities
    [&lt;], [&gt;], [&amp;], [&quot;] and [&apos;], which the copy of the
    extraction in [simple_test.py] does not decode, the copy returns the
    records [main] of [extract_bible_data] makes of the fragment for the
    first chapter of Genesis, field by field. *)
Theorem simple_test_agrees_with_main (html : pystr) (st : state) :
  occurs extract_bible_data.popup_open html = false ->
  Forall (fun e => occurs e html = false) simple_test.entities_left ->
  fst (simple_test.extract_verses_from_html html st)
  = map (Batch.record_from WEB (lit "Genesis") 1) (extract_of WEB html).
Proof.
  intros Hpop Hent.
  unfold simple_test.extract_verses_from_html. cbn [fst].
  rewrite ExtractFacts.extract_of_spec. cbn [prepared pattern_of].
  unfold extract_bible_data.popup_pattern.
  rewrite (ScanFacts.re_sub_lit_absent _ _ _ _ Hpop).
  unfold simple_test.pattern, extract_bible_data.pattern.
  rewrite SimpleFacts.simple_for_matches; [reflexivity|].
  intros m Hm. apply SimpleFacts.simple_clean_text.
  apply Forall_forall. intros e He.
  apply (SimpleFacts.absent_in_body e html m Hm).
  rewrite Forall_forall in Hent. now apply Hent.
Qed.

Lemma simple_test_agrees_with_main_witness :
  fst (simple_test.extract_verses_from_html
         (Samples.scenario Samples.dots ++ div_close)
         {| all_verses := []; stdout := [] |})
  = map (Batch.record_from WEB (lit "Genesis") 1)
        (extract_of WEB (Samples.scenario Samples.dots ++ div_close)).
Proof.
  apply (simple_test_agrees_with_main
           (Samples.scenario Samples.dots ++ div_close)).
  - vm_compute. reflexivity.
  - repeat constructor; vm_compute; reflexivity.
Defined.

(** * The scripts with their exceptions *)

Module StrictFacts.
Import Py Re Markup Scripts Batch PyFacts DriverFacts BatchFacts.

Lemma not_raises_returned {A : Type} (a : A) : ~ Strict.raises (Strict.Returned a).
Proof. intros [e H]. discriminate. Qed.

Lemma raises_exception {A : Type} (e : pystr) :
  Strict.raises (@Strict.Exception A e).
Proof. now exists e. Qed.

Lemma raising_cases {A : Type} (r : Strict.raising A) :
  (exists a, r = Strict.Returned a) \/ Strict.raises r.
Proof. destruct r as [a|e]; [left; now exists a|right; now exists e]. Qed.

(** *** [int()] *)

Lemma int_cases (s : pystr) :
  (length s <= Strict.max_str_digits /\
   Strict.int s = Strict.Returned (Py.int s)) \/
  (Strict.max_str_digits < length s /\
   Strict.int s = Strict.Exception (Strict.limit_message (length s))).
Proof.
  unfold Strict.int.
  destruct (Nat.ltb_spec Strict.max_str_digits (length s)); [right|left];
    now split.
Qed.

(** *** The loops over the matches *)

Lemma web_for_matches_cases (ms : list (pystr * pystr * pystr)) :
  forall acc,
  (Forall (fun m => length (id_digits m) <= Strict.max_str_digits) ms /\
   Strict.extract_bible_data.for_matches ms acc
   = Strict.Returned (extract_bible_data.for_matches ms acc)) \/
  (Exists (fun m => Strict.max_str_digits < length (id_digits m)) ms /\
   Strict.raises (Strict.extract_bible_data.for_matches ms acc)).
Proof.
  induction ms as [|[[a b] t] ms IH]; intros acc.
  - left. split; [constructor|reflexivity].
  - cbn [Strict.extract_bible_data.for_matches extract_bible_data.for_matches].
    destruct (int_cases a) as [[Hle ->]|[Hgt ->]].
    + assert (Hstep : forall acc',
        (Forall (fun m => length (id_digits m) <= Strict.max_str_digits)
           ((a, b, t) :: ms) /\
         Strict.extract_bible_data.for_matches ms acc'
         = Strict.Returned (extract_bible_data.for_matches ms acc')) \/
        (Exists (fun m => Strict.max_str_digits < length (id_digits m))
           ((a, b, t) :: ms) /\
         Strict.raises (Strict.extract_bible_data.for_matches ms acc'))).
      { intros acc'. destruct (IH acc') as [[Hall Heq]|[Hex Hr]].
        - left. split; [now constructor|exact Heq].
        - right. split; [now apply Exists_cons_tl|exact Hr]. }
      destruct (extract_bible_data.clean_text t); apply Hstep.
    + right. split; [now apply Exists_cons_hd|apply raises_exception].
Qed.

Lemma darby_for_matches_cases (ms : list (pystr * pystr * pystr)) :
  forall acc,
  (Forall (fun m => keeps DARBY m = true ->
                    length (display_digits m) <= Strict.max_str_digits) ms /\
   Strict.extract_darby.for_matches ms acc
   = Strict.Returned (extract_darby.for_matches ms acc)) \/
  (Exists (fun m => keeps DARBY m = true /\
                    Strict.max_str_digits < length (display_digits m)) ms /\
   Strict.raises (Strict.extract_darby.for_matches ms acc)).
Proof.
  induction ms as [|[[a b] t] ms IH]; intros acc.
  - left. split; [constructor|reflexivity].
  - cbn [Strict.extract_darby.for_matches extract_darby.for_matches].
    assert (Hkeep : keeps DARBY (a, b, t)
                    = match extract_darby.clean_text t with
                      | [] => false | _ :: _ => true end) by reflexivity.
    destruct (extract_darby.clean_text t) as [|c t'] eqn:Et.
    + destruct (IH acc) as [[Hall Heq]|[Hex Hr]].
      * left. split; [|exact Heq]. constructor; [|exact Hall].
        intros Hk. rewrite Hkeep in Hk. discriminate.
      * right. split; [now apply Exists_cons_tl|exact Hr].
    + destruct (int_cases b) as [[Hle ->]|[Hgt ->]].
      * destruct (IH (acc ++ [{| extract_darby.verse_number := int b;
                                 extract_darby.text := c :: t' |}]))
          as [[Hall Heq]|[Hex Hr]].
        -- left. split; [|exact Heq]. constructor; [|exact Hall].
           intros _. exact Hle.
        -- right. split; [now apply Exists_cons_tl|exact Hr].
      * right. split; [|apply raises_exception].
        apply Exists_cons_hd. split; [exact Hkeep|exact Hgt].
Qed.

(** The extraction returns what the extraction above returns, or raises
    at a run of digits too long for [int()]. *)
Lemma extract_of_cases (v : script) (html : pystr) :
  let ms := re_findall3 (pattern_of v) (prepared v html) in
  (Forall (fun m => Strict.converted v m = true ->
                    length (number_digits v m) <= Strict.max_str_digits) ms /\
   Strict.extract_of v html = Strict.Returned (extract_of v html)) \/
  (Exists (fun m => Strict.converted v m = true /\
                    Strict.max_str_digits < length (number_digits v m)) ms /\
   Strict.raises (Strict.extract_of v html)).
Proof.
  intros ms. destruct v; cbn [Strict.extract_of extract_of].
  - unfold Strict.extract_bible_data.extract_verses_from_html,
      extract_bible_data.extract_verses_from_html.
    cbv zeta.
    destruct (web_for_matches_cases ms []) as [[Hall Heq]|[Hex [e He]]].
    + left. split.
      * eapply Forall_impl; [|exact Hall]. intros m Hm _. exact Hm.
      * unfold ms in Heq. cbn [pattern_of prepared] in Heq. now rewrite Heq.
    + right. split.
      * apply Exists_exists in Hex. destruct Hex as (m & Hin & Hm).
        apply Exists_exists. exists m. now repeat split.
      * unfold ms in He. cbn [pattern_of prepared] in He. rewrite He.
        apply raises_exception.
  - unfold Strict.extract_darby.extract_verses_from_html,
      extract_darby.extract_verses_from_html.
    cbv zeta.
    destruct (darby_for_matches_cases ms []) as [[Hall Heq]|[Hex [e He]]].
    + left. split; [exact Hall|].
      unfold ms in Heq. cbn [pattern_of prepared] in Heq. now rewrite Heq.
    + right. split; [exact Hex|].
      unfold ms in He. cbn [pattern_of prepared] in He. rewrite He.
      apply raises_exception.
Qed.

Lemma extract_of_returned (v : script) (html : pystr) (rs : list (Z * pystr)) :
  Strict.extract_of v html = Strict.Returned rs -> rs = extract_of v html.
Proof.
  intros H. destruct (extract_of_cases v html) as [[_ Heq]|[_ [e He]]];
    congruence.
Qed.

(** *** File names *)

Lemma parse_cases (v : script) (f : pystr) :
  ((forall ds, Strict.chapter_digits_of v f = Some ds ->
               length ds <= Strict.max_str_digits) /\
   Strict.parse_filename_of v f = Strict.Returned (parse_filename_of v f)) \/
  ((exists ds, Strict.chapter_digits_of v f = Some ds /\
               Strict.max_str_digits < length ds) /\
   Strict.raises (Strict.parse_filename_of v f)).
Proof.
  destruct v;
    cbn [Strict.parse_filename_of parse_filename_of Strict.chapter_digits_of];
    unfold Strict.extract_bible_data.parse_filename,
      extract_bible_data.parse_filename,
      Strict.extract_darby.parse_filename, extract_darby.parse_filename;
    cbv zeta;
    match goal with
    | |- context [re_match ?r ?x] => destruct (re_match r x) as [[g rest]|]
    end;
    try (left; split; [intros ds H; discriminate|reflexivity]);
    (destruct (int_cases (group g 2)) as [[Hle ->]|[Hgt ->]];
     [left; split; [intros ds H; now injection H as <-|reflexivity]
     |right; split; [now exists (group g 2)|apply raises_exception]]).
Qed.

Lemma parse_returned (v : script) (f : pystr) (r : option (pystr * Z)) :
  Strict.parse_filename_of v f = Strict.Returned r ->
  r = parse_filename_of v f.
Proof.
  intros H. destruct (parse_cases v f) as [[_ Heq]|[_ [e He]]]; congruence.
Qed.

(** *** Printing only adds lines *)

Lemma grows_refl (st : state) : grows st st.
Proof. exists []. now rewrite app_nil_r. Qed.

Lemma grows_trans (a b c : state) : grows a b -> grows b c -> grows a c.
Proof.
  intros [l1 H1] [l2 H2]. exists (l1 ++ l2). now rewrite H2, H1, app_assoc.
Qed.

Lemma grows_print (line : pystr) (st : state) : grows st (print line st).
Proof. now exists [line]. Qed.

(** *** Reading and extracting *)

Lemma web_extract_file (w : world) (f : pystr) :
  Strict.extract_file_of WEB w f
  = match Strict.extract_bible_data.extract_verses_from_file w f with
    | Strict.Returned verses =>
        Strict.Returned
          (map (fun r => (extract_bible_data.verse_num r,
                          extract_bible_data.text r)) verses)
    | Strict.Exception e => Strict.Exception e
    end.
Proof.
  unfold Strict.extract_file_of,
    Strict.extract_bible_data.extract_verses_from_file.
  destruct (read_text w f); reflexivity.
Qed.

Lemma extract_file_raises (v : script) (w : world) (f : pystr) :
  Strict.raises (Strict.extract_file_of v w f) <->
  (exists e, read_text w f = IOError e) \/
  (exists html, read_text w f = Content html /\
                Strict.raises (Strict.extract_of v html)).
Proof.
  unfold Strict.extract_file_of. destruct (read_text w f) as [html|e]; split.
  - intros H. right. now exists html.
  - intros [[e H]|(h & H & Hr)]; [discriminate|]. now injection H as <-.
  - intros _. left. now exists e.
  - intros _. apply raises_exception.
Qed.

(** *** One iteration of the loop over the files *)

Lemma web_process_file_ends (w : world) (st : state) (f : pystr) :
  (Strict.loop_raises WEB w f /\
   Strict.extract_bible_data.process_file w st f = Raised st) \/
  (~ Strict.loop_raises WEB w f /\
   exists st', Strict.extract_bible_data.process_file w st f = Normal st' /\
               all_verses st'
               = all_verses st ++ Strict.file_records WEB w f /\
               grows st st').
Proof.
  unfold Strict.extract_bible_data.process_file, Strict.file_records,
    Strict.loop_raises, of_known_book.
  destruct (parse_cases WEB f) as [[_ Hp]|[_ Hr]].
  2:{ left. split; [now left|].
      destruct Hr as [e He]. cbn [Strict.parse_filename_of] in He.
      now rewrite He. }
  rewrite Hp. cbn [Strict.parse_filename_of parse_filename_of] in *.
  rewrite Hp.
  destruct (extract_bible_data.parse_filename f) as [[code ch]|] eqn:Ep.
  2:{ right. split.
      - intros [H|[(c & n & b & H & _) _]];
          [now apply not_raises_returned in H|discriminate].
      - exists st. rewrite app_nil_r. repeat split. apply grows_refl. }
  unfold extract_bible_data.BOOK_NAMES.
  destruct (dict_get BOOK_NAMES code) as [book|] eqn:Ed.
  2:{ right. split.
      - intros [H|[(c & n & b & H & H') _]];
          [now apply not_raises_returned in H|congruence].
      - exists st. rewrite app_nil_r. repeat split. apply grows_refl. }
  rewrite web_extract_file.
  destruct (Strict.extract_bible_data.extract_verses_from_file w f)
    as [verses|e] eqn:Ex.
  2:{ left. split; [|reflexivity]. right. split.
      - now exists code, ch, book.
      - apply raises_exception. }
  right. split.
  { intros [H|[_ H]]; now apply not_raises_returned in H. }
  rewrite <- (web_records_of_verses book ch).
  destruct verses as [|r rs].
  - eexists. split; [reflexivity|]. split.
    + cbn. now rewrite app_nil_r.
    + apply grows_print.
  - cbv zeta. cbn [all_verses].
    destruct (Nat.eqb _ 0); eexists; (split; [reflexivity|]);
      (split; [reflexivity|]).
    + now eexists [_].
    + exists []. cbn [stdout]. now rewrite app_nil_r.
Qed.

Lemma darby_extract_file (w : world) (f : pystr) :
  Strict.extract_file_of DARBY w f
  = match read_text w f with
    | Content html =>
        match Strict.extract_darby.extract_verses_from_html html with
        | Strict.Returned verses =>
            Strict.Returned
              (map (fun r => (extract_darby.verse_number r,
                              extract_darby.text r)) verses)
        | Strict.Exception e => Strict.Exception e
        end
    | IOError e => Strict.Exception e
    end.
Proof. reflexivity. Qed.

Lemma darby_process_file_ends (w : world) (st : state) (f : pystr) :
  (Strict.loop_raises DARBY w f /\
   Strict.extract_darby.process_file w st f = Raised st) \/
  (~ Strict.loop_raises DARBY w f /\
   exists st', Strict.extract_darby.process_file w st f = Normal st' /\
               all_verses st'
               = all_verses st ++ Strict.file_records DARBY w f /\
               grows st st').
Proof.
  unfold Strict.extract_darby.process_file, Strict.file_records,
    Strict.loop_raises.
  destruct (parse_cases DARBY f) as [[_ Hp]|[_ Hr]].
  2:{ left. split; [now left|].
      destruct Hr as [e He]. cbn [Strict.parse_filename_of] in He.
      now rewrite He. }
  rewrite Hp. cbn [Strict.parse_filename_of parse_filename_of] in *.
  rewrite Hp. right. split.
  { intros [H|[]]. now apply not_raises_returned in H. }
  destruct (extract_darby.parse_filename f) as [[code ch]|] eqn:Ep.
  2:{ exists st. rewrite app_nil_r. repeat split. apply grows_refl. }
  unfold extract_darby.BOOK_NAMES.
  destruct (dict_get BOOK_NAMES code) as [book|] eqn:Ed.
  2:{ exists st. rewrite app_nil_r. repeat split. apply grows_refl. }
  rewrite darby_extract_file. cbv zeta.
  destruct (read_text w f) as [html|e].
  2:{ eexists. split; [reflexivity|]. split.
      - cbn. now rewrite app_nil_r.
      - apply grows_print. }
  destruct (Strict.extract_darby.extract_verses_from_html html)
    as [verses|e].
  2:{ eexists. split; [reflexivity|]. split.
      - cbn. now rewrite app_nil_r.
      - apply grows_print. }
  rewrite <- (darby_records_of_verses book ch).
  cbn [all_verses].
  rewrite (RecordFacts.fold_left_append
             (extract_darby.verse_obj book ch (extract_darby.get_testament book)
                match list_index book extract_darby.BOOK_ORDER with
                | Some i => Z.of_nat i
                | None => 0%Z
                end)).
  destruct (_ && _); eexists; (split; [reflexivity|]);
    (split; [reflexivity|]).
  - now eexists [_].
  - exists []. cbn [stdout]. now rewrite app_nil_r.
Qed.

(** *** The loop over the files *)

Section Loop.

Variable v : script.
Variable w : world.
Variable process_file : world -> state -> pystr -> completion.
Variable for_files : world -> list pystr -> state -> completion.

Hypothesis for_files_nil : forall st, for_files w [] st = Normal st.
Hypothesis for_files_cons : forall f files st,
  for_files w (f :: files) st
  = match process_file w st f with
    | Normal st' => for_files w files st'
    | Raised st' => Raised st'
    end.
Hypothesis process_file_cases : forall st f,
  (Strict.loop_raises v w f /\ process_file w st f = Raised st) \/
  (~ Strict.loop_raises v w f /\
   exists st', process_file w st f = Normal st' /\
               all_verses st' = all_verses st ++ Strict.file_records v w f /\
               grows st st').

Lemma for_files_cases (files : list pystr) :
  forall st,
  ((exists f, In f files /\ Strict.loop_raises v w f) /\
   exists st', for_files w files st = Raised st' /\ grows st st') \/
  ((forall f, In f files -> ~ Strict.loop_raises v w f) /\
   exists st', for_files w files st = Normal st' /\
               all_verses st'
               = all_verses st ++ flat_map (Strict.file_records v w) files /\
               grows st st').
Proof.
  induction files as [|f files IH]; intros st.
  - right. split; [intros f []|]. exists st. rewrite for_files_nil.
    cbn [flat_map]. rewrite app_nil_r. repeat split. apply grows_refl.
  - rewrite for_files_cons. cbn [flat_map].
    destruct (process_file_cases st f)
      as [[Hbad ->]|[Hok (st1 & -> & Hst1 & Hg1)]].
    + left. split; [exists f; split; [now left|assumption]|].
      exists st. split; [reflexivity|apply grows_refl].
    + destruct (IH st1)
        as [[(g & Hg & Hbad) (st2 & Hr & Hg2)]
           |[Hall (st2 & Hn & Hst2 & Hg2)]].
      * left. split; [exists g; split; [now right|assumption]|].
        exists st2. split; [exact Hr|now apply grows_trans with st1].
      * right. split.
        -- intros g [<-|Hg]; [assumption|now apply Hall].
        -- exists st2. split; [assumption|]. split.
           ++ now rewrite Hst2, Hst1, <- app_assoc.
           ++ now apply grows_trans with st1.
Qed.

End Loop.

Lemma web_for_files_ends (w : world) (files : list pystr) (st : state) :
  ((exists f, In f files /\ Strict.loop_raises WEB w f) /\
   exists st', Strict.extract_bible_data.for_files w files st = Raised st' /\
               grows st st') \/
  ((forall f, In f files -> ~ Strict.loop_raises WEB w f) /\
   exists st', Strict.extract_bible_data.for_files w files st = Normal st' /\
               all_verses st'
               = all_verses st ++ flat_map (Strict.file_records WEB w) files /\
               grows st st').
Proof.
  apply (for_files_cases WEB w Strict.extract_bible_data.process_file
           Strict.extract_bible_data.for_files);
    [reflexivity|reflexivity|].
  intros st0 f. apply web_process_file_ends.
Qed.

Lemma darby_for_files_ends (w : world) (files : list pystr) (st : state) :
  ((exists f, In f files /\ Strict.loop_raises DARBY w f) /\
   exists st', Strict.extract_darby.for_files w files st = Raised st' /\
               grows st st') \/
  ((forall f, In f files -> ~ Strict.loop_raises DARBY w f) /\
   exists st', Strict.extract_darby.for_files w files st = Normal st' /\
               all_verses st'
               = all_verses st ++ flat_map (Strict.file_records DARBY w) files /\
               grows st st').
Proof.
  apply (for_files_cases DARBY w Strict.extract_darby.process_file
           Strict.extract_darby.for_files);
    [reflexivity|reflexivity|].
  intros st0 f. apply darby_process_file_ends.
Qed.

(** *** The first-file test *)

Lemma web_test_first_file_ends (w : world) (files : list pystr)
  (st : state) :
  ((files <> [] /\ Strict.raises (Strict.extract_file_of WEB w (hd [] files)))
   /\ exists st', Strict.extract_bible_data.test_first_file w files st
                  = Raised st' /\ grows st st') \/
  (~ (files <> [] /\
      Strict.raises (Strict.extract_file_of WEB w (hd [] files)))
   /\ exists st', Strict.extract_bible_data.test_first_file w files st
                  = Normal st' /\ all_verses st' = all_verses st /\
                  grows st st').
Proof.
  destruct files as [|f files].
  - right. split; [intros [H _]; now apply H|].
    exists st. repeat split. apply grows_refl.
  - cbn [Strict.extract_bible_data.test_first_file hd].
    rewrite web_extract_file.
    destruct (Strict.extract_bible_data.extract_verses_from_file w f)
      as [verses|e].
    + right. split; [intros [_ H]; now apply not_raises_returned in H|].
      eexists. split; [reflexivity|]. split; [reflexivity|].
      eapply grows_trans; apply grows_print.
    + left. split; [split; [discriminate|apply raises_exception]|].
      eexists. split; [reflexivity|apply grows_print].
Qed.

Lemma darby_test_first_file_ends (w : world) (files : list pystr)
  (st : state) :
  ((files <> [] /\
    Strict.raises (Strict.extract_file_of DARBY w (hd [] files)))
   /\ exists st', Strict.extract_darby.test_first_file w files st
                  = Raised st' /\ grows st st') \/
  (~ (files <> [] /\
      Strict.raises (Strict.extract_file_of DARBY w (hd [] files)))
   /\ exists st', Strict.extract_darby.test_first_file w files st
                  = Normal st' /\ all_verses st' = all_verses st /\
                  grows st st').
Proof.
  destruct files as [|f files].
  - right. split; [intros [H _]; now apply H|].
    exists st. repeat split. apply grows_refl.
  - cbn [Strict.extract_darby.test_first_file hd].
    rewrite darby_extract_file.
    destruct (read_text w f) as [html|e].
    2:{ left. split; [split; [discriminate|apply raises_exception]|].
        eexists. split; [reflexivity|apply grows_print]. }
    destruct (Strict.extract_darby.extract_verses_from_html html)
      as [[|r rs]|e].
    + right. split; [intros [_ H]; now apply not_raises_returned in H|].
      eexists. split; [reflexivity|]. split; [reflexivity|].
      eapply grows_trans; apply grows_print.
    + right. split; [intros [_ H]; now apply not_raises_returned in H|].
      eexists. split; [reflexivity|]. split; [reflexivity|].
      eapply grows_trans; [apply grows_print|].
      eapply grows_trans; apply grows_print.
    + left. split; [split; [discriminate|apply raises_exception]|].
      eexists. split; [reflexivity|apply grows_print].
Qed.

(** *** [main] *)

(** How a run of [main] ends, and what is then known of the run. *)
Lemma main_cases (v : script) (s : Strict.system) :
  match Strict.main_of v s with
  | Written records out =>
      exists w,
        Strict.directory s = Some w /\ Strict.writable s = true /\
        records = flat_map (Strict.file_records v w) (html_files_of v w) /\
        ~ Strict.first_file_raises v w /\
        (forall f, In f (html_files_of v w) -> ~ Strict.loop_raises v w f) /\
        exists lines,
          out = (opening_lines v (length (html_files_of v w)) ++ lines)
                  ++ closing_lines v (length records)
  | Aborted out =>
      (Strict.directory s = None /\ out = Strict.lines_before_listing v) \/
      (exists w,
         Strict.directory s = Some w /\
         (Strict.first_file_raises v w \/
          (exists f, In f (html_files_of v w) /\ Strict.loop_raises v w f) \/
          Strict.writable s = false) /\
         exists more,
           out = opening_lines v (length (html_files_of v w)) ++ more)
  end.
Proof.
  destruct v; cbn [Strict.main_of].
  - unfold Strict.extract_bible_data.main. cbv zeta.
    destruct (Strict.directory s) as [w|] eqn:Ed; [|left; now split].
    change (sorted (filter extract_bible_data.is_chapter_file (listdir w)))
      with (html_files_of WEB w).
    set (files := html_files_of WEB w).
    set (st0 := print _ {| all_verses := []; stdout := [] |}).
    assert (H0 : stdout st0 = opening_lines WEB (length files))
      by reflexivity.
    destruct (web_test_first_file_ends w files st0)
      as [[Hbad (st1 & -> & [l1 Hl1])]|[Hok (st1 & -> & Hv1 & [l1 Hl1])]].
    { right. exists w. split; [reflexivity|]. split; [now left|].
      exists l1. now rewrite Hl1, H0. }
    destruct (web_for_files_ends w files st1)
      as [[Hbad (st2 & -> & [l2 Hl2])]
         |[Hall (st2 & -> & Hv2 & [l2 Hl2])]].
    { right. exists w. split; [reflexivity|]. split; [right; now left|].
      exists (l1 ++ l2). now rewrite Hl2, Hl1, H0, app_assoc. }
    destruct (Strict.writable s) eqn:Ew.
    2:{ right. exists w. split; [reflexivity|].
        split; [right; now right|].
        exists (l1 ++ l2). now rewrite Hl2, Hl1, H0, app_assoc. }
    exists w. split; [reflexivity|]. split; [reflexivity|].
    cbn [print all_verses stdout].
    split; [now rewrite Hv2, Hv1|].
    split; [exact Hok|]. split; [exact Hall|].
    exists (l1 ++ l2). rewrite Hl2, Hl1, H0, <- !app_assoc.
    do 3 f_equal. unfold closing_lines, extract_bible_data.len_line.
    change (lit "") with (@nil N). now rewrite app_nil_r.
  - unfold Strict.extract_darby.main. cbv zeta.
    destruct (Strict.directory s) as [w|] eqn:Ed; [|left; now split].
    change (sorted (filter extract_darby.is_chapter_file (listdir w)))
      with (html_files_of DARBY w).
    set (files := html_files_of DARBY w).
    set (st0 := print _ (print _ {| all_verses := []; stdout := [] |})).
    assert (H0 : stdout st0 = opening_lines DARBY (length files))
      by reflexivity.
    destruct (darby_test_first_file_ends w files st0)
      as [[Hbad (st1 & -> & [l1 Hl1])]|[Hok (st1 & -> & Hv1 & [l1 Hl1])]].
    { right. exists w. split; [reflexivity|]. split; [now left|].
      exists l1. now rewrite Hl1, H0. }
    destruct (darby_for_files_ends w files st1)
      as [[Hbad (st2 & -> & [l2 Hl2])]
         |[Hall (st2 & -> & Hv2 & [l2 Hl2])]].
    { right. exists w. split; [reflexivity|]. split; [right; now left|].
      exists (l1 ++ l2). now rewrite Hl2, Hl1, H0, app_assoc. }
    destruct (Strict.writable s) eqn:Ew.
    2:{ right. exists w. split; [reflexivity|].
        split; [right; now right|].
        eexists (l1 ++ l2 ++ [_]). cbn [print stdout].
        now rewrite Hl2, Hl1, H0, <- !app_assoc. }
    exists w. split; [reflexivity|]. split; [reflexivity|].
    cbn [print all_verses stdout].
    split; [now rewrite Hv2, Hv1|].
    split; [exact Hok|]. split; [exact Hall|].
    exists (l1 ++ l2). rewrite Hl2, Hl1, H0, <- !app_assoc.
    do 3 f_equal. unfold closing_lines, extract_darby.len_line.
    change (lit "") with (@nil N). now rewrite app_nil_r.
Qed.

End StrictFacts.

(** ** What a run of [main] writes, and when it does not *)

(** X1.  When [main] gets to write its output, in either script, the
    directory was listed and the records written are those of its chapter
    files taken in sorted order, file after file and, within a file, verse
    after verse as extracted.  A file contributes the records of its
    verses when its name parses to a known book code and the file is read
    and extracted; it contributes nothing when its name does not parse,
    when its code is unknown and, in the second script, when it cannot be
    read or when its extraction raises at a number [int()] refuses, which
    [except Exception] catches. *)
Theorem main_writes_file_records (v : script) (s : Strict.system)
  (records : list VerseObj) (out : list pystr) :
  Strict.main_of v s = Written records out ->
  exists w,
    Strict.directory s = Some w /\
    records
    = flat_map (Strict.file_records v w) (Batch.html_files_of v w) /\
    forall f, In f (Batch.html_files_of v w) ->
      Strict.file_records v w f = Batch.file_records v w f \/
      (v = DARBY /\ Strict.file_records v w f = [] /\
       exists html, read_text w f = Content html /\
                    Strict.raises (Strict.extract_of DARBY html)).
Proof.
  intros H. pose proof (StrictFacts.main_cases v s) as Hc.
  rewrite H in Hc.
  destruct Hc as (w & Hd & _ & Hrec & _ & Hloop & _).
  exists w. split; [exact Hd|]. split; [exact Hrec|].
  intros f Hf. specialize (Hloop f Hf).
  unfold Strict.file_records, Batch.file_records.
  destruct (StrictFacts.parse_cases v f) as [[_ Hp]|[_ Hr]].
  2:{ exfalso. apply Hloop. now left. }
  rewrite Hp.
  destruct (parse_filename_of v f) as [[code ch]|] eqn:Ep; [|now left].
  destruct (dict_get BOOK_NAMES code) as [book|] eqn:Ed; [|now left].
  unfold Strict.extract_file_of.
  destruct (read_text w f) as [html|e] eqn:Er; [|now left].
  destruct (StrictFacts.extract_of_cases v html) as [[_ Hx]|[_ Hx]].
  - rewrite Hx. now left.
  - destruct v.
    + exfalso. apply Hloop. right. split.
      * now exists code, ch, book.
      * unfold Strict.extract_file_of. now rewrite Er.
    + right. split; [reflexivity|].
      destruct Hx as [e He]. rewrite He.
      split; [reflexivity|]. exists html. split; [reflexivity|].
      rewrite He. now exists e.
Qed.

Lemma main_writes_file_records_witness :
  exists w,
    Strict.directory StrictSamples.long_number_second = Some w /\
    [Batch.record_from DARBY (lit "Exodus") 1
       (1%Z, lit "Now these are the names.")]
    = flat_map (Strict.file_records DARBY w) (Batch.html_files_of DARBY w) /\
    forall f, In f (Batch.html_files_of DARBY w) ->
      Strict.file_records DARBY w f = Batch.file_records DARBY w f \/
      (DARBY = DARBY /\ Strict.file_records DARBY w f = [] /\
       exists html, read_text w f = Content html /\
                    Strict.raises (Strict.extract_of DARBY html)).
Proof.
  apply (main_writes_file_records DARBY StrictSamples.long_number_second _
           (map lit ["Processing Darby Translation from: C:\Users\DJMcC\OneDrive\Desktop\bible-playground\darby";
                     "Found 2 chapter files in Darby Translation";
                     "Testing first file: EXO01.htm";
                     "Test extraction resulted in 1 verses";
                     "Sample verse: Now these are the names....";
                     "Error processing GEN01.htm: Exceeds the limit (4300 digits) for integer string conversion: value has 4301 digits; use sys.set_int_max_str_digits() to increase the limit";
                     "Total verses extracted: 1";
                     "Output written to: C:\Users\DJMcC\OneDrive\Desktop\bible-playground\src\AI-Bible-App.Maui\Data\Bible\darby.json";
                     "Darby Translation has been successfully extracted!"]%string)).
  vm_compute. reflexivity.
Defined.

(** X3.  [extract_bible_data]'s [main] is left by an exception, and writes
    nothing, exactly in these cases: [os.listdir] raises; the first chapter
    file of the sorted list cannot be read, or its extraction raises; the
    chapter digits of the name of a chapter file are more than [int()]
    takes; a chapter file of a known book cannot be read, or its extraction
    raises; the output cannot be written.  In every other case it writes
    its output. *)
Theorem web_main_aborts_iff (s : Strict.system) :
  (exists out, Strict.main_of WEB s = Aborted out) <->
  (Strict.directory s = None \/
   exists w,
     Strict.directory s = Some w /\
     ((Batch.html_files_of WEB w <> [] /\
       Strict.raises
         (Strict.extract_file_of WEB w (hd [] (Batch.html_files_of WEB w)))) \/
      (exists f,
         In f (Batch.html_files_of WEB w) /\
         (Strict.raises (Strict.parse_filename_of WEB f) \/
          (Batch.of_known_book WEB f /\
           Strict.raises (Strict.extract_file_of WEB w f)))) \/
      Strict.writable s = false)).
Proof.
  pose proof (StrictFacts.main_cases WEB s) as Hc.
  destruct (Strict.main_of WEB s) as [records out|out].
  - destruct Hc as (w & Hd & Hw & _ & Hfirst & Hloop & _). split.
    + intros [o H]. discriminate.
    + intros [H|(w' & Hd' & H)]; [congruence|].
      assert (w' = w) by congruence. subst w'. exfalso.
      destruct H as [H|[(f & Hf & H)|H]].
      * now apply Hfirst.
      * now apply (Hloop f Hf).
      * congruence.
  - split; [intros _|intros _; now exists out].
    destruct Hc as [[Hd _]|(w & Hd & H & _)]; [now left|].
    right. exists w. split; [exact Hd|exact H].
Qed.

(** X4.  [extract_darby]'s [main] is left by an exception, and writes
    nothing, exactly in these cases: [os.listdir] raises; the first chapter
    file of the sorted list cannot be read, or its extraction raises (the
    first-file test is outside any [try]); the chapter digits of the name
    of a chapter file are more than [int()] takes ([parse_filename] is
    called before the [try]); the output cannot be written.  What reading
    or extracting any other file raises is caught and never keeps it from
    writing its output. *)
Theorem darby_main_aborts_iff (s : Strict.system) :
  (exists out, Strict.main_of DARBY s = Aborted out) <->
  (Strict.directory s = None \/
   exists w,
     Strict.directory s = Some w /\
     ((Batch.html_files_of DARBY w <> [] /\
       Strict.raises
         (Strict.extract_file_of DARBY w
            (hd [] (Batch.html_files_of DARBY w)))) \/
      (exists f,
         In f (Batch.html_files_of DARBY w) /\
         Strict.raises (Strict.parse_filename_of DARBY f)) \/
      Strict.writable s = false)).
Proof.
  pose proof (StrictFacts.main_cases DARBY s) as Hc.
  destruct (Strict.main_of DARBY s) as [records out|out].
  - destruct Hc as (w & Hd & Hw & _ & Hfirst & Hloop & _). split.
    + intros [o H]. discriminate.
    + intros [H|(w' & Hd' & H)]; [congruence|].
      assert (w' = w) by congruence. subst w'. exfalso.
      destruct H as [H|[(f & Hf & H)|H]].
      * now apply Hfirst.
      * apply (Hloop f Hf). now left.
      * congruence.
  - split; [intros _|intros _; now exists out].
    destruct Hc as [[Hd _]|(w & Hd & H & _)]; [now left|].
    right. exists w. split; [exact Hd|].
    destruct H as [H|[(f & Hf & [H|[]])|H]].
    + now left.
    + right. left. now exists f.
    + now right; right.
Qed.

(** X16.  A run of [main] in which [os.listdir] raises has printed nothing
    in the first script and the line that names the directory in the
    second.  Every other run opens with the number of chapter files of the
    sorted list (after the line that names the directory, in the second
    script), whether it goes on to write its output or not, and a run that
    writes its output closes with the number of records written, which is
    the number the [Total verses extracted] line gives, and the lines that
    follow it.  Nothing printed in between is taken back. *)
Theorem main_reports_counts (v : script) (s : Strict.system) :
  (Strict.directory s = None ->
   Batch.printed (Strict.main_of v s) = Strict.lines_before_listing v) /\
  (forall w,
     Strict.directory s = Some w ->
     exists more,
       Batch.printed (Strict.main_of v s)
       = Batch.opening_lines v (length (Batch.html_files_of v w)) ++ more) /\
  (forall records out,
     Strict.main_of v s = Written records out ->
     exists lines,
       out = lines ++ Batch.closing_lines v (length records)).
Proof.
  pose proof (StrictFacts.main_cases v s) as Hc.
  destruct (Strict.main_of v s) as [records out|out];
    cbn [Batch.printed].
  - destruct Hc as (w & Hd & _ & _ & _ & _ & lines & Hout).
    split; [intros H; congruence|]. split.
    + intros w' Hd'. assert (w' = w) by congruence. subst w'.
      rewrite Hout, <- app_assoc. now eexists.
    + intros r o E. injection E as <- <-. rewrite Hout. now eexists.
  - split; [|split; [|discriminate]].
    + intros Hd. destruct Hc as [[_ H]|(w & Hd' & _)]; congruence.
    + intros w Hd. destruct Hc as [[Hd' _]|(w' & Hd' & _ & H)];
        [congruence|].
      assert (w' = w) by congruence. now subst w'.
Qed.

(** A directory that cannot be listed, and an output that cannot be
    written: what has been printed when [main] is left. *)
Example runs_left_by_the_system :
  Strict.main_of WEB StrictSamples.no_directory = Aborted [] /\
  Strict.main_of DARBY StrictSamples.no_directory
    = Aborted [lit "Processing Darby Translation from: "
                 ++ extract_darby.DARBY_DIR] /\
  Strict.main_of WEB StrictSamples.read_only
    = Aborted [lit "Found 3 chapter files";
               lit "Testing first file: EXO01.htm";
               lit "Test extraction resulted in 1 verses"] /\
  Strict.main_of DARBY StrictSamples.read_only
    = Aborted [lit "Processing Darby Translation from: "
                 ++ extract_darby.DARBY_DIR;
               lit "Found 3 chapter files in Darby Translation";
               lit "Testing first file: EXO01.htm";
               lit "Test extraction resulted in 1 verses";
               lit "Sample verse: Now these are the names....";
               lit "Total verses extracted: 2"].
Proof. repeat split; vm_compute; reflexivity. Qed.

(** ** The limit of [int()] *)

(** X17.  In both scripts, [extract_verses_from_html] raises exactly when
    the digits of a matched marker that it hands to [int()] are more than
    4300: the id digits of any match in the first script, the displayed
    digits of a match whose cleaned text is not empty in the second.
    [parse_filename] raises exactly when the name matches its pattern with
    more than 4300 chapter digits.  When they do not raise they return what
    the definitions without the limit return. *)
Theorem int_limit_raises (v : script) (html f : pystr) :
  (forall rs, Strict.extract_of v html = Strict.Returned rs ->
              rs = extract_of v html) /\
  (Strict.raises (Strict.extract_of v html) <->
   exists m,
     In m (re_findall3 (pattern_of v) (prepared v html)) /\
     Strict.converted v m = true /\
     Strict.max_str_digits < length (number_digits v m)) /\
  (forall r, Strict.parse_filename_of v f = Strict.Returned r ->
             r = parse_filename_of v f) /\
  (Strict.raises (Strict.parse_filename_of v f) <->
   exists ds,
     Strict.chapter_digits_of v f = Some ds /\
     Strict.max_str_digits < length ds).
Proof.
  split; [apply StrictFacts.extract_of_returned|].
  split; [|split; [apply StrictFacts.parse_returned|]].
  - destruct (StrictFacts.extract_of_cases v html) as [[Hall Heq]|[Hex Hr]].
    + split.
      * rewrite Heq. intros H. now apply StrictFacts.not_raises_returned in H.
      * intros (m & Hin & Hc & Hgt). exfalso.
        rewrite Forall_forall in Hall. specialize (Hall m Hin Hc).
        apply (Nat.lt_irrefl (length (number_digits v m))).
        now apply Nat.le_lt_trans with Strict.max_str_digits.
    + split; [intros _|intros _; exact Hr].
      apply Exists_exists in Hex. destruct Hex as (m & Hin & Hc & Hgt).
      now exists m.
  - destruct (StrictFacts.parse_cases v f) as [[Hall Heq]|[Hex Hr]].
    + split.
      * rewrite Heq. intros H. now apply StrictFacts.not_raises_returned in H.
      * intros (ds & Hds & Hgt). exfalso. specialize (Hall ds Hds).
        apply (Nat.lt_irrefl (length ds)).
        now apply Nat.le_lt_trans with Strict.max_str_digits.
    + split; [intros _; exact Hex|intros _; exact Hr].
Qed.

(** A displayed number of 4301 digits: the first script, which converts the
    id digits, returns the verse; the second raises.  In a directory where
    that chapter is not the first, the second script prints what it caught
    and writes the records of the other chapter. *)
Example number_of_4301_digits :
  Strict.extract_of WEB StrictSamples.long_number
    = Strict.Returned [(1%Z, lit "In the beginning")] /\
  Strict.extract_of DARBY StrictSamples.long_number
    = Strict.Exception (Strict.limit_message 4301) /\
  Strict.main_of DARBY StrictSamples.long_number_second
    = Written
        [Batch.record_from DARBY (lit "Exodus") 1
           (1%Z, lit "Now these are the names.")]
        [lit "Processing Darby Translation from: " ++ extract_darby.DARBY_DIR;
         lit "Found 2 chapter files in Darby Translation";
         lit "Testing first file: EXO01.htm";
         lit "Test extraction resulted in 1 verses";
         lit "Sample verse: Now these are the names....";
         lit "Error processing GEN01.htm: " ++ Strict.limit_message 4301;
         lit "Total verses extracted: 1";
         lit "Output written to: " ++ extract_darby.OUTPUT_JSON;
         lit "Darby Translation has been successfully extracted!"].
Proof. repeat split; vm_compute; reflexivity. Qed.

(** ** Runs without the exceptions *)

Module AgreeFacts.
Import Py Re Markup Scripts Batch StrictFacts.

Lemma web_html_same (html : pystr) :
  ~ Strict.raises (Strict.extract_of WEB html) ->
  Strict.extract_bible_data.extract_verses_from_html html
  = Strict.Returned (extract_bible_data.extract_verses_from_html html).
Proof.
  intros Hn.
  unfold Strict.extract_bible_data.extract_verses_from_html,
    extract_bible_data.extract_verses_from_html.
  cbv zeta.
  match goal with
  | |- Strict.extract_bible_data.for_matches ?ms [] = _ =>
      destruct (web_for_matches_cases ms []) as [[_ H]|[_ [e He]]]
  end; [exact H|].
  exfalso. apply Hn. cbn [Strict.extract_of].
  unfold Strict.extract_bible_data.extract_verses_from_html. cbv zeta.
  rewrite He. apply raises_exception.
Qed.

Lemma darby_html_same (html : pystr) :
  ~ Strict.raises (Strict.extract_of DARBY html) ->
  Strict.extract_darby.extract_verses_from_html html
  = Strict.Returned (extract_darby.extract_verses_from_html html).
Proof.
  intros Hn.
  unfold Strict.extract_darby.extract_verses_from_html,
    extract_darby.extract_verses_from_html.
  cbv zeta.
  match goal with
  | |- Strict.extract_darby.for_matches ?ms [] = _ =>
      destruct (darby_for_matches_cases ms []) as [[_ H]|[_ [e He]]]
  end; [exact H|].
  exfalso. apply Hn. cbn [Strict.extract_of].
  unfold Strict.extract_darby.extract_verses_from_html. cbv zeta.
  rewrite He. apply raises_exception.
Qed.

Lemma parse_same (v : script) (f : pystr) :
  ~ Strict.raises (Strict.parse_filename_of v f) ->
  Strict.parse_filename_of v f = Strict.Returned (parse_filename_of v f).
Proof.
  intros Hn. destruct (parse_cases v f) as [[_ H]|[_ H]];
    [exact H|contradiction].
Qed.

Lemma web_process_file_same (w : world) (st : state) (f : pystr) :
  Strict.sound WEB w f ->
  Strict.extract_bible_data.process_file w st f
  = extract_bible_data.process_file w st f.
Proof.
  intros [Hp Hx]. apply parse_same in Hp.
  cbn [Strict.parse_filename_of parse_filename_of] in Hp.
  unfold Strict.extract_bible_data.process_file,
    extract_bible_data.process_file.
  rewrite Hp.
  destruct (extract_bible_data.parse_filename f) as [[code ch]|];
    [|reflexivity].
  destruct (dict_get extract_bible_data.BOOK_NAMES code); [|reflexivity].
  unfold Strict.extract_bible_data.extract_verses_from_file,
    extract_bible_data.extract_verses_from_file.
  destruct (read_text w f) as [html|e]; [|reflexivity].
  now rewrite (web_html_same html (Hx html eq_refl)).
Qed.

Lemma darby_process_file_same (w : world) (st : state) (f : pystr) :
  Strict.sound DARBY w f ->
  Strict.extract_darby.process_file w st f
  = Normal (extract_darby.process_file w st f).
Proof.
  intros [Hp Hx]. apply parse_same in Hp.
  cbn [Strict.parse_filename_of parse_filename_of] in Hp.
  unfold Strict.extract_darby.process_file, extract_darby.process_file.
  rewrite Hp.
  destruct (extract_darby.parse_filename f) as [[code ch]|]; [|reflexivity].
  destruct (dict_get extract_darby.BOOK_NAMES code); [|reflexivity].
  cbv zeta.
  destruct (read_text w f) as [html|e]; [|reflexivity].
  rewrite (darby_html_same html (Hx html eq_refl)).
  destruct (_ && _); reflexivity.
Qed.

Lemma web_for_files_same (w : world) (files : list pystr) :
  (forall f, In f files -> Strict.sound WEB w f) ->
  forall st,
    Strict.extract_bible_data.for_files w files st
    = extract_bible_data.for_files w files st.
Proof.
  induction files as [|f files IH]; intros H st; [reflexivity|].
  cbn [Strict.extract_bible_data.for_files extract_bible_data.for_files].
  rewrite web_process_file_same by (apply H; now left).
  destruct (extract_bible_data.process_file w st f); [|reflexivity].
  apply IH. intros g Hg. apply H. now right.
Qed.

Lemma darby_for_files_same (w : world) (files : list pystr) :
  (forall f, In f files -> Strict.sound DARBY w f) ->
  forall st,
    Strict.extract_darby.for_files w files st
    = Normal (extract_darby.for_files w files st).
Proof.
  unfold extract_darby.for_files.
  induction files as [|f files IH]; intros H st; [reflexivity|].
  cbn [Strict.extract_darby.for_files fold_left].
  rewrite darby_process_file_same by (apply H; now left).
  apply IH. intros g Hg. apply H. now right.
Qed.

Lemma web_test_first_file_same (w : world) (files : list pystr)
  (st : state) :
  (forall f, In f files -> Strict.sound WEB w f) ->
  Strict.extract_bible_data.test_first_file w files st
  = extract_bible_data.test_first_file w files st.
Proof.
  intros H. destruct files as [|f files]; [reflexivity|].
  cbn [Strict.extract_bible_data.test_first_file
       extract_bible_data.test_first_file].
  unfold Strict.extract_bible_data.extract_verses_from_file,
    extract_bible_data.extract_verses_from_file.
  destruct (read_text w f) as [html|e] eqn:Er; [|reflexivity].
  destruct (H f (or_introl eq_refl)) as [_ Hx].
  now rewrite (web_html_same html (Hx html Er)).
Qed.

Lemma darby_test_first_file_same (w : world) (files : list pystr)
  (st : state) :
  (forall f, In f files -> Strict.sound DARBY w f) ->
  Strict.extract_darby.test_first_file w files st
  = extract_darby.test_first_file w files st.
Proof.
  intros H. destruct files as [|f files]; [reflexivity|].
  cbn [Strict.extract_darby.test_first_file extract_darby.test_first_file].
  destruct (read_text w f) as [html|e] eqn:Er; [|reflexivity].
  destruct (H f (or_introl eq_refl)) as [_ Hx].
  now rewrite (darby_html_same html (Hx html Er)).
Qed.

End AgreeFacts.

(** X18.  The definitions without the exceptions describe the runs in which
    none occurs.  When [os.listdir] returns, the output can be written and
    no run of digits handed to [int()] has more than 4300 digits, neither
    the chapter digits of the name of a chapter file nor the number digits
    of a marker matched in a chapter file that can be read, [main] with
    its exceptions ends as [main] without them: the same records, or the
    same exception of an unreadable file, and the same lines printed. *)
Theorem main_without_exceptions (v : script) (s : Strict.system)
  (w : world) :
  Strict.directory s = Some w ->
  Strict.writable s = true ->
  (forall f ds,
     In f (Batch.html_files_of v w) ->
     Strict.chapter_digits_of v f = Some ds ->
     length ds <= Strict.max_str_digits) ->
  (forall f html m,
     In f (Batch.html_files_of v w) ->
     read_text w f = Content html ->
     In m (re_findall3 (pattern_of v) (prepared v html)) ->
     length (number_digits v m) <= Strict.max_str_digits) ->
  Strict.main_of v s = main_of v w.
Proof.
  intros Hd Hw Hnames Htexts.
  assert (Hsound : forall f, In f (Batch.html_files_of v w) ->
                             Strict.sound v w f).
  { intros f Hf. split.
    - intros Hr.
      destruct (StrictFacts.parse_cases v f) as [[_ Heq]|[(ds & Hds & Hgt) _]].
      + rewrite Heq in Hr. now apply StrictFacts.not_raises_returned in Hr.
      + specialize (Hnames f ds Hf Hds).
        apply (Nat.lt_irrefl (length ds)).
        now apply Nat.le_lt_trans with Strict.max_str_digits.
    - intros html Er Hr.
      destruct (StrictFacts.extract_of_cases v html) as [[_ Heq]|[Hex _]].
      + rewrite Heq in Hr. now apply StrictFacts.not_raises_returned in Hr.
      + apply Exists_exists in Hex. destruct Hex as (m & Hin & _ & Hgt).
        specialize (Htexts f html m Hf Er Hin).
        apply (Nat.lt_irrefl (length (number_digits v m))).
        now apply Nat.le_lt_trans with Strict.max_str_digits. }
  destruct v; cbn [Strict.main_of main_of].
  - unfold Strict.extract_bible_data.main, extract_bible_data.main.
    rewrite Hd, Hw. cbv zeta.
    change (sorted (filter extract_bible_data.is_chapter_file (listdir w)))
      with (Batch.html_files_of WEB w).
    rewrite (AgreeFacts.web_test_first_file_same w _ _ Hsound).
    destruct (extract_bible_data.test_first_file w _ _); [|reflexivity].
    now rewrite (AgreeFacts.web_for_files_same w _ Hsound).
  - unfold Strict.extract_darby.main, extract_darby.main.
    rewrite Hd, Hw. cbv zeta.
    change (sorted (filter extract_darby.is_chapter_file (listdir w)))
      with (Batch.html_files_of DARBY w).
    rewrite (AgreeFacts.darby_test_first_file_same w _ _ Hsound).
    destruct (extract_darby.test_first_file w _ _); [|reflexivity].
    now rewrite (AgreeFacts.darby_for_files_same w _ Hsound).
Qed.

Lemma main_without_exceptions_witness :
  Strict.main_of WEB StrictSamples.all_readable
  = main_of WEB Batch.all_readable.
Proof.
  apply (main_without_exceptions WEB StrictSamples.all_readable
           Batch.all_readable).
  - reflexivity.
  - reflexivity.
  - intros f ds Hin Hds. vm_compute in Hin.
    destruct Hin as [<-|[<-|[<-|[]]]]; vm_compute in Hds;
      injection Hds as <-; apply Nat.leb_le; vm_compute; reflexivity.
  - intros f html m Hin Hr Hm. vm_compute in Hin.
    destruct Hin as [<-|[<-|[<-|[]]]]; vm_compute in Hr;
      injection Hr as <-; vm_compute in Hm; destruct Hm as [<-|[]];
      apply Nat.leb_le; vm_compute; reflexivity.
Defined.

(** ** Files of an unknown book *)

Module StrictFrameFacts.
Import Py Re Markup Scripts Batch StrictFacts.

(** The loops read a file only where its name parses to a known book. *)
Lemma web_process_file_reads (w1 w2 : world) (st : state) (f : pystr) :
  (of_known_book WEB f -> read_text w1 f = read_text w2 f) ->
  Strict.extract_bible_data.process_file w1 st f
  = Strict.extract_bible_data.process_file w2 st f.
Proof.
  intros H. unfold Strict.extract_bible_data.process_file.
  destruct (Strict.extract_bible_data.parse_filename f)
    as [[[code ch]|]|e] eqn:Ep; try reflexivity.
  apply (parse_returned WEB) in Ep. cbn [parse_filename_of] in Ep.
  destruct (dict_get extract_bible_data.BOOK_NAMES code) as [name|] eqn:Ed;
    [|reflexivity].
  unfold Strict.extract_bible_data.extract_verses_from_file.
  rewrite H; [reflexivity|]. exists code, ch, name. now split.
Qed.

Lemma darby_process_file_reads (w1 w2 : world) (st : state) (f : pystr) :
  (of_known_book DARBY f -> read_text w1 f = read_text w2 f) ->
  Strict.extract_darby.process_file w1 st f
  = Strict.extract_darby.process_file w2 st f.
Proof.
  intros H. unfold Strict.extract_darby.process_file.
  destruct (Strict.extract_darby.parse_filename f)
    as [[[code ch]|]|e] eqn:Ep; try reflexivity.
  apply (parse_returned DARBY) in Ep. cbn [parse_filename_of] in Ep.
  destruct (dict_get extract_darby.BOOK_NAMES code) as [name|] eqn:Ed;
    [|reflexivity].
  rewrite H; [reflexivity|]. exists code, ch, name. now split.
Qed.

Lemma web_for_files_reads (w1 w2 : world) (files : list pystr) :
  (forall f, In f files -> of_known_book WEB f ->
             read_text w1 f = read_text w2 f) ->
  forall st,
    Strict.extract_bible_data.for_files w1 files st
    = Strict.extract_bible_data.for_files w2 files st.
Proof.
  induction files as [|f files IH]; intros H st; [reflexivity|].
  cbn [Strict.extract_bible_data.for_files].
  rewrite (web_process_file_reads w1 w2 st f) by (apply H; now left).
  destruct (Strict.extract_bible_data.process_file w2 st f); [|reflexivity].
  apply IH. intros g Hg. apply H. now right.
Qed.

Lemma darby_for_files_reads (w1 w2 : world) (files : list pystr) :
  (forall f, In f files -> of_known_book DARBY f ->
             read_text w1 f = read_text w2 f) ->
  forall st,
    Strict.extract_darby.for_files w1 files st
    = Strict.extract_darby.for_files w2 files st.
Proof.
  induction files as [|f files IH]; intros H st; [reflexivity|].
  cbn [Strict.extract_darby.for_files].
  rewrite (darby_process_file_reads w1 w2 st f) by (apply H; now left).
  destruct (Strict.extract_darby.process_file w2 st f); [|reflexivity].
  apply IH. intros g Hg. apply H. now right.
Qed.

Lemma web_test_first_file_reads (w1 w2 : world) (files : list pystr)
  (st : state) :
  (files <> [] -> read_text w1 (hd [] files) = read_text w2 (hd [] files)) ->
  Strict.extract_bible_data.test_first_file w1 files st
  = Strict.extract_bible_data.test_first_file w2 files st.
Proof.
  intros H. destruct files as [|f files]; [reflexivity|].
  cbn [Strict.extract_bible_data.test_first_file hd] in *.
  unfold Strict.extract_bible_data.extract_verses_from_file.
  rewrite H; [reflexivity|discriminate].
Qed.

Lemma darby_test_first_file_reads (w1 w2 : world) (files : list pystr)
  (st : state) :
  (files <> [] -> read_text w1 (hd [] files) = read_text w2 (hd [] files)) ->
  Strict.extract_darby.test_first_file w1 files st
  = Strict.extract_darby.test_first_file w2 files st.
Proof.
  intros H. destruct files as [|f files]; [reflexivity|].
  cbn [Strict.extract_darby.test_first_file hd] in *.
  rewrite H; [reflexivity|discriminate].
Qed.

(** [main] with its exceptions, in two directories with the same listing
    that agree on the first chapter file and on those of known books. *)
Lemma main_reads (v : script) (w1 w2 : world) (b : bool) :
  listdir w1 = listdir w2 ->
  (html_files_of v w2 <> [] ->
   read_text w1 (hd [] (html_files_of v w2))
   = read_text w2 (hd [] (html_files_of v w2))) ->
  (forall f, In f (html_files_of v w2) -> of_known_book v f ->
             read_text w1 f = read_text w2 f) ->
  Strict.main_of v {| Strict.directory := Some w1; Strict.writable := b |}
  = Strict.main_of v {| Strict.directory := Some w2; Strict.writable := b |}.
Proof.
  intros Hl H1 H2.
  assert (Hfiles : html_files_of v w1 = html_files_of v w2)
    by (unfold html_files_of; now rewrite Hl).
  destruct v; cbn [Strict.main_of].
  - unfold Strict.extract_bible_data.main.
    cbn [Strict.directory Strict.writable].
    change (sorted (filter extract_bible_data.is_chapter_file (listdir w1)))
      with (html_files_of WEB w1).
    change (sorted (filter extract_bible_data.is_chapter_file (listdir w2)))
      with (html_files_of WEB w2).
    rewrite Hfiles. cbv zeta.
    rewrite (web_test_first_file_reads w1 w2 _ _ H1).
    destruct (Strict.extract_bible_data.test_first_file w2 _ _);
      [|reflexivity].
    now rewrite (web_for_files_reads w1 w2 _ H2).
  - unfold Strict.extract_darby.main.
    cbn [Strict.directory Strict.writable].
    change (sorted (filter extract_darby.is_chapter_file (listdir w1)))
      with (html_files_of DARBY w1).
    change (sorted (filter extract_darby.is_chapter_file (listdir w2)))
      with (html_files_of DARBY w2).
    rewrite Hfiles. cbv zeta.
    rewrite (darby_test_first_file_reads w1 w2 _ _ H1).
    destruct (Strict.extract_darby.test_first_file w2 _ _); [|reflexivity].
    now rewrite (darby_for_files_reads w1 w2 _ H2).
Qed.

End StrictFrameFacts.

(** C7, refuted as stated.  A chapter file whose book code is not in
    [BOOK_NAMES] and that cannot be read, first in the sorted list: the
    first-file test opens it whatever its code, and [main] is left by the
    exception in both scripts, with their exceptions in place or not;
    nothing is written. *)
Lemma unknown_code_first_aborts :
  parse_filename_of WEB (lit "AAA01.htm") = Some (lit "AAA", 1%Z) /\
  parse_filename_of DARBY (lit "AAA01.htm") = Some (lit "AAA", 1%Z) /\
  dict_get BOOK_NAMES (lit "AAA") = None /\
  Batch.html_files_of WEB Batch.unknown_first
    = [lit "AAA01.htm"; lit "GEN01.htm"] /\
  main_of WEB Batch.unknown_first
    = Aborted [lit "Found 2 chapter files";
               lit "Testing first file: AAA01.htm"] /\
  main_of DARBY Batch.unknown_first
    = Aborted [lit "Processing Darby Translation from: "
                 ++ extract_darby.DARBY_DIR;
               lit "Found 2 chapter files in Darby Translation";
               lit "Testing first file: AAA01.htm"] /\
  (forall v,
     exists out,
       Strict.main_of v {| Strict.directory := Some Batch.unknown_first;
                           Strict.writable := true |}
       = Aborted out).
Proof.
  do 6 (split; [vm_compute; reflexivity|]).
  intros v. destruct v; eexists; vm_compute; reflexivity.
Qed.

(** C7, as amended.  In both scripts, a file whose name parses to a book
    code that is not a key of [BOOK_NAMES] is passed over by the loop of
    the batch driver: its iteration completes without raising and leaves
    the records and the output as they were, the loop over a list of files
    that contains it runs as the loop over the list without it, and the
    file contributes no record.  The loop does not read the file; the
    first-file test reads the first file of the sorted list whatever its
    code.  So, unless the file is the first of the sorted list, [main] ends
    in the same way, with the same records and the same lines, whatever
    reading the file gives, its content or an exception; and so does
    [main] with its exceptions in place. *)
Theorem unknown_book_code_skipped (v : script) (w : world) (f code : pystr)
  (ch : Z) :
  parse_filename_of v f = Some (code, ch) ->
  dict_get BOOK_NAMES code = None ->
  (forall st, process_file_of v w st f = Normal st) /\
  (forall before after st,
     for_files_of v w (before ++ f :: after) st
     = for_files_of v w (before ++ after) st) /\
  Batch.file_records v w f = [] /\
  (forall w',
     listdir w' = listdir w ->
     (forall g, g <> f -> read_text w' g = read_text w g) ->
     f <> hd [] (Batch.html_files_of v w) ->
     main_of v w' = main_of v w /\
     forall writable,
       Strict.main_of v {| Strict.directory := Some w';
                           Strict.writable := writable |}
       = Strict.main_of v {| Strict.directory := Some w;
                             Strict.writable := writable |}).
Proof.
  intros Hparse Hcode.
  assert (Hskip : forall st, process_file_of v w st f = Normal st).
  { intros st.
    destruct v; cbn [parse_filename_of process_file_of] in *.
    - unfold extract_bible_data.process_file.
      rewrite Hparse. unfold extract_bible_data.BOOK_NAMES. now rewrite Hcode.
    - unfold extract_darby.process_file.
      rewrite Hparse. unfold extract_darby.BOOK_NAMES. now rewrite Hcode. }
  split; [exact Hskip|]. split; [|split].
  - intros before after st.
    destruct v; cbn [process_file_of for_files_of] in *.
    + rewrite !DriverFacts.web_for_files_app.
      destruct (extract_bible_data.for_files w before st); [|reflexivity].
      cbn [extract_bible_data.for_files]. now rewrite Hskip.
    + unfold extract_darby.for_files. rewrite !fold_left_app.
      cbn [fold_left].
      specialize (Hskip (fold_left (extract_darby.process_file w) before st)).
      injection Hskip as Heq. now rewrite Heq.
  - unfold Batch.file_records. now rewrite Hparse, Hcode.
  - intros w' Hl Hr Hfirst.
    assert (Hfiles : Batch.html_files_of v w' = Batch.html_files_of v w)
      by (unfold Batch.html_files_of; now rewrite Hl).
    assert (H1 : Batch.html_files_of v w <> [] ->
              read_text w' (hd [] (Batch.html_files_of v w))
              = read_text w (hd [] (Batch.html_files_of v w))).
    { intros _. apply Hr. intros E. now apply Hfirst. }
    assert (H2 : forall g, In g (Batch.html_files_of v w) ->
              Batch.of_known_book v g -> read_text w' g = read_text w g).
    { intros g _ (c & n & b & Hp & Hd). apply Hr. intros ->. congruence. }
    split;
      [|intros b; now apply (StrictFrameFacts.main_reads v w' w b Hl H1 H2)].
    destruct v; cbn [main_of].
    + unfold extract_bible_data.main.
      change (sorted (filter extract_bible_data.is_chapter_file (listdir w')))
        with (Batch.html_files_of WEB w').
      change (sorted (filter extract_bible_data.is_chapter_file (listdir w)))
        with (Batch.html_files_of WEB w).
      rewrite Hfiles. cbv zeta.
      rewrite (FrameFacts.web_test_first_file_agree w' w _ _ H1).
      destruct (extract_bible_data.test_first_file w _ _); [|reflexivity].
      now rewrite (FrameFacts.web_for_files_agree w' w _ H2).
    + unfold extract_darby.main.
      change (sorted (filter extract_darby.is_chapter_file (listdir w')))
        with (Batch.html_files_of DARBY w').
      change (sorted (filter extract_darby.is_chapter_file (listdir w)))
        with (Batch.html_files_of DARBY w).
      rewrite Hfiles. cbv zeta.
      rewrite (FrameFacts.darby_test_first_file_agree w' w _ _ H1).
      destruct (extract_darby.test_first_file w _ _); [|reflexivity].
      now rewrite (FrameFacts.darby_for_files_agree w' w _ H2).
Qed.

Lemma unknown_book_code_skipped_witness :
  (forall st,
     process_file_of WEB Batch.all_readable st (lit "XYZ01.htm")
     = Normal st) /\
  (forall before after st,
     for_files_of WEB Batch.all_readable
       (before ++ lit "XYZ01.htm" :: after) st
     = for_files_of WEB Batch.all_readable (before ++ after) st) /\
  Batch.file_records WEB Batch.all_readable (lit "XYZ01.htm") = [] /\
  (forall w',
     listdir w' = listdir Batch.all_readable ->
     (forall g, g <> lit "XYZ01.htm" ->
                read_text w' g = read_text Batch.all_readable g) ->
     lit "XYZ01.htm" <> hd [] (Batch.html_files_of WEB Batch.all_readable) ->
     main_of WEB w' = main_of WEB Batch.all_readable /\
     forall writable,
       Strict.main_of WEB {| Strict.directory := Some w';
                             Strict.writable := writable |}
       = Strict.main_of WEB {| Strict.directory := Some Batch.all_readable;
                               Strict.writable := writable |}).
Proof.
  exact (unknown_book_code_skipped WEB Batch.all_readable (lit "XYZ01.htm")
           (lit "XYZ") 1%Z eq_refl eq_refl).
Defined.

(** In the sample directory the file of the unknown book is not the first:
    [main] writes the same whether that file can be read or not. *)
Example unknown_code_elsewhere_is_harmless :
  lit "XYZ01.htm" <> hd [] (Batch.html_files_of WEB Batch.all_readable) /\
  read_text Batch.others_unreadable (lit "XYZ01.htm")
    = IOError (lit "denied") /\
  (forall v, main_of v Batch.others_unreadable = main_of v Batch.all_readable).
Proof.
  split; [vm_compute; discriminate|]. split; [reflexivity|].
  intros v. destruct v; vm_compute; reflexivity.
Qed.

(** ** A popup span in a verse of the second script *)

Module PopupDarbyFacts.
Import Py Re Markup Scripts Shape PyFacts ReFacts PatternFacts ExtractFacts
  ScanFacts MarkerFacts.

Lemma inside_nil (rest : pystr) : no_terminator_inside [] rest.
Proof. intros [|? ?] c t2 H; discriminate. Qed.









End PopupDarbyFacts.



(** The verse with the popup in the second script, as an instance: the
    note stays, between the spaces that stand for the two tags. *)
Example popup_note_kept_in_second_script :
  extract_of DARBY with_popup = [(1%Z, lit "Word note end")] /\
  clean_text_of DARBY (lit "Word" ++ lit " " ++ lit "note" ++ lit " "
                         ++ lit " end")
    = lit "Word note end".
Proof. split; vm_compute; reflexivity. Qed.

(** ** Cleaning twice a text free of tags and entities *)

